(** * RxView enhancement pipeline: a shallow embedding

    The development follows the backend services of the repository:

    - [OpenAIService] (the Model Gateway): retry with backoff around the
      calls to the text-generation provider;
    - [DrugService] (record lookup, the Basic Content Assembler and the
      Enhancement Orchestrator);
    - [McpService] (the Tool Protocol Adapter);
    - [DrugController] (the HTTP endpoints in front of [DrugService]).

    Asynchronous methods are embedded in a state-and-exception monad over a
    [World] that holds the content cache, a clock, the number of provider
    calls made so far and a log of the observable effects.  State changes
    made before an exception is thrown persist, as they do in the source. *)

From stdpp Require Import gmap strings list.
From Equations Require Import Equations.
From Stdlib Require Import ZArith Ascii.

Local Open Scope string_scope.
Local Open Scope list_scope.

(** ** JavaScript strings (restricted to the ASCII range) *)

Definition is_upper (c : ascii) : bool :=
  (65 <=? nat_of_ascii c)%nat && (nat_of_ascii c <=? 90)%nat.

Definition lower_char (c : ascii) : ascii :=
  if is_upper c then ascii_of_nat (nat_of_ascii c + 32) else c.

(** [String.prototype.toLowerCase] *)
Fixpoint toLowerCase (s : string) : string :=
  match s with
  | EmptyString => EmptyString
  | String c r => String (lower_char c) (toLowerCase r)
  end.

(** [s.replace(/-/g, ' ')] *)
Fixpoint replaceHyphens (s : string) : string :=
  match s with
  | EmptyString => EmptyString
  | String c r => String (if Ascii.eqb c "-" then " "%char else c) (replaceHyphens r)
  end.

(** White space as [trim] and the regular expression class [\s] see it. *)
Definition is_space (c : ascii) : bool :=
  let n := nat_of_ascii c in
  (n =? 32)%nat || ((9 <=? n)%nat && (n <=? 13)%nat).

Fixpoint trimStart (s : string) : string :=
  match s with
  | EmptyString => EmptyString
  | String c r => if is_space c then trimStart r else s
  end.

Fixpoint trimEnd (s : string) : string :=
  match s with
  | EmptyString => EmptyString
  | String c r =>
      match trimEnd r with
      | EmptyString => if is_space c then EmptyString else String c EmptyString
      | r' => String c r'
      end
  end.

(** [String.prototype.trim] *)
Definition trim (s : string) : string := trimEnd (trimStart s).

(** Truthiness of a string: only the empty string is falsy. *)
Definition nonEmpty (s : string) : bool := negb (String.eqb s "").

(** Truthiness of a value of type [string | undefined]. *)
Definition truthy (o : option string) : bool :=
  match o with
  | Some s => nonEmpty s
  | None => false
  end.

(** [x || undefined] on a value of type [string | undefined] *)
Definition orUndefined (o : option string) : option string :=
  if truthy o then o else None.

(** ** The data model ([drug-label.interface.ts]) *)

(** The [label] object.  The optional prose fields are read by dynamic
    indexing ([drug.label[key]]), so they are kept as a finite map from the
    field key to its text. *)
Record Label := {
  genericName : string;
  labelerName : string;
  productType : string;
  effectiveTime : string;
  title : string;
  prose : gmap string string
}.

Record DrugLabel := {
  drugName : string;
  setId : string;
  slug : string;
  labeler : string;
  label : Label
}.

Record DrugSection := {
  sec_id : string;
  sec_title : string;
  sec_content : string;
  sec_enhancedContent : option string;
  sec_order : nat
}.

Record SeoMetadata := {
  seo_title : string;
  seo_description : string
}.

Record EnhancedDrugContent := {
  ec_id : string;
  ec_drugName : string;
  ec_genericName : string;
  ec_slug : string;
  ec_seoTitle : string;
  ec_metaDescription : string;
  ec_enhancedSummary : string;
  ec_sections : list DrugSection;
  ec_lastUpdated : Z
}.

(** ** Effects: the world, exceptions and the monad of asynchronous methods *)

(** A thrown JavaScript error.  [err_status] and [err_code] are the fields
    the retry policy inspects on a provider error. *)
Record JsError := {
  err_status : option Z;
  err_code : option string;
  err_message : string
}.

Definition Error (message : string) : JsError :=
  {| err_status := None; err_code := None; err_message := message |}.

(** The values the services store in the cache, one constructor per
    namespace. *)
Inductive CacheValue :=
| CachedContent (c : EnhancedDrugContent)
| CachedSeo (m : SeoMetadata)
| CachedText (s : string)
| CachedSectionMap (m : gmap string string)
| CachedSections (l : list DrugSection).

Record CacheEntry := {
  entry_value : CacheValue;
  entry_expires : Z
}.

Inductive Event :=
| EvCacheGet (key : string)
| EvCacheSet (key : string) (ttl : Z)
| EvProviderCall
| EvSleep (ms : Z).

Record World := {
  cache : gmap string CacheEntry;
  clock : Z;
  calls : nat;
  log : list Event
}.

Definition emit (ev : Event) (w : World) : World :=
  {| cache := cache w; clock := clock w; calls := calls w; log := log w ++ [ev] |}.

Inductive Outcome (A : Type) :=
| Return (a : A)
| Throw (e : JsError).
Arguments Return {A} a.
Arguments Throw {A} e.

Definition M (A : Type) : Type := World -> Outcome A * World.

#[global] Instance M_ret : MRet M := fun A a w => (Return a, w).

#[global] Instance M_bind : MBind M := fun A B f m w =>
  match m w with
  | (Return a, w') => f a w'
  | (Throw e, w') => (Throw e, w')
  end.

Definition throw {A} (e : JsError) : M A := fun w => (Throw e, w).

(** [try { body } catch (error) { handler }] *)
Definition tryCatch {A} (body : M A) (handler : JsError -> M A) : M A := fun w =>
  match body w with
  | (Return a, w') => (Return a, w')
  | (Throw e, w') => handler e w'
  end.

(** ** The Content Cache ([CacheService]) *)

(** Modelled from the spec: [cache.service.ts] is not among the sources.
    The spec gives the contract [get(key) -> value or absent] and
    [set(key, value, ttlSeconds) -> void], entries that read as absent once
    their time-to-live has passed, and a cache that never raises towards its
    caller.  The clock counts milliseconds.  [freshValue] is what a read of
    [key] finds. *)
Definition freshValue (key : string) (w : World) : option CacheValue :=
  match cache w !! key with
  | Some entry =>
      if (clock w <? entry_expires entry)%Z then Some (entry_value entry) else None
  | None => None
  end.

(** Modelled from the spec: [CacheService.get], the stored value when the
    entry is there and has not expired, absent otherwise. *)
Definition cacheService_get (key : string) : M (option CacheValue) := fun w =>
  (Return (freshValue key w), emit (EvCacheGet key) w).

(** Modelled from the spec: [CacheService.set], which stores the value for
    [ttl] seconds and replaces an earlier entry of the key. *)
Definition cacheService_set (key : string) (value : CacheValue) (ttl : Z) : M unit := fun w =>
  (Return tt,
   emit (EvCacheSet key ttl)
     {| cache := <[ key := {| entry_value := value;
                              entry_expires := (clock w + ttl * 1000)%Z |} ]> (cache w);
        clock := clock w; calls := calls w; log := log w |}).

(** [get<T>] is an unchecked cast in the source.  The model projects the
    stored value at [T]; the five namespaces have distinct key prefixes, so
    a key never holds a value of another namespace. *)
Definition asContent (v : CacheValue) : option EnhancedDrugContent :=
  match v with CachedContent c => Some c | _ => None end.
Definition asSeo (v : CacheValue) : option SeoMetadata :=
  match v with CachedSeo m => Some m | _ => None end.
Definition asText (v : CacheValue) : option string :=
  match v with CachedText s => if nonEmpty s then Some s else None | _ => None end.
Definition asSectionMap (v : CacheValue) : option (gmap string string) :=
  match v with CachedSectionMap m => Some m | _ => None end.
Definition asSections (v : CacheValue) : option (list DrugSection) :=
  match v with CachedSections l => Some l | _ => None end.

(** ** The tool protocol envelope ([mcp.interface.ts]) and the injected service *)

(** JSON values, as far as the adapter builds them; [JDate] is a [Date]
    object, which [JSON.stringify] writes through [toJSON]. *)
#[warnings="-register-all"]
Inductive Json :=
| JNull
| JBool (b : bool)
| JNum (n : Z)
| JStr (s : string)
| JDate (ms : Z)
| JArr (items : list Json)
| JObj (fields : list (string * Json)).

(** The [text] of a tool result: a literal string, or
    [JSON.stringify(value, null, 2)] of a value. *)
Inductive Text :=
| Plain (s : string)
| Stringified (value : Json).

(** A correlation id: [string | number | null]. *)
Inductive IdValue :=
| IdNull
| IdString (s : string)
| IdNumber (n : Z).

(** The [arguments] object of a tool call; every tool reads its own keys. *)
Record ToolArguments := {
  arg_drugName : option string;
  arg_genericName : option string;
  arg_query : option string;
  arg_labeler : option string;
  arg_page : option Z;
  arg_limit : option Z
}.

(** The [params] of a [tools/call].  The interface declares [arguments],
    but the body of a request is not validated, so a client may leave the
    member out: [toolCall.arguments] is then [undefined]. *)
Record McpToolCall := {
  call_name : string;
  call_arguments : option ToolArguments
}.

(** [id] and [params] are optional members of a request. *)
Record McpRequest := {
  req_method : string;
  req_params : option McpToolCall;
  req_id : option IdValue
}.

Record McpToolResult := {
  res_content : list Text;
  res_isError : option bool
}.

Record McpTool := {
  mcp_name : string;
  mcp_description : string;
  mcp_inputSchema : Json
}.

Inductive McpResult :=
| InitializeResult (descriptor : Json)
| ToolsListResult (tools : list McpTool)
| ToolCallResult (r : McpToolResult).

Record McpError := {
  error_code : Z;
  error_message : string;
  error_data : option string
}.

Record McpResponse := {
  resp_id : IdValue;
  resp_result : option McpResult;
  resp_error : option McpError
}.

(** The injected [DrugService], as far as the adapter calls it.  A tool
    client may leave [drugName] out, so the first argument of
    [getDrugByNames] may be [undefined]; the adapter hands the [arguments]
    of a [search_drugs] call to [searchDrugs] as they are, so its argument
    may be [undefined] too. *)
Record DrugServiceApi := {
  ds_getDrugByNames : option string -> option string -> M (option DrugLabel);
  ds_searchDrugs : option ToolArguments -> M Json;
  ds_getEnhancedContent : DrugLabel -> M EnhancedDrugContent
}.

(** The error of reading a property of [undefined]. *)
Definition typeErrorReading (property : string) : JsError :=
  Error ("Cannot read properties of undefined (reading '" +:+ property +:+ "')").

(** The error of destructuring [undefined], [const { property } = object],
    with the message of the V8 engine, like the one above. *)
Definition typeErrorDestructuring (property object : string) : JsError :=
  Error ("Cannot destructure property '" +:+ property +:+ "' of '" +:+ object +:+
         "' as it is undefined.").

(** ** The model provider (the [openai] client) *)

(** What one call of [create] on the provider client does: the promise
    rejects with an error, or it resolves and carries the generated text
    ([choices[0]?.message?.content], or [output_text]), which may be
    missing. *)
Inductive Reply :=
| Rejected (e : JsError)
| Completed (content : option string).

(** The provider client: its reply to the [n]-th call made through it.  The
    prompt is not part of the model, the replies are arbitrary. *)
Definition OpenAI := nat -> Reply.

(** ** The Model Gateway ([OpenAIService]) *)

Module OpenAIService.

Definition maxRetries : nat := 3.
Definition baseDelay : Z := 1000.

(** [setTimeout]-based [sleep]: the clock advances and the wait is logged. *)
Definition sleep (ms : Z) : M unit := fun w =>
  (Return tt,
   emit (EvSleep ms)
     {| cache := cache w; clock := (clock w + ms)%Z; calls := calls w; log := log w |}).

(** [error.status === 429 || error.code === 'rate_limit_exceeded'] *)
Definition isRateLimit (e : JsError) : bool :=
  match err_status e with Some s => (s =? 429)%Z | None => false end
  || match err_code e with Some c => String.eqb c "rate_limit_exceeded" | None => false end.

(** The wait before the retry that follows failed attempt [attempt], which
    counts from 1: [baseDelay * Math.pow(2, attempt - 1)] after a rate-limit
    error, 500 ms otherwise. *)
Definition retryDelay (e : JsError) (attempt : nat) : Z :=
  if isRateLimit e then (baseDelay * 2 ^ (Z.of_nat attempt - 1))%Z else 500%Z.

(** The retry loop.  The calls to the logger have no effect on the outcome
    and are left out. *)
Equations? callOpenAIWithRetry {T : Type} (operation : M T) (drug : DrugLabel)
    (attempt : nat) (w : World) : Outcome T * World by wf (maxRetries - attempt) lt :=
  callOpenAIWithRetry operation drug attempt w with operation w => {
    | (Return v, w') := (Return v, w');
    | (Throw e, w') with le_lt_dec maxRetries attempt => {
        | left _ := (Throw e, w');
        | right _ :=
            callOpenAIWithRetry operation drug (S attempt)
              (snd (sleep (retryDelay e attempt) w')) } }.
Proof. unfold maxRetries in *. lia. Qed.

(** [this.openai.chat.completions.create(...)] and
    [this.openai.responses.create(...)]: one call to the provider. *)
Definition create (client : OpenAI) : M (option string) := fun w =>
  let w' := emit EvProviderCall
              {| cache := cache w; clock := clock w; calls := S (calls w); log := log w |} in
  match client (calls w) with
  | Rejected e => (Throw e, w')
  | Completed content => (Return content, w')
  end.

Definition getFallbackSEOMetadata (drug : DrugLabel) : SeoMetadata :=
  {| seo_title := drugName drug +:+ " (" +:+ genericName (label drug) +:+ ") - Prescription Info";
     seo_description :=
       "Complete prescribing information for " +:+ drugName drug +:+ " (" +:+
       genericName (label drug) +:+ ") by " +:+ labeler drug +:+
       ". Dosage, side effects, warnings & more." |}.

Definition getFallbackSummary (drug : DrugLabel) : string :=
  drugName drug +:+ " is a prescription medication containing the active ingredient " +:+
  genericName (label drug) +:+ ", manufactured by " +:+ labeler drug +:+ ".".

(** The error [JSON.parse] throws on a text that is not JSON. *)
Definition syntaxError : JsError := Error "SyntaxError: the text is not valid JSON".

(** The twelve keys of [sectionsToEnhance], in the order of the object
    literal. *)
Definition sectionsToEnhance : list string :=
  [ "indicationsAndUsage"; "dosageAndAdministration"; "dosageFormsAndStrengths";
    "warningsAndPrecautions"; "adverseReactions"; "clinicalPharmacology";
    "clinicalStudies"; "howSupplied"; "useInSpecificPopulations"; "description";
    "nonclinicalToxicology"; "instructionsForUse" ].

(** [content && content.trim()] *)
Definition hasText (content : option string) : bool :=
  match content with
  | Some s => nonEmpty s && nonEmpty (trim s)
  | None => false
  end.

(** [Object.keys(availableSections)]: the keys the batch call asks for, and
    lists in [required] of the response schema.  The values (the stripped and
    truncated texts) only feed the prompt. *)
Definition availableSections (drug : DrugLabel) : list string :=
  filter (fun key => hasText (prose (label drug) !! key)) sectionsToEnhance.

(** [hashContent]: [hash = ((hash << 5) - hash) + char; hash = hash & hash]
    over the characters, on 32-bit signed integers, then
    [Math.abs(hash).toString(16)]. *)
Definition toInt32 (z : Z) : Z :=
  ((z + 2147483648) mod 4294967296 - 2147483648)%Z.

Definition hashStep (hash : Z) (c : ascii) : Z :=
  toInt32 (toInt32 (Z.shiftl hash 5) - hash + Z.of_nat (nat_of_ascii c)).

Fixpoint hashLoop (content : string) (hash : Z) : Z :=
  match content with
  | EmptyString => hash
  | String c r => hashLoop r (hashStep hash c)
  end.

Definition hexDigit (d : Z) : ascii :=
  if (d <? 10)%Z then ascii_of_nat (48 + Z.to_nat d) else ascii_of_nat (87 + Z.to_nat d).

Fixpoint toHex (fuel : nat) (z : Z) (acc : string) : string :=
  match fuel with
  | O => acc
  | S fuel' =>
      let acc' := String (hexDigit (z mod 16)) acc in
      if (z / 16 =? 0)%Z then acc' else toHex fuel' (z / 16) acc'
  end.

(** Nine digits are more than the eight that a 32-bit magnitude needs. *)
Definition hashContent (content : string) : string :=
  toHex 9 (Z.abs (hashLoop content 0)) "".

(** [stripHtml], which prepares the text of a section for the prompt. *)

Fixpoint hasClosing (s : string) : bool :=
  match s with
  | EmptyString => false
  | String c r => Ascii.eqb c ">" || hasClosing r
  end.

(** [html.replace(/<[^>]*>/g, '')]: a [<] opens a tag when a [>] follows it
    somewhere, and the tag runs to the first [>]. *)
Fixpoint stripTags (inTag : bool) (html : string) : string :=
  match html with
  | EmptyString => EmptyString
  | String c r =>
      if inTag then (if Ascii.eqb c ">" then stripTags false r else stripTags true r)
      else if Ascii.eqb c "<" && hasClosing r then stripTags true r
      else String c (stripTags false r)
  end.

(** [s.replace(/pattern/g, replacement)] for a literal pattern; [skip]
    counts the characters of a match that are still to be passed over. *)
Fixpoint replaceAll (pattern replacement : string) (skip : nat) (s : string) : string :=
  match s with
  | EmptyString => EmptyString
  | String c r =>
      match skip with
      | S skip' => replaceAll pattern replacement skip' r
      | O =>
          if String.prefix pattern s
          then replacement +:+ replaceAll pattern replacement (String.length pattern - 1) r
          else String c (replaceAll pattern replacement 0 r)
      end
  end.

(** [s.replace(/\s+/g, ' ')] *)
Fixpoint collapseSpaces (inRun : bool) (s : string) : string :=
  match s with
  | EmptyString => EmptyString
  | String c r =>
      if is_space c
      then (if inRun then collapseSpaces true r else String " " (collapseSpaces true r))
      else String c (collapseSpaces false r)
  end.

Definition stripHtml (html : string) : string :=
  trim (collapseSpaces false
          (replaceAll "&gt;" ">" 0
             (replaceAll "&lt;" "<" 0
                (replaceAll "&amp;" "&" 0
                   (replaceAll "&nbsp;" " " 0 (stripTags false html)))))).

(** The object [availableSections] with its values: the key of every
    section that has text, with the text as the prompt shows it. *)
Definition availableSectionEntries (drug : DrugLabel) : list (string * string) :=
  map (fun key =>
         (key, String.substring 0 1000 (stripHtml (default "" (prose (label drug) !! key)))))
      (availableSections drug).

Section Gateway.

(** [JSON.parse] at the two types the Gateway reads a provider text at;
    [None] stands for the [SyntaxError] it throws. *)
Variable JSON_parse_seo : string -> option SeoMetadata.
Variable JSON_parse_sections : string -> option (gmap string string).

(** The field [this.openai]: absent when no API key is configured. *)
Variable openai : option OpenAI.

Definition generateSEOMetadata (drug : DrugLabel) : M SeoMetadata :=
  match openai with
  | None => mret (getFallbackSEOMetadata drug)
  | Some client =>
      let cacheKey := "seo_metadata:" +:+ setId drug in
      cached ← cacheService_get cacheKey;
      match cached ≫= asSeo with
      | Some hit => mret hit
      | None =>
          callOpenAIWithRetry
            (response ← create client;
             if truthy response then
               match JSON_parse_seo (default "" response) with
               | Some result =>
                   _ ← cacheService_set cacheKey (CachedSeo result) 86400;
                   mret result
               | None => mret (getFallbackSEOMetadata drug)
               end
             else throw (Error "No response from OpenAI"))
            drug 1
      end
  end.

Definition generateDrugSummary (drug : DrugLabel) : M string :=
  match openai with
  | None => mret (getFallbackSummary drug)
  | Some client =>
      let cacheKey := "drug_summary:" +:+ setId drug in
      cached ← cacheService_get cacheKey;
      match cached ≫= asText with
      | Some hit => mret hit
      | None =>
          callOpenAIWithRetry
            (content ← create client;
             let response := trim <$> content in
             let summary := default (getFallbackSummary drug) (orUndefined response) in
             _ ← cacheService_set cacheKey (CachedText summary) 86400;
             mret summary)
            drug 1
      end
  end.

Definition enhanceAllSections (drug : DrugLabel) : M (gmap string string) :=
  match openai with
  | None => mret ∅
  | Some client =>
      let cacheKey := "enhanced_sections:" +:+ setId drug in
      cached ← cacheService_get cacheKey;
      match cached ≫= asSectionMap with
      | Some hit => mret hit
      | None =>
          if (length (availableSections drug) =? 0)%nat then mret ∅
          else
            callOpenAIWithRetry
              (output_text ← create client;
               match JSON_parse_sections (default "" output_text) with
               | Some result =>
                   _ ← cacheService_set cacheKey (CachedSectionMap result) 86400;
                   mret result
               | None => throw syntaxError
               end)
              drug 1
      end
  end.

(** The deprecated single-section call. *)
Definition enhanceSection (content : string) (drug : DrugLabel) : M string :=
  match openai with
  | None => mret ""
  | Some client =>
      if nonEmpty content then
        let cacheKey :=
          "enhanced_section:" +:+ setId drug +:+ ":" +:+ hashContent content in
        cached ← cacheService_get cacheKey;
        match cached ≫= asText with
        | Some hit => mret hit
        | None =>
            callOpenAIWithRetry
              (reply ← create client;
               let response := default "" (trim <$> reply) in
               _ ← (if nonEmpty response
                    then cacheService_set cacheKey (CachedText response) 86400
                    else mret tt);
               mret response)
              drug 1
        end
      else mret ""
  end.

End Gateway.

End OpenAIService.

(** ** Records, content assembly and orchestration ([DrugService]) *)

Module DrugService.

(** *** The Basic Content Assembler ([buildDrugSections]) *)

Definition sectionMappings : list (string * string) :=
  [ ("indicationsAndUsage", "Indications and Usage");
    ("dosageAndAdministration", "Dosage and Administration");
    ("dosageFormsAndStrengths", "Dosage Forms and Strengths");
    ("warningsAndPrecautions", "Warnings and Precautions");
    ("adverseReactions", "Adverse Reactions");
    ("clinicalPharmacology", "Clinical Pharmacology");
    ("clinicalStudies", "Clinical Studies");
    ("howSupplied", "How Supplied/Storage and Handling");
    ("useInSpecificPopulations", "Use in Specific Populations");
    ("description", "Description");
    ("nonclinicalToxicology", "Nonclinical Toxicology");
    ("instructionsForUse", "Instructions for Use") ].

(** One turn of the [forEach] callback: [sections.push] and [order++] when
    the field is a non-empty string. *)
Definition pushSection (drug : DrugLabel)
    (acc : list DrugSection * nat) (mapping : string * string)
    : list DrugSection * nat :=
  let '(sections, order) := acc in
  let '(key, title) := mapping in
  match prose (label drug) !! key with
  | Some content =>
      if nonEmpty content
      then (sections ++ [ {| sec_id := setId drug +:+ "-" +:+ key;
                             sec_title := title;
                             sec_content := content;
                             sec_enhancedContent := None;
                             sec_order := order |} ], S order)
      else (sections, order)
  | None => (sections, order)
  end.

Definition buildDrugSections (drug : DrugLabel) : list DrugSection :=
  fst (fold_left (pushSection drug) sectionMappings ([], 1)).

(** *** Record lookup ([getDrugByNames]) *)

(** [name.toLowerCase().replace(/-/g, ' ')] *)
Definition normalizeName (s : string) : string := replaceHyphens (toLowerCase s).

(** [drugs] is the field [this.drugs], loaded once when the module starts.
    The test [if (genericName)] is a truthiness test: an empty generic name
    takes the same branch as a missing one. *)
Definition getDrugByNames (drugs : list DrugLabel)
    (drugName' : string) (genericName' : option string) : option DrugLabel :=
  let normalizedDrugName := normalizeName drugName' in
  if truthy genericName' then
    let normalizedGenericName := toLowerCase (default "" genericName') in
    find (fun drug =>
            String.eqb (normalizeName (drugName drug)) normalizedDrugName
            && String.eqb (toLowerCase (genericName (label drug))) normalizedGenericName)
         drugs
  else
    find (fun drug =>
            String.eqb (normalizeName (drugName drug)) normalizedDrugName
            || String.eqb (normalizeName (genericName (label drug))) normalizedDrugName)
         drugs.

(** *** The Enhancement Orchestrator *)

Definition is_word (c : ascii) : bool :=
  let n := nat_of_ascii c in
  ((48 <=? n)%nat && (n <=? 57)%nat) || ((65 <=? n)%nat && (n <=? 90)%nat)
  || ((97 <=? n)%nat && (n <=? 122)%nat) || (n =? 95)%nat.

(** [s.replace(/[^\w\s-]/g, '')] *)
Fixpoint keepSlugChars (s : string) : string :=
  match s with
  | EmptyString => EmptyString
  | String c r =>
      if is_word c || is_space c || Ascii.eqb c "-"
      then String c (keepSlugChars r) else keepSlugChars r
  end.

(** [s.replace(/\s+/g, '-')]; [inRun] tells that the previous character was
    white space too. *)
Fixpoint dashSpaces (inRun : bool) (s : string) : string :=
  match s with
  | EmptyString => EmptyString
  | String c r =>
      if is_space c
      then (if inRun then dashSpaces true r else String "-" (dashSpaces true r))
      else String c (dashSpaces false r)
  end.

Definition createSlug (text : string) : string :=
  trim (dashSpaces false (keepSlugChars (toLowerCase text))).

Definition titleMappings : list (string * string) :=
  [ ("Indications and Usage", "indicationsAndUsage");
    ("Dosage and Administration", "dosageAndAdministration");
    ("Dosage Forms and Strengths", "dosageFormsAndStrengths");
    ("Warnings and Precautions", "warningsAndPrecautions");
    ("Adverse Reactions", "adverseReactions");
    ("Clinical Pharmacology", "clinicalPharmacology");
    ("Clinical Studies", "clinicalStudies");
    ("How Supplied/Storage and Handling", "howSupplied");
    ("Use in Specific Populations", "useInSpecificPopulations");
    ("Description", "description");
    ("Nonclinical Toxicology", "nonclinicalToxicology");
    ("Instructions for Use", "instructionsForUse") ].

(** [titleMappings[title] || ''] *)
Definition getSectionKeyFromTitle (title' : string) : string :=
  match find (fun entry => String.eqb (fst entry) title') titleMappings with
  | Some entry => snd entry
  | None => ""
  end.

(** [new Date()] *)
Definition newDate : M Z := fun w => (Return (clock w), w).

(** [{ ...section, enhancedContent: enhancedContent || undefined }] *)
Definition withEnhancedContent (enhancedData : gmap string string)
    (section : DrugSection) : DrugSection :=
  let sectionKey := getSectionKeyFromTitle (sec_title section) in
  let enhancedContent := enhancedData !! sectionKey in
  {| sec_id := sec_id section;
     sec_title := sec_title section;
     sec_content := sec_content section;
     sec_enhancedContent := orUndefined enhancedContent;
     sec_order := sec_order section |}.

(** The object of the [catch] branch of [getEnhancedContent]. *)
Definition fallbackContent (drug : DrugLabel) (now : Z) : EnhancedDrugContent :=
  {| ec_id := setId drug;
     ec_drugName := drugName drug;
     ec_genericName := genericName (label drug);
     ec_slug := createSlug (drugName drug);
     ec_seoTitle :=
       drugName drug +:+ " (" +:+ genericName (label drug) +:+ ") - Drug Information";
     ec_metaDescription :=
       "Complete prescribing information for " +:+ drugName drug +:+ " (" +:+
       genericName (label drug) +:+ "). Indications, dosage, warnings, and more.";
     ec_enhancedSummary :=
       drugName drug +:+ " is a prescription medication containing " +:+
       genericName (label drug) +:+ ".";
     ec_sections := buildDrugSections drug;
     ec_lastUpdated := now |}.

Section Orchestrator.

Variable JSON_parse_seo : string -> option SeoMetadata.
Variable JSON_parse_sections : string -> option (gmap string string).
Variable openai : option OpenAI.

Definition enhanceAllSectionsAtOnce (sections : list DrugSection) (drug : DrugLabel)
    : M (list DrugSection) :=
  let cacheKey := "enhanced_all_sections:" +:+ setId drug in
  cached ← cacheService_get cacheKey;
  match cached ≫= asSections with
  | Some hit => mret hit
  | None =>
      tryCatch
        (enhancedData ← OpenAIService.enhanceAllSections JSON_parse_sections openai drug;
         let enhancedSections := map (withEnhancedContent enhancedData) sections in
         _ ← cacheService_set cacheKey (CachedSections enhancedSections) 3600;
         mret enhancedSections)
        (fun error => mret sections)
  end.

(** The body of the [try] block of [getEnhancedContent]. *)
Definition generateEnhancedContent (drug : DrugLabel) : M EnhancedDrugContent :=
  let cacheKey := "enhanced_content:" +:+ setId drug in
  seoMetadata ← OpenAIService.generateSEOMetadata JSON_parse_seo openai drug;
  enhancedSummary ← OpenAIService.generateDrugSummary openai drug;
  let sections := buildDrugSections drug in
  enhancedSections ← enhanceAllSectionsAtOnce sections drug;
  now ← newDate;
  let enhancedContent :=
    {| ec_id := setId drug;
       ec_drugName := drugName drug;
       ec_genericName := genericName (label drug);
       ec_slug := createSlug (drugName drug);
       ec_seoTitle := seo_title seoMetadata;
       ec_metaDescription := seo_description seoMetadata;
       ec_enhancedSummary := enhancedSummary;
       ec_sections := enhancedSections;
       ec_lastUpdated := now |} in
  _ ← cacheService_set cacheKey (CachedContent enhancedContent) 3600;
  mret enhancedContent.

Definition getEnhancedContent (drug : DrugLabel) : M EnhancedDrugContent :=
  let cacheKey := "enhanced_content:" +:+ setId drug in
  cached ← cacheService_get cacheKey;
  match cached ≫= asContent with
  | Some hit => mret hit
  | None =>
      tryCatch
        (generateEnhancedContent drug)
        (fun error => now ← newDate; mret (fallbackContent drug now))
  end.

End Orchestrator.

(** *** Search ([searchDrugs]) *)

(** [s.includes(sub)] *)
Fixpoint includes (s sub : string) : bool :=
  String.prefix sub s
  || match s with
     | EmptyString => false
     | String _ r => includes r sub
     end.

(** [Array.prototype.slice(start, end)], negative indices counting from the
    end. *)
Definition slice {A} (l : list A) (start stop : Z) : list A :=
  let len := Z.of_nat (length l) in
  let from := if (start <? 0)%Z then Z.max (len + start) 0 else Z.min start len in
  let to := if (stop <? 0)%Z then Z.max (len + stop) 0 else Z.min stop len in
  take (Z.to_nat (to - from)) (drop (Z.to_nat from) l).

(** [n || dflt] on an optional number *)
Definition numberOr (n : option Z) (dflt : Z) : Z :=
  match n with
  | Some v => if (v =? 0)%Z then dflt else v
  | None => dflt
  end.

(** [Math.ceil(a / b)] for [b] other than zero *)
Definition ceilDiv (a b : Z) : Z := (- ((- a) / b))%Z.

Definition matchesQuery (query : string) (drug : DrugLabel) : bool :=
  includes (toLowerCase (drugName drug)) query
  || includes (toLowerCase (genericName (label drug))) query
  || includes (toLowerCase (labeler drug)) query
  || match prose (label drug) !! "indicationsAndUsage" with
     | Some text => includes (toLowerCase text) query
     | None => false
     end.

Definition searchItem (drug : DrugLabel) : Json :=
  JObj [("drugName", JStr (drugName drug));
        ("genericName", JStr (genericName (label drug)));
        ("labeler", JStr (labeler drug));
        ("url", JStr ("/drugs/" +:+ createSlug (drugName drug) +:+ "-" +:+
                      createSlug (genericName (label drug))))].

Definition searchDrugs (drugs : list DrugLabel) (searchDto : ToolArguments) : Json :=
  let filteredDrugs :=
    if truthy (arg_query searchDto)
    then filter (fun drug => matchesQuery (toLowerCase (default "" (arg_query searchDto))) drug)
                drugs
    else drugs in
  let filteredDrugs :=
    if truthy (arg_labeler searchDto)
    then filter (fun drug =>
                   includes (toLowerCase (labeler drug))
                            (toLowerCase (default "" (arg_labeler searchDto))))
                filteredDrugs
    else filteredDrugs in
  let page := numberOr (arg_page searchDto) 1 in
  let limit := numberOr (arg_limit searchDto) 20 in
  let startIndex := ((page - 1) * limit)%Z in
  let endIndex := (startIndex + limit)%Z in
  let paginatedDrugs := slice filteredDrugs startIndex endIndex in
  let total := Z.of_nat (length filteredDrugs) in
  JObj [("drugs", JArr (map searchItem paginatedDrugs));
        ("pagination",
          JObj [("page", JNum page);
                ("limit", JNum limit);
                ("total", JNum total);
                ("totalPages", JNum (ceilDiv total limit));
                ("hasNext", JBool (endIndex <? total)%Z);
                ("hasPrev", JBool (1 <? page)%Z)])].

(** *** Basic content ([getBasicContent]) *)

(** The enhanced content without its four generated members. *)
Record BasicContent := {
  bc_id : string;
  bc_drugName : string;
  bc_genericName : string;
  bc_slug : string;
  bc_sections : list DrugSection;
  bc_lastUpdated : Z
}.

Definition getBasicContent (drug : DrugLabel) : M BasicContent :=
  now ← newDate;
  mret {| bc_id := setId drug;
          bc_drugName := drugName drug;
          bc_genericName := genericName (label drug);
          bc_slug := createSlug (drugName drug);
          bc_sections := buildDrugSections drug;
          bc_lastUpdated := now |}.

(** *** The sitemap ([generateSitemap], [formatDate]) *)

Section Sitemap.

(** [new Date(ms).toISOString().split('T')[0]]: the calendar date of a
    time, a function of the runtime. *)
Variable toISODate : Z -> string.

(** [now] is the time [new Date()] reads. *)
Definition formatDate (now : Z) (dateString : string) : string :=
  if (String.length dateString =? 8)%nat then
    let year := String.substring 0 4 dateString in
    let month := String.substring 4 2 dateString in
    let day := String.substring 6 2 dateString in
    year +:+ "-" +:+ month +:+ "-" +:+ day
  else toISODate now.

Definition sitemapEntry (now : Z) (drug : DrugLabel) : Json :=
  JObj [("url", JStr ("/drugs/" +:+ createSlug (drugName drug) +:+ "-" +:+
                      createSlug (genericName (label drug))));
        ("lastmod",
          JStr (if nonEmpty (effectiveTime (label drug))
                then formatDate now (effectiveTime (label drug))
                else toISODate now));
        ("changefreq", JStr "monthly");
        ("priority", JStr "0.8")].

(** Nothing waits during the [map], so every [new Date()] of one run
    reads the same clock. *)
Definition generateSitemap (drugs : list DrugLabel) : M Json :=
  now ← newDate;
  let sitemapUrls := map (sitemapEntry now) drugs in
  mret (JObj [("urls", JArr sitemapUrls);
              ("totalUrls", JNum (Z.of_nat (length sitemapUrls)))]).

End Sitemap.

(** *** The service as the adapter sees it *)

(** [getDrugByNames] reads [drugName.toLowerCase()] first, which throws when
    the caller passes [undefined]; [searchDrugs] reads [searchDto.query]
    first, which throws when the caller passes [undefined]. *)
Definition service (JSON_parse_seo : string -> option SeoMetadata)
    (JSON_parse_sections : string -> option (gmap string string))
    (openai : option OpenAI) (drugs : list DrugLabel) : DrugServiceApi :=
  {| ds_getDrugByNames := fun drugName' genericName' =>
       match drugName' with
       | Some name => mret (getDrugByNames drugs name genericName')
       | None => throw (typeErrorReading "toLowerCase")
       end;
     ds_searchDrugs := fun searchDto =>
       match searchDto with
       | Some searchDto => mret (searchDrugs drugs searchDto)
       | None => throw (typeErrorReading "query")
       end;
     ds_getEnhancedContent :=
       getEnhancedContent JSON_parse_seo JSON_parse_sections openai |}.

End DrugService.

(** ** The Tool Protocol Adapter ([McpService], [McpController]) *)

Module McpService.

(** [request.id ?? null] *)
Definition idOrNull_nullish (id : option IdValue) : IdValue := default IdNull id.

(** [request.id || null] *)
Definition idOrNull_falsy (id : option IdValue) : IdValue :=
  match id with
  | Some (IdString s) => if nonEmpty s then IdString s else IdNull
  | Some (IdNumber n) => if (n =? 0)%Z then IdNull else IdNumber n
  | Some IdNull | None => IdNull
  end.

Definition initialize (id : IdValue) : McpResponse :=
  {| resp_id := id;
     resp_result :=
       Some (InitializeResult
               (JObj [("protocolVersion", JStr "2024-11-05");
                      ("capabilities", JObj [("tools", JObj [])]);
                      ("serverInfo", JObj [("name", JStr "rxview-drug-server");
                                           ("version", JStr "1.0.0")])]));
     resp_error := None |}.

Definition stringProperty (text : string) : Json :=
  JObj [("type", JStr "string"); ("description", JStr text)].

Definition numberProperty (text : string) (dflt : Z) : Json :=
  JObj [("type", JStr "number"); ("description", JStr text); ("default", JNum dflt)].

Definition nameSchema : Json :=
  JObj [("type", JStr "object");
        ("properties",
          JObj [("drugName", stringProperty "The brand name of the drug");
                ("genericName", stringProperty "The generic name of the drug (optional)")]);
        ("required", JArr [JStr "drugName"])].

Definition searchSchema : Json :=
  JObj [("type", JStr "object");
        ("properties",
          JObj [("query", stringProperty
                   "Search query to match against drug names, generic names, or labelers");
                ("labeler", stringProperty "Filter by specific drug manufacturer/labeler");
                ("page", numberProperty "Page number for pagination (default: 1)" 1);
                ("limit", numberProperty "Number of results per page (default: 20)" 20)])].

Definition listTools (id : IdValue) : McpResponse :=
  let tools :=
    [ {| mcp_name := "get_drug_by_name";
         mcp_description :=
           "Get detailed drug information by drug name and optional generic name";
         mcp_inputSchema := nameSchema |};
      {| mcp_name := "search_drugs";
         mcp_description := "Search for drugs by name, generic name, or labeler";
         mcp_inputSchema := searchSchema |};
      {| mcp_name := "get_enhanced_sections";
         mcp_description := "Get AI-enhanced content sections for a specific drug";
         mcp_inputSchema := nameSchema |} ] in
  {| resp_id := id; resp_result := Some (ToolsListResult tools); resp_error := None |}.

(** An [undefined] inside a template literal prints as the word. *)
Definition display (o : option string) : string := default "undefined" o.

(** [genericName ? `${drugName} (${genericName})` : drugName] *)
Definition searchTerm (drugName' genericName' : option string) : string :=
  if truthy genericName'
  then display drugName' +:+ " (" +:+ display genericName' +:+ ")"
  else display drugName'.

Definition notFound (drugName' genericName' : option string) : McpToolResult :=
  {| res_content := [Plain ("Drug not found: " +:+ searchTerm drugName' genericName')];
     res_isError := Some true |}.

Definition sectionToJson (section : DrugSection) : Json :=
  JObj ([("id", JStr (sec_id section));
         ("title", JStr (sec_title section));
         ("content", JStr (sec_content section));
         ("order", JNum (Z.of_nat (sec_order section)))]
        ++ match sec_enhancedContent section with
           | Some e => [("enhancedContent", JStr e)]
           | None => []
           end).

Definition contentToJson (c : EnhancedDrugContent) : Json :=
  JObj [("id", JStr (ec_id c));
        ("drugName", JStr (ec_drugName c));
        ("genericName", JStr (ec_genericName c));
        ("slug", JStr (ec_slug c));
        ("seoTitle", JStr (ec_seoTitle c));
        ("metaDescription", JStr (ec_metaDescription c));
        ("enhancedSummary", JStr (ec_enhancedSummary c));
        ("sections", JArr (map sectionToJson (ec_sections c)));
        ("lastUpdated", JDate (ec_lastUpdated c))].

(** The object a section is mapped to in [getEnhancedSections]; the filter
    before it leaves only sections whose [enhancedContent] is set. *)
Definition renderEnhancedSection (section : DrugSection) : Json :=
  JObj ([("title", JStr (sec_title section));
         ("originalContent", JStr (sec_content section))]
        ++ match sec_enhancedContent section with
           | Some e => [("enhancedContent", JStr e)]
           | None => []
           end).

Section Adapter.

Variable drugService : DrugServiceApi.

(** [const { drugName, genericName } = args] throws when [args] is
    [undefined], before anything else is done. *)
Definition getDrugByName (args : option ToolArguments) : M McpToolResult :=
  match args with
  | None => throw (typeErrorDestructuring "drugName" "args")
  | Some args =>
      let drugName' := arg_drugName args in
      let genericName' := arg_genericName args in
      drug ← ds_getDrugByNames drugService drugName' genericName';
      match drug with
      | None => mret (notFound drugName' genericName')
      | Some drug =>
          enhancedContent ← ds_getEnhancedContent drugService drug;
          mret {| res_content := [Stringified (contentToJson enhancedContent)];
                  res_isError := None |}
      end
  end.

Definition searchDrugs (args : option ToolArguments) : M McpToolResult :=
  searchResults ← ds_searchDrugs drugService args;
  mret {| res_content := [Stringified searchResults]; res_isError := None |}.

Definition getEnhancedSections (args : option ToolArguments) : M McpToolResult :=
  match args with
  | None => throw (typeErrorDestructuring "drugName" "args")
  | Some args =>
      let drugName' := arg_drugName args in
      let genericName' := arg_genericName args in
      drug ← ds_getDrugByNames drugService drugName' genericName';
      match drug with
      | None => mret (notFound drugName' genericName')
      | Some drug =>
          enhancedContent ← ds_getEnhancedContent drugService drug;
          let enhancedSections :=
            filter (fun section => truthy (sec_enhancedContent section))
                   (ec_sections enhancedContent) in
          mret {| res_content :=
                    [Stringified
                       (JObj [("drugName", JStr (ec_drugName enhancedContent));
                              ("genericName", JStr (ec_genericName enhancedContent));
                              ("enhancedSections",
                                JArr (map renderEnhancedSection enhancedSections))])];
                  res_isError := None |}
      end
  end.

(** A request without [params] reaches [executeTool] with [undefined],
    and reading [toolCall.name] throws. *)
Definition executeTool (toolCall : option McpToolCall) : M McpToolResult :=
  match toolCall with
  | None => throw (typeErrorReading "name")
  | Some toolCall =>
      let name := call_name toolCall in
      if String.eqb name "get_drug_by_name" then getDrugByName (call_arguments toolCall)
      else if String.eqb name "search_drugs" then searchDrugs (call_arguments toolCall)
      else if String.eqb name "get_enhanced_sections"
           then getEnhancedSections (call_arguments toolCall)
      else throw (Error ("Unknown tool: " +:+ name))
  end.

(** The [catch] branch logs [params.name] before it builds its result, so
    it throws in turn when there are no [params]. *)
Definition callTool (id : IdValue) (params : option McpToolCall) : M McpResponse :=
  tryCatch
    (result ← executeTool params;
     mret {| resp_id := id; resp_result := Some (ToolCallResult result);
             resp_error := None |})
    (fun error =>
       match params with
       | None => throw (typeErrorReading "name")
       | Some _ =>
           mret {| resp_id := id;
                   resp_result :=
                     Some (ToolCallResult
                             {| res_content :=
                                  [Plain ("Error executing tool: " +:+ err_message error)];
                                res_isError := Some true |});
                   resp_error := None |}
       end).

Definition handleRequest (request : McpRequest) : M McpResponse :=
  let method := req_method request in
  if String.eqb method "tools/list" then mret (listTools (idOrNull_nullish (req_id request)))
  else if String.eqb method "tools/call"
       then callTool (idOrNull_nullish (req_id request)) (req_params request)
  else if String.eqb method "initialize"
       then mret (initialize (idOrNull_nullish (req_id request)))
  else mret {| resp_id := idOrNull_falsy (req_id request);
               resp_result := None;
               resp_error := Some {| error_code := -32601;
                                     error_message := "Method not found: " +:+ method;
                                     error_data := None |} |}.

(** [McpController.handleMcpRequest] *)
Definition handleMcpRequest (request : McpRequest) : M McpResponse :=
  tryCatch
    (handleRequest request)
    (fun error =>
       mret {| resp_id := idOrNull_falsy (req_id request);
               resp_result := None;
               resp_error := Some {| error_code := -32603;
                                     error_message := "Internal error";
                                     error_data := Some (err_message error) |} |}).

End Adapter.

End McpService.

(** ** The HTTP endpoints ([DrugController]) *)

Module DrugController.

Inductive HttpException :=
| NotFoundException (message : string)
| InternalServerErrorException (message : string).

(** What can be thrown inside the [try] block of an endpoint: an error that
    comes out of a call of the service, or an HTTP exception of the
    controller's own. *)
Inductive Thrown :=
| ServiceError (e : JsError)
| Http (e : HttpException).

Inductive Settled (A : Type) :=
| Fulfilled (a : A)
| Failed (t : Thrown).
Arguments Fulfilled {A} a.
Arguments Failed {A} t.

(** The body of a [try] block. *)
Definition Try (A : Type) : Type := World -> Settled A * World.

#[global] Instance Try_ret : MRet Try := fun A a w => (Fulfilled a, w).

#[global] Instance Try_bind : MBind Try := fun A B f m w =>
  match m w with
  | (Fulfilled a, w') => f a w'
  | (Failed t, w') => (Failed t, w')
  end.

(** [await] on a call of the service *)
Definition await {A} (m : M A) : Try A := fun w =>
  match m w with
  | (Return a, w') => (Fulfilled a, w')
  | (Throw e, w') => (Failed (ServiceError e), w')
  end.

(** What an endpoint hands to the framework: a value, or an HTTP exception. *)
Inductive HttpResult (A : Type) :=
| Ok (a : A)
| Raise (e : HttpException).
Arguments Ok {A} a.
Arguments Raise {A} e.

Definition Endpoint (A : Type) : Type := World -> HttpResult A * World.

(** [catch (error) { if (error instanceof NotFoundException) throw error;
    throw new InternalServerErrorException(message) }].  The test is made on
    whatever was thrown inside the [try] block, so an error that comes out of
    a call of the service is thrown again as it is when it is a
    [NotFoundException]; [instanceofNotFoundException] is that test on an
    error of the service. *)
Definition rethrowNotFoundOr {A} (instanceofNotFoundException : JsError -> bool)
    (message : string) (body : Try A) : Endpoint A := fun w =>
  match body w with
  | (Fulfilled a, w') => (Ok a, w')
  | (Failed (Http (NotFoundException m)), w') => (Raise (NotFoundException m), w')
  | (Failed (Http (InternalServerErrorException _)), w') =>
      (Raise (InternalServerErrorException message), w')
  | (Failed (ServiceError e), w') =>
      if instanceofNotFoundException e
      then (Raise (NotFoundException (err_message e)), w')
      else (Raise (InternalServerErrorException message), w')
  end.

(** [catch (error) { throw new InternalServerErrorException(message) }] *)
Definition orInternalError {A} (message : string) (body : Try A) : Endpoint A := fun w =>
  match body w with
  | (Fulfilled a, w') => (Ok a, w')
  | (Failed _, w') => (Raise (InternalServerErrorException message), w')
  end.

(** [s.indexOf(c)], [None] standing for -1 *)
Fixpoint indexOf (c : ascii) (s : string) : option nat :=
  match s with
  | EmptyString => None
  | String a r => if Ascii.eqb a c then Some 0 else S <$> indexOf c r
  end.

(** [s.substring(start)] *)
Definition substringFrom (start : nat) (s : string) : string :=
  String.substring start (String.length s - start) s.

(** What [getDrugPage] hands to the [drug-detail] view. *)
Record DrugPage := {
  page_title : string;
  page_metaDescription : string;
  page_drug : EnhancedDrugContent;
  page_canonicalUrl : string
}.

(** The answer of [getDrugEnhancedApi]. *)
Record EnhancedView := {
  view_seoTitle : string;
  view_metaDescription : string;
  view_enhancedSummary : string;
  view_sections : list DrugSection
}.

Section Endpoints.

(** The injected [DrugService]: the three methods the tool adapter calls
    as well, and the two more that only the controller calls. *)
Variable drugService : DrugServiceApi.
Variable ds_getBasicContent : DrugLabel -> M DrugService.BasicContent.
Variable ds_generateSitemap : M Json.

(** [error instanceof NotFoundException] on an error thrown by the
    injected service. *)
Variable instanceofNotFoundException : JsError -> bool.

(** [@Query() searchDto]: the framework always builds the object. *)
Definition searchDrugs (searchDto : ToolArguments) : Endpoint Json :=
  orInternalError "Failed to search drugs"
    (await (ds_searchDrugs drugService (Some searchDto))).

(** The first two statements of the [try] block of the four endpoints
    that take a [drugIdentifier]. *)
Definition findDrug (drugName' genericName' : string) : Try DrugLabel :=
  drug ← await (ds_getDrugByNames drugService (Some drugName') (Some genericName'));
  match drug with
  | None =>
      fun w => (Failed (Http (NotFoundException
                                ("Drug not found: " +:+ drugName' +:+ "/" +:+ genericName'))),
                w)
  | Some drug => mret drug
  end.

Definition getDrugPage (drugIdentifier : string) : Endpoint DrugPage :=
  match indexOf "-" drugIdentifier with
  | None =>
      fun w => (Raise (NotFoundException
                         ("Invalid drug identifier format: " +:+ drugIdentifier)), w)
  | Some firstHyphenIndex =>
      let drugName' := String.substring 0 firstHyphenIndex drugIdentifier in
      let genericName' := substringFrom (firstHyphenIndex + 1) drugIdentifier in
      rethrowNotFoundOr instanceofNotFoundException "Failed to load drug information"
        (drug ← findDrug drugName' genericName';
         enhancedContent ← await (ds_getEnhancedContent drugService drug);
         mret {| page_title := ec_seoTitle enhancedContent;
                 page_metaDescription := ec_metaDescription enhancedContent;
                 page_drug := enhancedContent;
                 page_canonicalUrl := "/drugs/" +:+ drugName' +:+ "-" +:+ genericName' |})
  end.

Definition getDrugBasicApi (drugIdentifier : string) : Endpoint DrugService.BasicContent :=
  match indexOf "-" drugIdentifier with
  | None =>
      fun w => (Raise (NotFoundException
                         ("Invalid drug identifier format: " +:+ drugIdentifier)), w)
  | Some firstHyphenIndex =>
      let drugName' := String.substring 0 firstHyphenIndex drugIdentifier in
      let genericName' := substringFrom (firstHyphenIndex + 1) drugIdentifier in
      rethrowNotFoundOr instanceofNotFoundException "Failed to load drug information"
        (drug ← findDrug drugName' genericName';
         await (ds_getBasicContent drug))
  end.

(** The same body as [getDrugBasicApi], on the route without [/basic]. *)
Definition getDrugApi (drugIdentifier : string) : Endpoint DrugService.BasicContent :=
  match indexOf "-" drugIdentifier with
  | None =>
      fun w => (Raise (NotFoundException
                         ("Invalid drug identifier format: " +:+ drugIdentifier)), w)
  | Some firstHyphenIndex =>
      let drugName' := String.substring 0 firstHyphenIndex drugIdentifier in
      let genericName' := substringFrom (firstHyphenIndex + 1) drugIdentifier in
      rethrowNotFoundOr instanceofNotFoundException "Failed to load drug information"
        (drug ← findDrug drugName' genericName';
         await (ds_getBasicContent drug))
  end.

(** [basicContent] is computed and not used. *)
Definition getDrugEnhancedApi (drugIdentifier : string) : Endpoint EnhancedView :=
  match indexOf "-" drugIdentifier with
  | None =>
      fun w => (Raise (NotFoundException
                         ("Invalid drug identifier format: " +:+ drugIdentifier)), w)
  | Some firstHyphenIndex =>
      let drugName' := String.substring 0 firstHyphenIndex drugIdentifier in
      let genericName' := substringFrom (firstHyphenIndex + 1) drugIdentifier in
      rethrowNotFoundOr instanceofNotFoundException "Failed to load enhanced drug information"
        (drug ← findDrug drugName' genericName';
         basicContent ← await (ds_getBasicContent drug);
         enhancedData ← await (ds_getEnhancedContent drugService drug);
         mret {| view_seoTitle := ec_seoTitle enhancedData;
                 view_metaDescription := ec_metaDescription enhancedData;
                 view_enhancedSummary := ec_enhancedSummary enhancedData;
                 view_sections := ec_sections enhancedData |})
  end.

Definition getSitemap : Endpoint Json :=
  orInternalError "Failed to generate sitemap" (await ds_generateSitemap).

End Endpoints.

End DrugController.

Import OpenAIService.
Import DrugService.
Import McpService.

(** ** Vocabulary of the statements *)

(** A prose field is populated when it is present and not the empty string. *)
Definition populated (drug : DrugLabel) (key : string) : bool :=
  truthy (prose (label drug) !! key).

(** [res] is the first element of [l] that satisfies [P], if there is one. *)
Definition firstMatch {A} (P : A -> Prop) (l : list A) (res : option A) : Prop :=
  match res with
  | Some x => exists before after, l = before ++ x :: after /\ P x /\ Forall (fun y => ~ P y) before
  | None => Forall (fun y => ~ P y) l
  end.

(** A record matches on either name. *)
Definition matchesEitherName (name : string) (drug : DrugLabel) : Prop :=
  DrugService.normalizeName (drugName drug) = DrugService.normalizeName name
  \/ DrugService.normalizeName (genericName (label drug)) = DrugService.normalizeName name.

(** A record matches on both names; the generic name is only lowercased. *)
Definition matchesBothNames (name generic : string) (drug : DrugLabel) : Prop :=
  DrugService.normalizeName (drugName drug) = DrugService.normalizeName name
  /\ toLowerCase (genericName (label drug)) = toLowerCase generic.

(** The waits recorded in a log, oldest first. *)
Definition sleepsOf (l : list Event) : list Z :=
  omap (fun ev => match ev with EvSleep ms => Some ms | _ => None end) l.

(** The waits of one run of the retry loop: none, one after the first
    attempt, or one after each of the first two attempts; a wait after
    attempt [k] lasts [1000 * 2^(k-1)] ms after a rate-limit error and 500 ms
    after any other error. *)
Definition backoffWaits (ds : list Z) : Prop :=
  ds = []
  \/ (exists d1, ds = [d1] /\ (d1 = 1000 \/ d1 = 500)%Z)
  \/ (exists d1 d2, ds = [d1; d2] /\ (d1 = 1000 \/ d1 = 500)%Z /\ (d2 = 2000 \/ d2 = 500)%Z).

(** An operation that makes one provider call each time it runs and does not
    wait itself. *)
Definition oneCallPerRun {T} (operation : M T) : Prop :=
  forall w, calls (snd (operation w)) = S (calls w)
            /\ sleepsOf (log (snd (operation w))) = sleepsOf (log w).

(** What a Gateway operation may do to the provider and the clock: either it
    makes no provider call and does not wait, or it makes one call more than
    it waits, the waits being those of the backoff policy; so it makes at
    most three calls. *)
Definition boundedAttempts {T} (operation : M T) : Prop :=
  forall w,
    let w' := snd (operation w) in
    exists ds, backoffWaits ds
               /\ sleepsOf (log w') = sleepsOf (log w) ++ ds
               /\ ((calls w' = calls w /\ ds = []) \/ calls w' = calls w + S (length ds))
               /\ calls w' <= calls w + 3.

(** The cache-aside discipline of a Gateway operation on the key [key] of
    its namespace: it reads that key first; on a hit it returns the stored
    value, calls no provider and leaves the cache as it is; on a miss a value
    it returns is either one of the [uncached] values, with the cache left as
    it is, or it has been stored under [key] with a time-to-live of 86400
    seconds; when it throws, the cache is left as it is. *)
Definition cacheAside {A} (key : string) (wrap : A -> CacheValue)
    (unwrap : CacheValue -> option A) (uncached : A -> Prop) (operation : M A) : Prop :=
  forall w,
    let res := fst (operation w) in
    let w' := snd (operation w) in
    (exists rest, log w' = log w ++ EvCacheGet key :: rest)
    /\ match freshValue key w ≫= unwrap with
       | Some hit => res = Return hit /\ calls w' = calls w /\ cache w' = cache w
       | None =>
           match res with
           | Return v =>
               (uncached v /\ cache w' = cache w)
               \/ cache w' = <[ key := {| entry_value := wrap v;
                                          entry_expires := (clock w' + 86400 * 1000)%Z |} ]>
                               (cache w)
           | Throw _ => cache w' = cache w
           end
       end.

(** The frame of one run of the retry loop around an operation that caches
    what it generates. *)
Definition sameCache (w w' : World) : Prop :=
  cache w' = cache w /\ log w `prefix_of` log w'.

Definition cachedUnder {A} (key : string) (wrap : A -> CacheValue) (uncached : A -> Prop)
    (v : A) (w w' : World) : Prop :=
  ((uncached v /\ cache w' = cache w)
   \/ cache w' = <[ key := {| entry_value := wrap v;
                              entry_expires := (clock w' + 86400 * 1000)%Z |} ]> (cache w))
  /\ log w `prefix_of` log w'.

(** A section whose enhanced text, when present, is not the empty string;
    the orchestrator only ever builds such sections ([x || undefined]). *)
Definition sectionClean (section : DrugSection) : Prop :=
  sec_enhancedContent section <> Some "".

Definition valueClean (value : CacheValue) : Prop :=
  match value with
  | CachedContent c => Forall sectionClean (ec_sections c)
  | CachedSections l => Forall sectionClean l
  | _ => True
  end.

(** The invariant of the cache: every stored section list is clean.  It
    holds of the empty cache and every service operation keeps it. *)
Definition cacheClean (c : gmap string CacheEntry) : Prop :=
  map_Forall (fun _ entry => valueClean (entry_value entry)) c.

(** How [get_enhanced_sections] shows a section that has enhanced content;
    a section without it is not shown. *)
Definition presentSection (section : DrugSection) : option Json :=
  match sec_enhancedContent section with
  | Some enhanced =>
      Some (JObj [("title", JStr (sec_title section));
                  ("originalContent", JStr (sec_content section));
                  ("enhancedContent", JStr enhanced)])
  | None => None
  end.

(** The three recognised methods of the protocol. *)
Definition knownMethod (method : string) : bool :=
  String.eqb method "tools/list" || String.eqb method "tools/call"
  || String.eqb method "initialize".

(** ** Example data *)

(** The record of the end-to-end scenario of the specification. *)
Definition aspirin : DrugLabel :=
  {| drugName := "Aspirin";
     setId := "123";
     slug := "aspirin";
     labeler := "Test Pharma";
     label := {| genericName := "acetylsalicylic-acid";
                 labelerName := "Test Pharma";
                 productType := "HUMAN OTC DRUG";
                 effectiveTime := "20240101";
                 title := "Aspirin";
                 prose := {[ "indicationsAndUsage" := "Pain relief";
                             "dosageAndAdministration" := "325mg daily" ]} |} |}.

(** A process that has just started: empty cache, no provider call yet. *)
Definition startWorld : World :=
  {| cache := ∅; clock := 0; calls := 0; log := [] |}.

Definition rateLimited : JsError :=
  {| err_status := Some 429%Z;
     err_code := Some "rate_limit_exceeded";
     err_message := "Rate limit reached" |}.

Definition serverError : JsError :=
  {| err_status := Some 500%Z; err_code := None; err_message := "Internal server error" |}.

Definition dq : string := String (ascii_of_nat 34) EmptyString.

(** The JSON text [{"title":"Aspirin: uses and dosage","description":"What
    aspirin treats and how to take it."}]. *)
Definition seoReplyText : string :=
  "{" +:+ dq +:+ "title" +:+ dq +:+ ":" +:+ dq +:+ "Aspirin: uses and dosage" +:+ dq +:+ ","
  +:+ dq +:+ "description" +:+ dq +:+ ":" +:+ dq +:+
  "What aspirin treats and how to take it." +:+ dq +:+ "}".

(** The JSON text [{"indicationsAndUsage":"Aspirin eases pain."}]. *)
Definition sectionsReplyText : string :=
  "{" +:+ dq +:+ "indicationsAndUsage" +:+ dq +:+ ":" +:+ dq +:+ "Aspirin eases pain." +:+ dq
  +:+ "}".

Definition refusalText : string := "Sorry, I cannot help with that.".

(** [JSON.parse] on the texts of the examples: one JSON text of each shape;
    the other texts the examples use are not JSON. *)
Definition exampleSeo : SeoMetadata :=
  {| seo_title := "Aspirin: uses and dosage";
     seo_description := "What aspirin treats and how to take it." |}.

Definition exampleParseSeo (text : string) : option SeoMetadata :=
  if String.eqb text seoReplyText then Some exampleSeo else None.

Definition exampleParseSections (text : string) : option (gmap string string) :=
  if String.eqb text sectionsReplyText
  then Some {[ "indicationsAndUsage" := "Aspirin eases pain." ]}
  else None.

(** A provider that rejects every call with a rate-limit error. *)
Definition alwaysRateLimited : OpenAI := fun _ => Rejected rateLimited.

(** A provider that answers every call with a text that is not JSON. *)
Definition alwaysRefuses : OpenAI := fun _ => Completed (Some refusalText).

(** A provider that serves the title and then rejects every call. *)
Definition titleThenRateLimited : OpenAI := fun n =>
  match n with
  | 0 => Completed (Some seoReplyText)
  | _ => Rejected rateLimited
  end.

(** A provider that serves the title and the summary and then fails every
    call of the section batch. *)
Definition batchFails : OpenAI := fun n =>
  match n with
  | 0 => Completed (Some seoReplyText)
  | 1 => Completed (Some "Aspirin relieves pain and fever.")
  | _ => Rejected serverError
  end.

(** A provider that serves the title, the summary and one enhanced section. *)
Definition enhancesOne : OpenAI := fun n =>
  match n with
  | 0 => Completed (Some seoReplyText)
  | 1 => Completed (Some "Aspirin relieves pain and fever.")
  | _ => Completed (Some sectionsReplyText)
  end.

(** The worlds the title-then-fail provider leads to from [startWorld]: after
    the title call of [getEnhancedContent], and at its end. *)
Definition afterTitle : World :=
  Eval vm_compute in
    snd (generateSEOMetadata exampleParseSeo (Some titleThenRateLimited) aspirin
           (emit (EvCacheGet "enhanced_content:123") startWorld)).

Definition afterFallback : World :=
  Eval vm_compute in
    snd (getEnhancedContent exampleParseSeo exampleParseSections
           (Some titleThenRateLimited) aspirin startWorld).

(** What [getEnhancedContent] does from [startWorld] with the provider that
    enhances one section. *)
Definition enhancedRun : Outcome EnhancedDrugContent * World :=
  Eval vm_compute in
    getEnhancedContent exampleParseSeo exampleParseSections (Some enhancesOne)
      aspirin startWorld.

Definition nameOnly (name : string) : ToolArguments :=
  {| arg_drugName := Some name; arg_genericName := None; arg_query := None;
     arg_labeler := None; arg_page := None; arg_limit := None |}.

(** ** Vocabulary of the slugs and links *)

(** Every character of a string passes a test. *)
Fixpoint allChars (test : ascii -> bool) (s : string) : bool :=
  match s with
  | EmptyString => true
  | String c r => test c && allChars test r
  end.

(** The characters a slug is made of: lowercase letters, digits, the
    underscore and the hyphen. *)
Definition is_slug_char (c : ascii) : bool :=
  (is_word c && negb (is_upper c)) || Ascii.eqb c "-".

(** A character [createSlug] keeps as it is, up to case. *)
Definition is_word_or_hyphen (c : ascii) : bool := is_word c || Ascii.eqb c "-".

(** The part of a record's link after [/drugs/]: what reaches the
    controller as [drugIdentifier] when the link is followed. *)
Definition identifierOf (drug : DrugLabel) : string :=
  createSlug (drugName drug) +:+ "-" +:+ createSlug (genericName (label drug)).

(** ** Vocabulary of the sections *)

(** The section of a populated field: the entry of the table it comes from,
    its place among the kept entries and its enhanced text. *)
Definition sectionOf (drug : DrugLabel) (enhanced : string -> option string)
    (index : nat) (mapping : string * string) : DrugSection :=
  {| sec_id := setId drug +:+ "-" +:+ fst mapping;
     sec_title := snd mapping;
     sec_content := default "" (prose (label drug) !! fst mapping);
     sec_enhancedContent := enhanced (fst mapping);
     sec_order := S index |}.

(** The entries of the table whose field is populated. *)
Definition keptMappings (drug : DrugLabel) : list (string * string) :=
  filter (fun mapping => populated drug (fst mapping)) sectionMappings.

(** A section whose text is more than white space. *)
Definition notBlank (section : DrugSection) : bool := nonEmpty (trim (sec_content section)).

(** ** Vocabulary of the cost of a run *)

(** The total of a list of waits. *)
Definition totalWait (ds : list Z) : Z := foldr Z.add 0%Z ds.

(** The clock with the waits taken out: no operation changes it. *)
Definition ledger (w : World) : Z := (clock w - totalWait (sleepsOf (log w)))%Z.

(** A run from [w] to [w'] that makes at most [n] provider calls and waits
    at most [ms] milliseconds, the clock moving by the waits only. *)
Definition withinBudget (n : nat) (ms : Z) (w w' : World) : Prop :=
  calls w <= calls w' <= calls w + n
  /\ (clock w <= clock w' <= clock w + ms)%Z
  /\ ledger w' = ledger w.

(** ** Vocabulary of the content hash *)

(** The polynomial hash over the integers: [31 * hash + char] at every
    character. *)
Fixpoint polynomialHash (content : string) (hash : Z) : Z :=
  match content with
  | EmptyString => hash
  | String c r => polynomialHash r (31 * hash + Z.of_nat (nat_of_ascii c))%Z
  end.

(** The value of a hexadecimal digit, and of a hexadecimal numeral read
    from the left. *)
Definition hexValue (c : ascii) : Z :=
  let n := Z.of_nat (nat_of_ascii c) in
  if (n <? 58)%Z then (n - 48)%Z else (n - 87)%Z.

Fixpoint readHex (s : string) (acc : Z) : Z :=
  match s with
  | EmptyString => acc
  | String c r => readHex r (16 * acc + hexValue c)%Z
  end.

Definition is_hex_digit (c : ascii) : bool :=
  let n := nat_of_ascii c in
  ((48 <=? n)%nat && (n <=? 57)%nat) || ((97 <=? n)%nat && (n <=? 102)%nat).

(** ** Vocabulary of the tool results *)

(** The result [callTool] makes of an error thrown by a tool. *)
Definition toolError (error : JsError) : McpToolResult :=
  {| res_content := [Plain ("Error executing tool: " +:+ err_message error)];
     res_isError := Some true |}.

(** The envelope of a tool result. *)
Definition toolResponse (id : option IdValue) (result : McpToolResult) : McpResponse :=
  {| resp_id := idOrNull_nullish id;
     resp_result := Some (ToolCallResult result);
     resp_error := None |}.


(** ** Vocabulary of the search and the sitemap *)

(** The records a search keeps: those that pass the query test, when there
    is a query, and the labeler test, when there is a labeler. *)
Definition matchingDrugs (drugs : list DrugLabel) (searchDto : ToolArguments)
    : list DrugLabel :=
  filter (fun drug =>
            (if truthy (arg_query searchDto)
             then matchesQuery (toLowerCase (default "" (arg_query searchDto))) drug
             else true)
            && (if truthy (arg_labeler searchDto)
                then includes (toLowerCase (labeler drug))
                              (toLowerCase (default "" (arg_labeler searchDto)))
                else true))
         drugs.

(** The same search on another page. *)
Definition onPage (searchDto : ToolArguments) (page limit : Z) : ToolArguments :=
  {| arg_drugName := arg_drugName searchDto;
     arg_genericName := arg_genericName searchDto;
     arg_query := arg_query searchDto;
     arg_labeler := arg_labeler searchDto;
     arg_page := Some page;
     arg_limit := Some limit |}.

(** A member of a JSON object. *)
Definition fieldOf (name : string) (value : Json) : option Json :=
  match value with
  | JObj fields => snd <$> find (fun field => String.eqb (fst field) name) fields
  | _ => None
  end.

(** The items of a JSON array that is a member of an object. *)
Definition itemsOf (name : string) (value : Json) : list Json :=
  match fieldOf name value with
  | Some (JArr items) => items
  | _ => []
  end.

(** ** Vocabulary of the HTTP endpoints *)

(** The two names an endpoint cuts a [drugIdentifier] into, at the first
    hyphen. *)
Definition splitIdentifier (drugIdentifier : string) : option (string * string) :=
  match DrugController.indexOf "-" drugIdentifier with
  | Some firstHyphenIndex =>
      Some (String.substring 0 firstHyphenIndex drugIdentifier,
            DrugController.substringFrom (firstHyphenIndex + 1) drugIdentifier)
  | None => None
  end.

Definition noHyphen (s : string) : bool :=
  allChars (fun c => negb (Ascii.eqb c "-")) s.

(** The lookup an endpoint makes for an identifier. *)
Definition lookupIdentifier (drugs : list DrugLabel) (drugIdentifier : string)
    : option DrugLabel :=
  match splitIdentifier drugIdentifier with
  | Some (drugName', genericName') => getDrugByNames drugs drugName' (Some genericName')
  | None => None
  end.

Definition invalidIdentifier (drugIdentifier : string) : DrugController.HttpException :=
  DrugController.NotFoundException ("Invalid drug identifier format: " +:+ drugIdentifier).

Definition drugNotFound (drugName' genericName' : string) : DrugController.HttpException :=
  DrugController.NotFoundException
    ("Drug not found: " +:+ drugName' +:+ "/" +:+ genericName').

(** What the [catch] branch of an endpoint throws for an error that came
    out of a call of the service: the error itself when it is a
    [NotFoundException], and otherwise the 500 exception with the fixed
    message of the endpoint. *)
Definition caught (instanceofNotFoundException : JsError -> bool) (message : string)
    (error : JsError) : DrugController.HttpException :=
  if instanceofNotFoundException error
  then DrugController.NotFoundException (err_message error)
  else DrugController.InternalServerErrorException message.

(** The real [DrugService] behind the endpoints. *)
Definition basicContentOf (drug : DrugLabel) (now : Z) : BasicContent :=
  {| bc_id := setId drug;
     bc_drugName := drugName drug;
     bc_genericName := genericName (label drug);
     bc_slug := createSlug (drugName drug);
     bc_sections := buildDrugSections drug;
     bc_lastUpdated := now |}.

(** A record whose brand name has two words. *)
Definition tylenolPm : DrugLabel :=
  {| drugName := "Tylenol PM";
     setId := "789";
     slug := "tylenol-pm";
     labeler := "Test Pharma";
     label := {| genericName := "acetaminophen";
                 labelerName := "Test Pharma";
                 productType := "HUMAN OTC DRUG";
                 effectiveTime := "20240301";
                 title := "Tylenol PM";
                 prose := {[ "indicationsAndUsage" := "Pain relief at night" ]} |} |}.


(** Two hours after the run that enhanced one section: the two entries of
    the orchestrator have expired, the three of the Gateway have not. *)
Definition twoHoursLater : World :=
  {| cache := cache (snd enhancedRun); clock := 7200000; calls := calls (snd enhancedRun);
     log := [] |}.

(** ** Vocabulary of the prompt texts *)

(** A text whose only white space is single spaces between other
    characters: no tab or line break, no two spaces in a row, and no space
    at the start when [afterSpace] is set. *)
Fixpoint singleSpaced (afterSpace : bool) (s : string) : bool :=
  match s with
  | EmptyString => true
  | String c r =>
      if is_space c
      then Ascii.eqb c " " && negb afterSpace && singleSpaced true r
      else singleSpaced false r
  end.

(** ** The retry policy as the specification words it *)

(** What the policy prescribes for one pass through the retry loop: how many
    attempts are made, the waits between them in milliseconds, and the error
    that is thrown to the caller, if any. *)
Record Schedule := {
  sch_attempts : nat;
  sch_waits : list Z;
  sch_thrown : option JsError
}.

(** A rate-limit error: the status is 429, or the code is
    [rate_limit_exceeded]. *)
Definition rateLimitError (e : JsError) : bool :=
  bool_decide (err_status e = Some 429%Z \/ err_code e = Some "rate_limit_exceeded").

(** The wait before the retry that follows failed attempt [attempt]:
    [1000 * 2^(attempt-1)] ms after a rate-limit error, a fixed 500 ms after
    any other error. *)
Definition specRetryDelay (e : JsError) (attempt : nat) : Z :=
  if rateLimitError e then (1000 * 2 ^ (Z.of_nat attempt - 1))%Z else 500%Z.

(** At most three attempts; [failure k] is the error of attempt [k] when
    that attempt fails.  A failed first or second attempt is followed by a
    wait and the next attempt; the error of a failed third attempt is
    thrown. *)
Definition specRetrySchedule (failure : nat -> option JsError) : Schedule :=
  match failure 1 with
  | None => {| sch_attempts := 1; sch_waits := []; sch_thrown := None |}
  | Some e1 =>
      match failure 2 with
      | None =>
          {| sch_attempts := 2; sch_waits := [specRetryDelay e1 1]; sch_thrown := None |}
      | Some e2 =>
          {| sch_attempts := 3;
             sch_waits := [specRetryDelay e1 1; specRetryDelay e2 2];
             sch_thrown := failure 3 |}
      end
  end.

(** A run from [w] follows a schedule: it makes its attempts, one provider
    call each, waits as it says between them, and throws its error, or
    returns when it has none. *)
Definition followsSchedule {T} (schedule : Schedule) (w : World)
    (run : Outcome T * World) : Prop :=
  calls (snd run) = calls w + sch_attempts schedule
  /\ sleepsOf (log (snd run)) = sleepsOf (log w) ++ sch_waits schedule
  /\ match sch_thrown schedule with
     | Some e => fst run = Throw e
     | None => exists v, fst run = Return v
     end.

(** ** One attempt of each Gateway operation *)

(** What one attempt makes of the reply of the provider: the error it
    throws, or the value it returns, paired with [true] when the attempt
    stores the value in the cache before it returns it. *)

(** [generateSEOMetadata]: a missing or empty text is an error; a text that
    is not JSON is answered with the template, which is not stored. *)
Definition seoAttempt (JSON_parse_seo : string -> option SeoMetadata) (drug : DrugLabel)
    (reply : Reply) : Outcome (SeoMetadata * bool) :=
  match reply with
  | Rejected e => Throw e
  | Completed response =>
      if truthy response then
        match JSON_parse_seo (default "" response) with
        | Some result => Return (result, true)
        | None => Return (getFallbackSEOMetadata drug, false)
        end
      else Throw (Error "No response from OpenAI")
  end.

(** [generateDrugSummary]: a missing or blank text is replaced by the
    template, and what is returned is always stored. *)
Definition summaryAttempt (drug : DrugLabel) (reply : Reply) : Outcome (string * bool) :=
  match reply with
  | Rejected e => Throw e
  | Completed content =>
      Return (default (getFallbackSummary drug) (orUndefined (trim <$> content)), true)
  end.

(** [enhanceAllSections]: a text that is not JSON is an error. *)
Definition sectionsAttempt (JSON_parse_sections : string -> option (gmap string string))
    (reply : Reply) : Outcome (gmap string string * bool) :=
  match reply with
  | Rejected e => Throw e
  | Completed output_text =>
      match JSON_parse_sections (default "" output_text) with
      | Some result => Return (result, true)
      | None => Throw syntaxError
      end
  end.

(** [enhanceSection]: a missing or blank text is returned as the empty
    text, which is not stored. *)
Definition sectionAttempt (reply : Reply) : Outcome (string * bool) :=
  match reply with
  | Rejected e => Throw e
  | Completed content =>
      let response := default "" (trim <$> content) in
      Return (response, nonEmpty response)
  end.

(** The error of an attempt that fails. *)
Definition failureOf {T} (attempt : Outcome T) : option JsError :=
  match attempt with
  | Throw e => Some e
  | Return _ => None
  end.

(** The schedule of a run that starts in [w]: attempt [k] gets the reply to
    provider call number [calls w + k - 1]. *)
Definition scheduleOf {T} (attempt : Reply -> Outcome (T * bool)) (client : OpenAI)
    (w : World) : Schedule :=
  specRetrySchedule (fun k => failureOf (attempt (client (calls w + k - 1)))).

(** A run from [w] through the retry loop.  It follows the schedule of its
    attempts.  Its outcome is the outcome of the last attempt it makes: the
    error of that attempt is thrown and the cache is left as it was; the
    value of that attempt is returned, and the cache is as it was but for the
    entry under [key], which holds this value for 86400 seconds when the
    attempt stores it. *)
Definition retriedRun {T} (key : string) (wrap : T -> CacheValue)
    (attempt : Reply -> Outcome (T * bool)) (client : OpenAI) (w : World)
    (run : Outcome T * World) : Prop :=
  let schedule := scheduleOf attempt client w in
  let w' := snd run in
  followsSchedule schedule w run
  /\ match attempt (client (calls w + sch_attempts schedule - 1)) with
     | Throw e => fst run = Throw e /\ cache w' = cache w
     | Return (v, stored) =>
         fst run = Return v
         /\ cache w'
            = if stored
              then <[ key := {| entry_value := wrap v;
                                entry_expires := (clock w' + 86400 * 1000)%Z |} ]> (cache w)
              else cache w
     end.

(** ** Example providers of the retried runs *)

(** A provider that answers every call with one of the two sections that
    the example record has text for. *)
Definition enhancesHalf : OpenAI := fun _ => Completed (Some sectionsReplyText).


(** * Properties *)

(** ** The Basic Content Assembler *)

Lemma map_const_Forall {A B C} (f : A -> B) (b : B) (l : list A) (k : list C) :
  map f l = map (fun _ => b) k -> Forall (fun x => f x = b) l.
Proof.
  revert k. induction l as [|x l IH]; intros [|y k] H; try discriminate; constructor.
  - now injection H.
  - injection H as _ H. eauto.
Qed.

Section Assembler.

Variable drug : DrugLabel.

Lemma pushSection_populated sections order key title' :
  populated drug key = true ->
  exists content,
    prose (label drug) !! key = Some content /\
    pushSection drug (sections, order) (key, title') =
      (sections ++ [ {| sec_id := setId drug +:+ "-" +:+ key; sec_title := title';
                        sec_content := content; sec_enhancedContent := None;
                        sec_order := order |} ], S order).
Proof.
  unfold populated, truthy, pushSection.
  destruct (prose (label drug) !! key) as [content|]; [|discriminate].
  intros ->. eauto.
Qed.

Lemma pushSection_skipped sections order key title' :
  populated drug key = false ->
  pushSection drug (sections, order) (key, title') = (sections, order).
Proof.
  unfold populated, truthy, pushSection.
  destruct (prose (label drug) !! key) as [content|]; [|reflexivity].
  intros ->. reflexivity.
Qed.

(** The loop invariant of the [forEach] in [buildDrugSections]. *)
Lemma fold_pushSection mappings : forall sections order,
  let kept := filter (fun m => populated drug (fst m)) mappings in
  let res := fold_left (pushSection drug) mappings (sections, order) in
  map sec_title (fst res) = map sec_title sections ++ map snd kept
  /\ map sec_id (fst res)
     = map sec_id sections ++ map (fun m => setId drug +:+ "-" +:+ fst m) kept
  /\ map (fun s => Some (sec_content s)) (fst res)
     = map (fun s => Some (sec_content s)) sections
       ++ map (fun m => prose (label drug) !! fst m) kept
  /\ map sec_order (fst res) = map sec_order sections ++ seq order (length kept)
  /\ map sec_enhancedContent (fst res)
     = map sec_enhancedContent sections ++ map (fun _ => None) kept.
Proof.
  induction mappings as [|[key title'] rest IH]; intros sections order; cbn zeta.
  - cbn. rewrite !app_nil_r. auto.
  - cbn [fold_left]. rewrite filter_cons. cbn [fst].
    destruct (populated drug key) eqn:Hp.
    + destruct (pushSection_populated sections order key title' Hp) as (content & Hc & ->).
      rewrite decide_True by exact I.
      destruct (IH (sections ++ [ {| sec_id := setId drug +:+ "-" +:+ key; sec_title := title';
                        sec_content := content; sec_enhancedContent := None;
                        sec_order := order |} ]) (S order)) as (H1 & H2 & H3 & H4 & H5).
      rewrite H1, H2, H3, H4, H5. rewrite !map_app. cbn. rewrite Hc.
      rewrite <- !app_assoc. cbn. auto.
    + rewrite (pushSection_skipped _ _ _ _ Hp).
      rewrite decide_False by exact id.
      apply IH.
Qed.

End Assembler.

Lemma populated_spec drug key :
  populated drug key = true
  <-> exists content, prose (label drug) !! key = Some content /\ content <> "".
Proof.
  unfold populated, truthy, nonEmpty.
  destruct (prose (label drug) !! key) as [content|].
  - rewrite negb_true_iff, String.eqb_neq. split.
    + intros H. exists content. auto.
    + intros (c & [= <-] & H). exact H.
  - split; [discriminate|]. intros (c & H & _). discriminate.
Qed.

Lemma sectionId_inj (prefix a b : string) : prefix +:+ a = prefix +:+ b -> a = b.
Proof.
  induction prefix as [|c prefix IH]; cbn; [auto|]. intros H. injection H as H. auto.
Qed.

Lemma NoDup_map_filter {A B} (f : A -> B) (P : A -> bool) (l : list A) :
  NoDup (map f l) -> NoDup (map f (filter (fun x => P x) l)).
Proof.
  induction l as [|x l IH]; cbn [map]; intros H; [constructor|].
  apply NoDup_cons in H as [Hx Hl]. rewrite filter_cons.
  destruct (decide (P x)) as [_|_]; [|auto].
  cbn [map]. apply NoDup_cons. split; [|auto].
  intros Hin. apply Hx. apply list_elem_of_fmap in Hin as (y & -> & Hy).
  apply list_elem_of_fmap. exists y. split; [reflexivity|].
  apply list_elem_of_filter in Hy. tauto.
Qed.

(** C5.  [buildDrugSections] returns exactly one section per populated
    field of the twelve known keys and none for an absent or empty field.
    The table of the code is the twelve (field-key, title) pairs written out
    below, with twelve distinct keys; the titles, ids and texts of the
    sections are those of the populated table entries, in table order; the
    [order] values are 1, 2, ..., N; no section carries enhanced content;
    the ids of the sections are distinct, and a key has a section exactly
    when it is one of the twelve and its field is present and not the empty
    string. *)
Theorem buildDrugSections_table_order (drug : DrugLabel) :
  let table :=
    [ ("indicationsAndUsage", "Indications and Usage");
      ("dosageAndAdministration", "Dosage and Administration");
      ("dosageFormsAndStrengths", "Dosage Forms and Strengths");
      ("warningsAndPrecautions", "Warnings and Precautions");
      ("adverseReactions", "Adverse Reactions");
      ("clinicalPharmacology", "Clinical Pharmacology");
      ("clinicalStudies", "Clinical Studies");
      ("howSupplied", "How Supplied/Storage and Handling");
      ("useInSpecificPopulations", "Use in Specific Populations");
      ("description", "Description");
      ("nonclinicalToxicology", "Nonclinical Toxicology");
      ("instructionsForUse", "Instructions for Use") ] in
  let kept := filter (fun m => populated drug (fst m)) table in
  map sec_title (buildDrugSections drug) = map snd kept
  /\ map sec_id (buildDrugSections drug) = map (fun m => setId drug +:+ "-" +:+ fst m) kept
  /\ map (fun s => Some (sec_content s)) (buildDrugSections drug)
     = map (fun m => prose (label drug) !! fst m) kept
  /\ map sec_order (buildDrugSections drug) = seq 1 (length kept)
  /\ Forall (fun s => sec_enhancedContent s = None) (buildDrugSections drug)
  /\ sectionMappings = table
  /\ length sectionMappings = 12
  /\ NoDup (map fst table)
  /\ NoDup (map sec_id (buildDrugSections drug))
  /\ (forall key,
        (exists section,
           section ∈ buildDrugSections drug
           /\ sec_id section = setId drug +:+ "-" +:+ key)
        <-> (key ∈ map fst table
             /\ exists content, prose (label drug) !! key = Some content /\ content <> ""))
  /\ length (buildDrugSections drug)
     = length (filter (fun key => populated drug key) (map fst table)).
Proof.
  cbn zeta. fold sectionMappings. unfold buildDrugSections.
  destruct (fold_pushSection drug sectionMappings [] 1) as (H1 & H2 & H3 & H4 & H5).
  cbn [map app] in H1, H2, H3, H4, H5.
  assert (NoDup (map fst sectionMappings)) as Hkeys.
  { apply NoDup_ListNoDup. cbn. repeat constructor; cbn; intuition discriminate. }
  set (sections := fst (fold_left (pushSection drug) sectionMappings ([], 1))) in *.
  set (kept := filter (fun m => populated drug (fst m)) sectionMappings) in *.
  assert (NoDup (map fst kept)) as Hkept by (apply (NoDup_map_filter fst), Hkeys).
  split; [exact H1|]. split; [exact H2|]. split; [exact H3|]. split; [exact H4|].
  split; [eapply map_const_Forall; exact H5|].
  split; [reflexivity|]. split; [reflexivity|]. split; [exact Hkeys|].
  split; [|split].
  - rewrite H2.
    replace (map (fun m => setId drug +:+ "-" +:+ fst m) kept)
      with ((fun key => setId drug +:+ "-" +:+ key) <$> (map fst kept))
      by (rewrite <- list_fmap_compose; reflexivity).
    apply NoDup_fmap_2; [|exact Hkept].
    intros a b H.
    apply (sectionId_inj "-"), (sectionId_inj (setId drug)), H.
  - intros key. rewrite <- populated_spec. split.
    + intros (section & Hin & Hid).
      assert (sec_id section ∈ map sec_id sections) as Hmem
        by (apply list_elem_of_fmap; eauto).
      rewrite H2 in Hmem. apply list_elem_of_fmap in Hmem as (m & Hm & Hk).
      rewrite Hid in Hm.
      assert (key = fst m) as ->.
      { apply (sectionId_inj "-"), (sectionId_inj (setId drug)), Hm. }
      apply list_elem_of_filter in Hk as [Hp Hk]. split.
      * apply list_elem_of_fmap. eauto.
      * destruct (populated drug (fst m)); [reflexivity|destruct Hp].
    + intros [Hin Hp]. apply list_elem_of_fmap in Hin as (m & -> & Hm).
      assert (setId drug +:+ "-" +:+ fst m ∈ map sec_id sections) as Hmem.
      { rewrite H2. apply list_elem_of_fmap. exists m. split; [reflexivity|].
        apply list_elem_of_filter. split; [rewrite Hp; exact I|exact Hm]. }
      apply list_elem_of_fmap in Hmem as (section & Hid & Hs). eauto.
  - rewrite <- (length_map sec_title), H1, length_map. subst kept.
    clear. induction sectionMappings as [|m l IH]; [reflexivity|].
    cbn [map]. rewrite !filter_cons. cbn [fst].
    destruct (decide (populated drug m.1)); cbn [length]; rewrite IH; reflexivity.
Qed.

(** ** The retry loop *)

Ltac munfold :=
  unfold mbind, M_bind, mret, M_ret, throw, tryCatch, cacheService_get, cacheService_set,
    DrugService.newDate, sleep, create, emit in *.

Lemma callOpenAIWithRetry_eq {T} (operation : M T) drug attempt w :
  callOpenAIWithRetry operation drug attempt w =
  match operation w with
  | (Return v, w') => (Return v, w')
  | (Throw e, w') =>
      if decide (maxRetries <= attempt) then (Throw e, w')
      else callOpenAIWithRetry operation drug (S attempt)
             (snd (sleep (retryDelay e attempt) w'))
  end.
Proof.
  simp callOpenAIWithRetry.
  destruct (operation w) as [[v|e] w'] eqn:E; simp callOpenAIWithRetry; [reflexivity|].
  destruct (le_lt_dec maxRetries attempt); destruct (decide _); try lia;
    simp callOpenAIWithRetry; reflexivity.
Qed.

Lemma retryDelay_1 e : retryDelay e 1 = if isRateLimit e then 1000%Z else 500%Z.
Proof. unfold retryDelay. destruct (isRateLimit e); reflexivity. Qed.

Lemma retryDelay_2 e : retryDelay e 2 = if isRateLimit e then 2000%Z else 500%Z.
Proof. unfold retryDelay. destruct (isRateLimit e); reflexivity. Qed.

Lemma retryDelay_formula e attempt :
  retryDelay e attempt
  = if isRateLimit e then (1000 * 2 ^ (Z.of_nat attempt - 1))%Z else 500%Z.
Proof. reflexivity. Qed.

(** The run of the retry loop from attempt 1, written out. *)
Lemma callOpenAIWithRetry_from_1 {T} (operation : M T) drug w :
  callOpenAIWithRetry operation drug 1 w =
  match operation w with
  | (Return v, w1) => (Return v, w1)
  | (Throw e1, w1) =>
      match operation (snd (sleep (if isRateLimit e1 then 1000 else 500)%Z w1)) with
      | (Return v, w2) => (Return v, w2)
      | (Throw e2, w2) =>
          operation (snd (sleep (if isRateLimit e2 then 2000 else 500)%Z w2))
      end
  end.
Proof.
  rewrite callOpenAIWithRetry_eq.
  destruct (operation w) as [[v|e1] w1]; [reflexivity|].
  rewrite decide_False by (unfold maxRetries; lia).
  rewrite callOpenAIWithRetry_eq, retryDelay_1.
  destruct (operation _) as [[v|e2] w2]; [reflexivity|].
  rewrite decide_False by (unfold maxRetries; lia).
  rewrite callOpenAIWithRetry_eq, retryDelay_2.
  destruct (operation _) as [[v|e3] w3]; [reflexivity|].
  rewrite decide_True by (unfold maxRetries; lia). reflexivity.
Qed.

Lemma sleepsOf_app l1 l2 : sleepsOf (l1 ++ l2) = sleepsOf l1 ++ sleepsOf l2.
Proof. unfold sleepsOf. apply omap_app. Qed.

Lemma retry_calls_and_waits {T} (operation : M T) drug w :
  oneCallPerRun operation ->
  let w' := snd (callOpenAIWithRetry operation drug 1 w) in
  exists ds, backoffWaits ds
             /\ sleepsOf (log w') = sleepsOf (log w) ++ ds
             /\ calls w' = calls w + S (length ds).
Proof.
  intros Hop. cbn zeta. rewrite callOpenAIWithRetry_from_1.
  pose proof (Hop w) as [Hc1 Hs1].
  destruct (operation w) as [[v|e1] w1]; cbn [snd] in *.
  { exists []. rewrite app_nil_r. split; [left; reflexivity|]. split; [assumption|]. cbn. lia. }
  set (d1 := (if isRateLimit e1 then 1000 else 500)%Z).
  pose proof (Hop (sleep d1 w1).2) as [Hc2 Hs2].
  destruct (operation (sleep d1 w1).2) as [[v|e2] w2]; cbn [snd] in *.
  { exists [d1]. split.
    - right; left. exists d1. split; [reflexivity|]. subst d1. destruct (isRateLimit e1); auto.
    - rewrite Hs2, Hc2. cbn. rewrite sleepsOf_app, Hs1, Hc1. cbn. split; [reflexivity|lia]. }
  set (d2 := (if isRateLimit e2 then 2000 else 500)%Z).
  pose proof (Hop (sleep d2 w2).2) as [Hc3 Hs3].
  exists [d1; d2]. split.
  - right; right. exists d1, d2. split; [reflexivity|]. subst d1 d2.
    destruct (isRateLimit e1), (isRateLimit e2); auto.
  - rewrite Hs3, Hc3. cbn. rewrite sleepsOf_app, Hs2, Hc2. cbn. rewrite sleepsOf_app, Hs1, Hc1.
    cbn. rewrite <- app_assoc. cbn. split; [reflexivity|lia].
Qed.

(** ** Provider calls and waits of the Gateway operations *)

Lemma backoffWaits_length ds : backoffWaits ds -> length ds <= 2.
Proof.
  intros [->|[(d1 & -> & _)|(d1 & d2 & -> & _)]]; cbn; lia.
Qed.

Lemma boundedAttempts_quiet (w w' : World) :
  calls w' = calls w ->
  sleepsOf (log w') = sleepsOf (log w) ->
  exists ds, backoffWaits ds
             /\ sleepsOf (log w') = sleepsOf (log w) ++ ds
             /\ ((calls w' = calls w /\ ds = []) \/ calls w' = calls w + S (length ds))
             /\ calls w' <= calls w + 3.
Proof.
  intros Hc Hs. exists []. rewrite app_nil_r. repeat split; auto; try lia. left; reflexivity.
Qed.

Lemma boundedAttempts_retry {T} (operation : M T) drug w0 w :
  oneCallPerRun operation ->
  calls w = calls w0 -> sleepsOf (log w) = sleepsOf (log w0) ->
  let w' := snd (callOpenAIWithRetry operation drug 1 w) in
  exists ds, backoffWaits ds
             /\ sleepsOf (log w') = sleepsOf (log w0) ++ ds
             /\ ((calls w' = calls w0 /\ ds = []) \/ calls w' = calls w0 + S (length ds))
             /\ calls w' <= calls w0 + 3.
Proof.
  intros Hop Hc Hs. cbn zeta.
  destruct (retry_calls_and_waits operation drug w Hop) as (ds & Hds & H1 & H2).
  exists ds. pose proof (backoffWaits_length ds Hds).
  rewrite H1, H2, Hs, Hc. repeat split; auto; lia.
Qed.

Lemma bind_cacheService_get {A} key (k : option CacheValue -> M A) w :
  (cacheService_get key ≫= k) w = k (freshValue key w) (emit (EvCacheGet key) w).
Proof. reflexivity. Qed.

Lemma sleepsOf_emit_get key w : sleepsOf (log (emit (EvCacheGet key) w)) = sleepsOf (log w).
Proof. cbn. rewrite sleepsOf_app. cbn. apply app_nil_r. Qed.

Ltac one_call :=
  intros ?w; munfold; cbn;
  repeat (case_match; simplify_eq/=; munfold; cbn);
  rewrite ?sleepsOf_app; cbn; rewrite ?app_nil_r; auto.

Ltac quiet :=
  apply boundedAttempts_quiet; cbn; rewrite ?sleepsOf_app; cbn; rewrite ?app_nil_r;
  reflexivity.

Ltac cached_or_retry :=
  first
    [ quiet
    | apply boundedAttempts_retry; [one_call | reflexivity | apply sleepsOf_emit_get] ].

Section GatewayFacts.

Variable JSON_parse_seo : string -> option SeoMetadata.
Variable JSON_parse_sections : string -> option (gmap string string).
Variable openai : option OpenAI.

Lemma generateSEOMetadata_bounded drug :
  boundedAttempts (generateSEOMetadata JSON_parse_seo openai drug).
Proof.
  intros w. cbn zeta. unfold generateSEOMetadata.
  destruct openai as [client|]; [|quiet].
  rewrite bind_cacheService_get.
  destruct (freshValue _ w ≫= asSeo); cached_or_retry.
Qed.

Lemma generateDrugSummary_bounded drug :
  boundedAttempts (generateDrugSummary openai drug).
Proof.
  intros w. cbn zeta. unfold generateDrugSummary.
  destruct openai as [client|]; [|quiet].
  rewrite bind_cacheService_get.
  destruct (freshValue _ w ≫= asText); cached_or_retry.
Qed.

Lemma enhanceAllSections_bounded drug :
  boundedAttempts (enhanceAllSections JSON_parse_sections openai drug).
Proof.
  intros w. cbn zeta. unfold enhanceAllSections.
  destruct openai as [client|]; [|quiet].
  rewrite bind_cacheService_get.
  destruct (freshValue _ w ≫= asSectionMap); [quiet|].
  destruct (length (availableSections drug) =? 0)%nat; cached_or_retry.
Qed.


End GatewayFacts.

(** ** The Gateway and the cache *)

(** A relation between the worlds before and after each attempt lifts to the
    whole retry loop. *)
Lemma retry_rel {T} (operation : M T) drug
    (R : World -> World -> Prop) (Q : T -> World -> World -> Prop) :
  (forall w1 w2 w3, R w1 w2 -> R w2 w3 -> R w1 w3) ->
  (forall w ms, R w (snd (sleep ms w))) ->
  (forall v w1 w2 w3, R w1 w2 -> Q v w2 w3 -> Q v w1 w3) ->
  (forall w, match operation w with
             | (Return v, w') => Q v w w'
             | (Throw e, w') => R w w'
             end) ->
  forall w, match callOpenAIWithRetry operation drug 1 w with
            | (Return v, w') => Q v w w'
            | (Throw e, w') => R w w'
            end.
Proof.
  intros Htrans Hsleep Hcomp Hop w. rewrite callOpenAIWithRetry_from_1.
  pose proof (Hop w) as H1.
  destruct (operation w) as [[v|e1] w1]; [assumption|].
  set (w1' := snd (sleep _ w1)).
  assert (R w w1') as H1' by (eapply Htrans; [exact H1|apply Hsleep]).
  pose proof (Hop w1') as H2.
  destruct (operation w1') as [[v|e2] w2]; [eapply Hcomp; eassumption|].
  set (w2' := snd (sleep _ w2)).
  assert (R w w2') as H2'.
  { eapply Htrans; [exact H1'|]. eapply Htrans; [exact H2|apply Hsleep]. }
  pose proof (Hop w2') as H3.
  destruct (operation w2') as [[v|e3] w3]; [eapply Hcomp; eassumption|].
  eapply Htrans; eassumption.
Qed.

(** An invariant of each attempt and of waiting is an invariant of the
    loop. *)
Lemma retry_inv {T} (operation : M T) drug (I : World -> Prop) :
  (forall w ms, I w -> I (snd (sleep ms w))) ->
  (forall w, I w -> I (snd (operation w))) ->
  forall w, I w -> I (snd (callOpenAIWithRetry operation drug 1 w)).
Proof.
  intros Hsleep Hop w Hw. rewrite callOpenAIWithRetry_from_1.
  pose proof (Hop w Hw) as H1.
  destruct (operation w) as [[v|e1] w1]; [assumption|]. cbn [snd] in H1.
  pose proof (Hop _ (Hsleep w1 (if isRateLimit e1 then 1000 else 500)%Z H1)) as H2.
  destruct (operation _) as [[v|e2] w2]; [assumption|]. cbn [snd] in H2.
  exact (Hop _ (Hsleep w2 (if isRateLimit e2 then 2000 else 500)%Z H2)).
Qed.

Lemma retry_caches {A} key wrap uncached (operation : M A) drug :
  (forall w, match operation w with
             | (Return v, w') => cachedUnder key wrap uncached v w w'
             | (Throw e, w') => sameCache w w'
             end) ->
  forall w, match callOpenAIWithRetry operation drug 1 w with
            | (Return v, w') => cachedUnder key wrap uncached v w w'
            | (Throw e, w') => sameCache w w'
            end.
Proof.
  intros Hop. apply retry_rel; [| | |exact Hop].
  - intros w1 w2 w3 [H1 P1] [H2 P2]. split; [congruence|]. etransitivity; eassumption.
  - intros w ms. split; [reflexivity|]. cbn. apply prefix_app_r. reflexivity.
  - intros v w1 w2 w3 [H1 P1] [H2 P2]. split; [|etransitivity; eassumption].
    rewrite <- H1. exact H2.
Qed.

Ltac mcbn :=
  cbn -[Z.add Z.mul Z.ltb Z.pow String.append insert trim nonEmpty truthy orUndefined
        availableSections hashContent fmap] in *.

(** Case analysis on the innermost scrutinee of the goal. *)
Ltac break_match :=
  match goal with
  | |- context [match ?x with _ => _ end] =>
      lazymatch x with
      | context [match _ with _ => _ end] => fail
      | _ => destruct x eqn:?
      end
  end.

Ltac prefix_solve := repeat (apply prefix_app_r); reflexivity.

Ltac step_closure :=
  intros ?w; munfold; mcbn;
  repeat (break_match; mcbn);
  unfold cachedUnder, sameCache; mcbn;
  repeat split; auto; try prefix_solve.

Section CacheAside.

Variable JSON_parse_seo : string -> option SeoMetadata.
Variable JSON_parse_sections : string -> option (gmap string string).
Variable client : OpenAI.

Lemma cacheAside_intro {A} key wrap unwrap uncached (rest : M A) :
  (forall w, match rest w with
             | (Return v, w') => cachedUnder key wrap uncached v w w'
             | (Throw e, w') => sameCache w w'
             end) ->
  cacheAside key wrap unwrap uncached
    (cached ← cacheService_get key;
     match cached ≫= unwrap with
     | Some hit => mret hit
     | None => rest
     end).
Proof.
  intros Hrest w. cbn zeta. rewrite bind_cacheService_get.
  destruct (freshValue key w ≫= unwrap) as [hit|].
  - cbn. split; [exists []; reflexivity|auto].
  - pose proof (Hrest (emit (EvCacheGet key) w)) as H.
    destruct (rest _) as [[v|e] w']; cbn [fst snd].
    + destruct H as [H [rest' Hp]]. cbn in Hp, H.
      split; [exists rest'; rewrite Hp, <- app_assoc; reflexivity|exact H].
    + destruct H as [H [rest' Hp]]. cbn in Hp, H.
      split; [exists rest'; rewrite Hp, <- app_assoc; reflexivity|exact H].
Qed.

Lemma generateSEOMetadata_cacheAside drug :
  cacheAside ("seo_metadata:" +:+ setId drug) CachedSeo asSeo
    (fun v => v = getFallbackSEOMetadata drug)
    (generateSEOMetadata JSON_parse_seo (Some client) drug).
Proof.
  apply cacheAside_intro. apply retry_caches. step_closure.
Qed.

Lemma generateDrugSummary_cacheAside drug :
  cacheAside ("drug_summary:" +:+ setId drug) CachedText asText
    (fun _ => False)
    (generateDrugSummary (Some client) drug).
Proof.
  apply cacheAside_intro. apply retry_caches. step_closure.
Qed.

Lemma enhanceAllSections_cacheAside drug :
  cacheAside ("enhanced_sections:" +:+ setId drug) CachedSectionMap asSectionMap
    (fun v => v = ∅ /\ availableSections drug = [])
    (enhanceAllSections JSON_parse_sections (Some client) drug).
Proof.
  apply cacheAside_intro. intros w.
  destruct (length (availableSections drug) =? 0)%nat eqn:E.
  - cbn. apply Nat.eqb_eq in E. apply length_zero_iff_nil in E.
    split; [left; auto|reflexivity].
  - apply retry_caches. step_closure.
Qed.

End CacheAside.

(** ** Outcomes of the section batch *)

Section SectionBatch.

Variable JSON_parse_seo : string -> option SeoMetadata.
Variable JSON_parse_sections : string -> option (gmap string string).

Lemma enhanceAllSections_outcomes openai drug w :
  match enhanceAllSections JSON_parse_sections openai drug w with
  | (Return m, w') =>
      (openai = None /\ m = ∅)
      \/ freshValue ("enhanced_sections:" +:+ setId drug) w ≫= asSectionMap = Some m
      \/ (availableSections drug = [] /\ m = ∅)
      \/ (exists client k text,
            openai = Some client /\ k < 3
            /\ client (calls w + k) = Completed text
            /\ JSON_parse_sections (default "" text) = Some m)
  | (Throw e, w') =>
      exists client,
        openai = Some client
        /\ availableSections drug <> []
        /\ calls w' = calls w + 3
        /\ cache w' = cache w
        /\ (client (calls w + 2) = Rejected e
            \/ exists text, client (calls w + 2) = Completed text
                            /\ JSON_parse_sections (default "" text) = None
                            /\ e = syntaxError)
  end.
Proof.
  unfold enhanceAllSections.
  destruct openai as [client|]; [|left; auto].
  rewrite bind_cacheService_get.
  destruct (freshValue _ w ≫= asSectionMap) as [hit|] eqn:Hhit; [right; left; reflexivity|].
  destruct (length (availableSections drug) =? 0)%nat eqn:E.
  { apply Nat.eqb_eq, length_zero_iff_nil in E. right; right; left. auto. }
  assert (availableSections drug <> []) as Hne.
  { intros H. rewrite H in E. discriminate. }
  rewrite callOpenAIWithRetry_from_1. munfold. mcbn.
  repeat (break_match; mcbn).
  all: replace (calls w + 3) with (S (S (S (calls w)))) by lia.
  all: try (right; right; right; exists client;
            first [ exists 0; rewrite Nat.add_0_r; eexists;
                    repeat split; [lia | eassumption | eassumption]
                  | exists 1; rewrite Nat.add_1_r; eexists;
                    repeat split; [lia | eassumption | eassumption]
                  | exists 2; replace (calls w + 2) with (S (S (calls w))) by lia; eexists;
                    repeat split; [lia | eassumption | eassumption] ]).
  all: exists client; replace (calls w + 2) with (S (S (calls w))) by lia;
       repeat split; auto;
       first [ left; assumption | right; eexists; eauto ].
Qed.

End SectionBatch.

(** ** The Enhancement Orchestrator *)

Lemma bind_return {A B} (m : M A) (f : A -> M B) w a w' :
  m w = (Return a, w') -> (m ≫= f) w = f a w'.
Proof. intros H. unfold mbind, M_bind. rewrite H. reflexivity. Qed.

Lemma bind_throw {A B} (m : M A) (f : A -> M B) w e w' :
  m w = (Throw e, w') -> (m ≫= f) w = (Throw e, w').
Proof. intros H. unfold mbind, M_bind. rewrite H. reflexivity. Qed.

Lemma cacheAside_throw {A} key wrap unwrap uncached (operation : M A) w e w' :
  cacheAside key wrap unwrap uncached operation ->
  operation w = (Throw e, w') -> cache w' = cache w.
Proof.
  intros H Hop. specialize (H w). cbn zeta in H. rewrite Hop in H. cbn [fst snd] in H.
  destruct H as [_ H]. destruct (freshValue key w ≫= unwrap).
  - destruct H as [H _]. discriminate.
  - exact H.
Qed.

Lemma cacheAside_return {A} key wrap unwrap uncached (operation : M A) w v w' :
  cacheAside key wrap unwrap uncached operation ->
  operation w = (Return v, w') ->
  cache w' = cache w
  \/ cache w' = <[ key := {| entry_value := wrap v;
                             entry_expires := (clock w' + 86400 * 1000)%Z |} ]> (cache w).
Proof.
  intros H Hop. specialize (H w). cbn zeta in H. rewrite Hop in H. cbn [fst snd] in H.
  destruct H as [_ H]. destruct (freshValue key w ≫= unwrap).
  - left. tauto.
  - destruct H as [[_ H]|H]; auto.
Qed.

Lemma nonEmpty_append_r s t : nonEmpty t = true -> nonEmpty (s +:+ t) = true.
Proof. destruct s; [auto|reflexivity]. Qed.

Lemma nonEmpty_append_l s t : nonEmpty s = true -> nonEmpty (s +:+ t) = true.
Proof. destruct s; [discriminate|reflexivity]. Qed.

Lemma key_seo_content a b : "seo_metadata:" +:+ a <> "enhanced_content:" +:+ b.
Proof. cbn. discriminate. Qed.

Section OrchestratorFacts.

Variable JSON_parse_seo : string -> option SeoMetadata.
Variable JSON_parse_sections : string -> option (gmap string string).
Variable openai : option OpenAI.

Local Abbreviation generateSEOMetadata := (generateSEOMetadata JSON_parse_seo openai).
Local Abbreviation generateDrugSummary := (generateDrugSummary openai).
Local Abbreviation enhanceAllSections := (enhanceAllSections JSON_parse_sections openai).
Local Abbreviation enhanceAllSectionsAtOnce :=
  (enhanceAllSectionsAtOnce JSON_parse_sections openai).
Local Abbreviation generateEnhancedContent :=
  (generateEnhancedContent JSON_parse_seo JSON_parse_sections openai).
Local Abbreviation getEnhancedContent :=
  (getEnhancedContent JSON_parse_seo JSON_parse_sections openai).

Lemma generateSEOMetadata_throw drug w e w' :
  generateSEOMetadata drug w = (Throw e, w') -> cache w' = cache w.
Proof.
  destruct openai as [client|] eqn:Ho.
  - apply (cacheAside_throw _ _ _ _ _ _ _ _ (generateSEOMetadata_cacheAside _ _ _)).
  - discriminate.
Qed.

Lemma generateSEOMetadata_return drug w v w' :
  generateSEOMetadata drug w = (Return v, w') ->
  forall k, k <> "seo_metadata:" +:+ setId drug -> cache w' !! k = cache w !! k.
Proof.
  intros H k Hk. destruct openai as [client|] eqn:Ho.
  - destruct (cacheAside_return _ _ _ _ _ _ _ _ (generateSEOMetadata_cacheAside _ _ _) H)
      as [->| ->]; [reflexivity|]. rewrite lookup_insert_ne; auto.
  - cbn in H. injection H as _ <-. reflexivity.
Qed.

Lemma generateDrugSummary_throw drug w e w' :
  generateDrugSummary drug w = (Throw e, w') -> cache w' = cache w.
Proof.
  destruct openai as [client|] eqn:Ho.
  - apply (cacheAside_throw _ _ _ _ _ _ _ _ (generateDrugSummary_cacheAside _ _)).
  - discriminate.
Qed.

(** The section batch never makes [enhanceAllSectionsAtOnce] throw. *)
Lemma enhanceAllSectionsAtOnce_returns sections drug w :
  exists res w', enhanceAllSectionsAtOnce sections drug w = (Return res, w').
Proof.
  unfold DrugService.enhanceAllSectionsAtOnce. rewrite bind_cacheService_get.
  destruct (freshValue _ w ≫= asSections); [cbn; eauto|].
  unfold tryCatch.
  destruct (enhanceAllSections drug
              (emit (EvCacheGet ("enhanced_all_sections:" +:+ setId drug)) w))
    as [[m|e] w1] eqn:E.
  - erewrite bind_return by exact E. cbn. eauto.
  - erewrite bind_throw by exact E. cbn. eauto.
Qed.

(** When the batch call throws, the sections come back as they were. *)
Lemma enhanceAllSectionsAtOnce_absorbs sections drug w e w' :
  freshValue ("enhanced_all_sections:" +:+ setId drug) w ≫= asSections = None ->
  enhanceAllSections drug (emit (EvCacheGet ("enhanced_all_sections:" +:+ setId drug)) w)
    = (Throw e, w') ->
  enhanceAllSectionsAtOnce sections drug w = (Return sections, w').
Proof.
  intros Hmiss E.
  unfold DrugService.enhanceAllSectionsAtOnce. rewrite bind_cacheService_get, Hmiss.
  unfold tryCatch. erewrite bind_throw by exact E. reflexivity.
Qed.

Lemma getEnhancedContent_returns drug w :
  exists ec w', getEnhancedContent drug w = (Return ec, w').
Proof.
  unfold DrugService.getEnhancedContent. rewrite bind_cacheService_get.
  destruct (freshValue _ w ≫= asContent); [cbn; eauto|].
  unfold tryCatch.
  destruct (generateEnhancedContent drug
              (emit (EvCacheGet ("enhanced_content:" +:+ setId drug)) w))
    as [[ec|e] w1]; cbn; eauto.
Qed.

(** The [try] block of [getEnhancedContent] throws exactly when the title
    or the summary call throws. *)
Lemma generateEnhancedContent_throw drug w e w' :
  generateEnhancedContent drug w = (Throw e, w') <->
  (generateSEOMetadata drug w = (Throw e, w')
   \/ exists seo w1, generateSEOMetadata drug w = (Return seo, w1)
                     /\ generateDrugSummary drug w1 = (Throw e, w')).
Proof.
  unfold DrugService.generateEnhancedContent.
  destruct (generateSEOMetadata drug w) as [[seo|e1] w1] eqn:E1.
  - erewrite bind_return by exact E1.
    destruct (generateDrugSummary drug w1) as [[summary|e2] w2] eqn:E2.
    + erewrite bind_return by exact E2.
      destruct (enhanceAllSectionsAtOnce_returns (buildDrugSections drug) drug w2)
        as (res & w3 & E3).
      erewrite bind_return by exact E3. cbn. split; [discriminate|].
      intros [H|(? & ? & H1 & H2)]; [discriminate|]. injection H1 as <- <-.
      rewrite E2 in H2. discriminate.
    + erewrite bind_throw by exact E2. split.
      * intros H. injection H as <- <-. right. exists seo, w1. auto.
      * intros [H|(? & ? & H1 & H2)]; [discriminate|]. injection H1 as <- <-.
        rewrite E2 in H2. injection H2 as <- <-. reflexivity.
  - erewrite bind_throw by exact E1. split.
    + intros H. injection H as <- <-. left. reflexivity.
    + intros [H|(? & ? & H1 & _)]; [|discriminate].
      injection H as <- <-. reflexivity.
Qed.

End OrchestratorFacts.

Lemma fallbackContent_nonEmpty drug now :
  nonEmpty (ec_seoTitle (fallbackContent drug now)) = true
  /\ nonEmpty (ec_metaDescription (fallbackContent drug now)) = true
  /\ nonEmpty (ec_enhancedSummary (fallbackContent drug now)) = true.
Proof.
  cbn [fallbackContent ec_seoTitle ec_metaDescription ec_enhancedSummary].
  split; [|split].
  - apply nonEmpty_append_r. reflexivity.
  - reflexivity.
  - apply nonEmpty_append_r. reflexivity.
Qed.

Lemma buildDrugSections_unenhanced drug :
  Forall (fun s => sec_enhancedContent s = None) (buildDrugSections drug).
Proof.
  unfold buildDrugSections.
  destruct (fold_pushSection drug sectionMappings [] 1) as (_ & _ & _ & _ & H5).
  eapply map_const_Forall. exact H5.
Qed.

(** C1 (amended).  On a cache miss, when the title-and-description call or
    the summary call of the Gateway throws, [getEnhancedContent] returns the
    fallback object: its title, description and summary are the non-empty
    templates, its sections are those of [buildDrugSections] with no
    enhanced content; the entry [enhanced_content:<id>] of the cache is as
    it was, and so is every entry other than [seo_metadata:<id>]. *)
Theorem getEnhancedContent_fallback_on_gateway_failure
    (JSON_parse_seo : string -> option SeoMetadata)
    (JSON_parse_sections : string -> option (gmap string string))
    (openai : option OpenAI) (drug : DrugLabel) (w : World) (e : JsError) (w' : World) :
  let key := "enhanced_content:" +:+ setId drug in
  let w1 := emit (EvCacheGet key) w in
  freshValue key w ≫= asContent = None ->
  (generateSEOMetadata JSON_parse_seo openai drug w1 = (Throw e, w')
   \/ exists seo w2,
        generateSEOMetadata JSON_parse_seo openai drug w1 = (Return seo, w2)
        /\ generateDrugSummary openai drug w2 = (Throw e, w')) ->
  let fallback := fallbackContent drug (clock w') in
  getEnhancedContent JSON_parse_seo JSON_parse_sections openai drug w = (Return fallback, w')
  /\ ec_seoTitle fallback
     = drugName drug +:+ " (" +:+ genericName (label drug) +:+ ") - Drug Information"
  /\ nonEmpty (ec_seoTitle fallback) = true
  /\ nonEmpty (ec_metaDescription fallback) = true
  /\ nonEmpty (ec_enhancedSummary fallback) = true
  /\ ec_sections fallback = buildDrugSections drug
  /\ Forall (fun s => sec_enhancedContent s = None) (ec_sections fallback)
  /\ cache w' !! key = cache w !! key
  /\ (forall k, k <> "seo_metadata:" +:+ setId drug -> cache w' !! k = cache w !! k).
Proof.
  intros key w1 Hmiss Hraise fallback.
  pose proof (fallbackContent_nonEmpty drug (clock w')) as (N1 & N2 & N3).
  assert (forall k, k <> "seo_metadata:" +:+ setId drug -> cache w' !! k = cache w !! k)
    as Hframe.
  { intros k Hk. destruct Hraise as [H|(seo & w2 & H1 & H2)].
    - rewrite (generateSEOMetadata_throw _ _ _ _ _ _ H). reflexivity.
    - rewrite (generateDrugSummary_throw _ _ _ _ _ H2).
      rewrite (generateSEOMetadata_return _ _ _ _ _ _ H1 k Hk). reflexivity. }
  split.
  { unfold DrugService.getEnhancedContent. rewrite bind_cacheService_get. fold key.
    rewrite Hmiss. unfold tryCatch. fold w1.
    apply (generateEnhancedContent_throw JSON_parse_seo JSON_parse_sections) in Hraise.
    rewrite Hraise. reflexivity. }
  assert (cache w' !! key = cache w !! key) as Hkey.
  { apply Hframe. intros H. symmetry in H. exact (key_seo_content _ _ H). }
  pose proof (buildDrugSections_unenhanced drug) as Hplain.
  repeat split; assumption.
Qed.

(** ** The invariant of the cache *)

Lemma cacheClean_empty : cacheClean ∅.
Proof. apply map_Forall_empty. Qed.

Lemma cacheClean_insert c key value expires :
  cacheClean c -> valueClean value ->
  cacheClean (<[ key := {| entry_value := value; entry_expires := expires |} ]> c).
Proof. intros Hc Hv. apply map_Forall_insert_2; assumption. Qed.

Lemma freshValue_clean key w value :
  cacheClean (cache w) -> freshValue key w = Some value -> valueClean value.
Proof.
  unfold freshValue. intros Hc H.
  destruct (cache w !! key) as [entry|] eqn:E; [|discriminate].
  destruct (clock w <? entry_expires entry)%Z; [|discriminate].
  injection H as <-. exact (Hc key entry E).
Qed.

Lemma cacheAside_clean {A} key wrap unwrap uncached (operation : M A) w :
  cacheAside key wrap unwrap uncached operation ->
  (forall v, valueClean (wrap v)) ->
  cacheClean (cache w) -> cacheClean (cache (snd (operation w))).
Proof.
  intros Haside Hwrap Hc.
  destruct (operation w) as [[v|e] w'] eqn:E; cbn [snd].
  - destruct (cacheAside_return _ _ _ _ _ _ _ _ Haside E) as [->| ->]; [assumption|].
    apply cacheClean_insert; auto.
  - rewrite (cacheAside_throw _ _ _ _ _ _ _ _ Haside E). assumption.
Qed.

Lemma orUndefined_clean o : orUndefined o <> Some "".
Proof.
  unfold orUndefined. destruct o as [s|]; cbn; [|discriminate].
  destruct (nonEmpty s) eqn:E; [|discriminate].
  intros H. injection H as ->. discriminate.
Qed.

Lemma withEnhancedContent_clean enhancedData sections :
  Forall sectionClean (map (withEnhancedContent enhancedData) sections).
Proof.
  apply Forall_forall. intros s Hs. apply list_elem_of_fmap in Hs as (s0 & -> & _).
  apply orUndefined_clean.
Qed.

Lemma buildDrugSections_clean drug : Forall sectionClean (buildDrugSections drug).
Proof.
  eapply Forall_impl; [apply buildDrugSections_unenhanced|].
  intros s H. unfold sectionClean. rewrite H. discriminate.
Qed.

Section Clean.

Variable JSON_parse_seo : string -> option SeoMetadata.
Variable JSON_parse_sections : string -> option (gmap string string).
Variable openai : option OpenAI.

Lemma generateSEOMetadata_clean drug w :
  cacheClean (cache w) ->
  cacheClean (cache (snd (generateSEOMetadata JSON_parse_seo openai drug w))).
Proof.
  destruct openai as [client|]; [|auto].
  apply (cacheAside_clean _ _ _ _ _ _ (generateSEOMetadata_cacheAside _ _ _)).
  intros v. exact I.
Qed.

Lemma generateDrugSummary_clean drug w :
  cacheClean (cache w) ->
  cacheClean (cache (snd (generateDrugSummary openai drug w))).
Proof.
  destruct openai as [client|]; [|auto].
  apply (cacheAside_clean _ _ _ _ _ _ (generateDrugSummary_cacheAside _ _)).
  intros v. exact I.
Qed.

Lemma enhanceAllSections_clean drug w :
  cacheClean (cache w) ->
  cacheClean (cache (snd (enhanceAllSections JSON_parse_sections openai drug w))).
Proof.
  destruct openai as [client|]; [|auto].
  apply (cacheAside_clean _ _ _ _ _ _ (enhanceAllSections_cacheAside _ _ _)).
  intros v. exact I.
Qed.

Lemma enhanceAllSectionsAtOnce_clean sections drug w res w' :
  Forall sectionClean sections ->
  cacheClean (cache w) ->
  enhanceAllSectionsAtOnce JSON_parse_sections openai sections drug w = (Return res, w') ->
  Forall sectionClean res /\ cacheClean (cache w').
Proof.
  intros Hs Hc. unfold DrugService.enhanceAllSectionsAtOnce.
  rewrite bind_cacheService_get.
  destruct (freshValue _ w ≫= asSections) as [hit|] eqn:Hhit.
  - intros H. injection H as <- <-. split; [|exact Hc].
    destruct (freshValue _ w) as [[]|] eqn:Hfresh; try discriminate.
    injection Hhit as <-. exact (freshValue_clean _ _ _ Hc Hfresh).
  - unfold tryCatch.
    pose proof (enhanceAllSections_clean drug
                  (emit (EvCacheGet ("enhanced_all_sections:" +:+ setId drug)) w) Hc) as Hc1.
    destruct (enhanceAllSections JSON_parse_sections openai drug _) as [[m|e] w1] eqn:E.
    + erewrite bind_return by exact E. cbn [snd] in Hc1.
      intros H. injection H as <- <-. split; [apply withEnhancedContent_clean|].
      apply cacheClean_insert; [exact Hc1|apply withEnhancedContent_clean].
    + erewrite bind_throw by exact E. cbn [snd] in Hc1.
      intros H. injection H as <- <-. auto.
Qed.

Lemma getEnhancedContent_clean drug w ec w' :
  cacheClean (cache w) ->
  getEnhancedContent JSON_parse_seo JSON_parse_sections openai drug w = (Return ec, w') ->
  Forall sectionClean (ec_sections ec) /\ cacheClean (cache w').
Proof.
  intros Hc. unfold DrugService.getEnhancedContent.
  rewrite bind_cacheService_get.
  destruct (freshValue _ w ≫= asContent) as [hit|] eqn:Hhit.
  - intros H. injection H as <- <-. split; [|exact Hc].
    destruct (freshValue _ w) as [[]|] eqn:Hfresh; try discriminate.
    injection Hhit as <-. exact (freshValue_clean _ _ _ Hc Hfresh).
  - unfold tryCatch, DrugService.generateEnhancedContent.
    set (w0 := emit _ w).
    pose proof (generateSEOMetadata_clean drug w0 Hc) as Hc1.
    destruct (generateSEOMetadata JSON_parse_seo openai drug w0) as [[seo|e1] w1] eqn:E1;
      cbn [snd] in Hc1.
    2:{ erewrite bind_throw by exact E1. cbn. intros H. injection H as <- <-.
        split; [apply buildDrugSections_clean|exact Hc1]. }
    erewrite bind_return by exact E1.
    pose proof (generateDrugSummary_clean drug w1 Hc1) as Hc2.
    destruct (generateDrugSummary openai drug w1) as [[summary|e2] w2] eqn:E2;
      cbn [snd] in Hc2.
    2:{ erewrite bind_throw by exact E2. cbn. intros H. injection H as <- <-.
        split; [apply buildDrugSections_clean|exact Hc2]. }
    erewrite bind_return by exact E2.
    destruct (enhanceAllSectionsAtOnce_returns JSON_parse_sections openai
                (buildDrugSections drug) drug w2) as (res & w3 & E3).
    destruct (enhanceAllSectionsAtOnce_clean _ _ _ _ _
                (buildDrugSections_clean drug) Hc2 E3) as [Hres Hc3].
    erewrite bind_return by exact E3. cbn.
    intros H. injection H as <- <-. cbn. split; [exact Hres|].
    apply cacheClean_insert; assumption.
Qed.

End Clean.

(** ** The Tool Protocol Adapter *)

Lemma render_filter_present sections :
  Forall sectionClean sections ->
  map renderEnhancedSection
      (filter (fun section => truthy (sec_enhancedContent section)) sections)
  = omap presentSection sections.
Proof.
  induction 1 as [|s l Hs Hl IH]; [reflexivity|].
  rewrite filter_cons. cbn [omap list_omap]. fold (omap presentSection l).
  unfold sectionClean in Hs. unfold presentSection at 1.
  destruct (sec_enhancedContent s) as [e|] eqn:E; cbn [truthy].
  - destruct (nonEmpty e) eqn:N.
    + rewrite decide_True by exact I. cbn [map]. rewrite IH.
      unfold renderEnhancedSection. rewrite E. reflexivity.
    + exfalso. apply Hs. f_equal. destruct e; [reflexivity|discriminate].
  - rewrite decide_False by exact id. exact IH.
Qed.

Section AdapterFacts.

Variable drugService : DrugServiceApi.

(** An unknown method is answered with error -32601 and no result. *)
Lemma handleRequest_unknown_method request w :
  knownMethod (req_method request) = false ->
  exists response,
    handleRequest drugService request w = (Return response, w)
    /\ resp_result response = None
    /\ (exists message,
          resp_error response
          = Some {| error_code := -32601; error_message := message; error_data := None |})
    /\ resp_id response = idOrNull_falsy (req_id request).
Proof.
  unfold knownMethod, handleRequest. intros H.
  apply orb_false_iff in H as [H H3]. apply orb_false_iff in H as [H1 H2].
  rewrite H1, H2, H3. eexists. split; [reflexivity|]. cbn. eauto.
Qed.

(** The three recognised methods echo the id, or answer [null] when the
    request has none. *)
Lemma handleRequest_known_method_id request w response w' :
  knownMethod (req_method request) = true ->
  handleRequest drugService request w = (Return response, w') ->
  resp_id response = idOrNull_nullish (req_id request).
Proof.
  unfold knownMethod, handleRequest. intros Hk.
  destruct (String.eqb (req_method request) "tools/list").
  { intros H. injection H as <- <-. reflexivity. }
  destruct (String.eqb (req_method request) "tools/call").
  { unfold callTool, tryCatch.
    destruct (executeTool drugService (req_params request) w) as [[r|e] w1] eqn:E.
    - erewrite bind_return by exact E. intros H. injection H as <- <-. reflexivity.
    - erewrite bind_throw by exact E.
      destruct (req_params request); [|discriminate].
      intros H. injection H as <- <-. reflexivity. }
  destruct (String.eqb (req_method request) "initialize").
  { intros H. injection H as <- <-. reflexivity. }
  discriminate.
Qed.

(** A [tools/call] request without [params] makes [handleRequest] throw:
    the [catch] branch of [callTool] reads [params.name]. *)
Lemma handleRequest_without_params_throws id w :
  handleRequest drugService
    {| req_method := "tools/call"; req_params := None; req_id := id |} w
  = (Throw (typeErrorReading "name"), w).
Proof. reflexivity. Qed.

(** The controller answers every request: what [handleRequest] throws
    becomes error -32603. *)
Lemma handleMcpRequest_responds request w :
  exists response w', handleMcpRequest drugService request w = (Return response, w').
Proof.
  unfold handleMcpRequest, tryCatch.
  destruct (handleRequest drugService request w) as [[r|e] w']; cbn; eauto.
Qed.

End AdapterFacts.

(** C3 (the code departs from the claim).  A request with an unknown method
    and the id 0, such as [{jsonrpc: "2.0", method: "nonexistent", id: 0}],
    is answered with error -32601 and no result, but the id of the answer is
    [null] and not the 0 of the request: the [default] branch of
    [handleRequest] computes [request.id || null], where the three other
    branches compute [request.id ?? null]. *)
Theorem handleRequest_unknown_method_drops_falsy_id (drugService : DrugServiceApi)
    (method : string) (params : option McpToolCall) (w : World) :
  knownMethod method = false ->
  handleRequest drugService
    {| req_method := method; req_params := params; req_id := Some (IdNumber 0) |} w
  = (Return {| resp_id := IdNull;
               resp_result := None;
               resp_error := Some {| error_code := -32601;
                                     error_message := "Method not found: " +:+ method;
                                     error_data := None |} |},
     w).
Proof.
  intros Hunknown. unfold handleRequest. cbn [req_method req_id].
  unfold knownMethod in Hunknown.
  apply orb_false_iff in Hunknown as [Hunknown H3].
  apply orb_false_iff in Hunknown as [H1 H2].
  rewrite H1, H2, H3. reflexivity.
Qed.

(** C4.  A [tools/call] of [get_drug_by_name] or [get_enhanced_sections]
    whose names resolve to no record is answered with a result and no error
    member; the result has [isError: true] and the text
    [Drug not found: <names>].  A [tools/call] of a tool that is not in the
    catalog, whatever its arguments and whether it carries any, is answered
    likewise with a result, [isError: true] and a text that contains
    [Unknown tool]; the state is left as it was. *)
Theorem tool_not_found_convention (drugService : DrugServiceApi)
    (id : option IdValue) (w : World) :
  (forall (name : string) (args : ToolArguments) (w' : World),
     name = "get_drug_by_name" \/ name = "get_enhanced_sections" ->
     ds_getDrugByNames drugService (arg_drugName args) (arg_genericName args) w
       = (Return None, w') ->
     handleRequest drugService
       {| req_method := "tools/call";
          req_params := Some {| call_name := name; call_arguments := Some args |};
          req_id := id |} w
     = (Return {| resp_id := idOrNull_nullish id;
                  resp_result :=
                    Some (ToolCallResult
                            {| res_content :=
                                 [Plain ("Drug not found: " +:+
                                         searchTerm (arg_drugName args)
                                                    (arg_genericName args))];
                               res_isError := Some true |});
                  resp_error := None |},
        w'))
  /\ (forall (unknown : string) (arguments : option ToolArguments),
        unknown <> "get_drug_by_name" ->
        unknown <> "search_drugs" ->
        unknown <> "get_enhanced_sections" ->
        handleRequest drugService
          {| req_method := "tools/call";
             req_params := Some {| call_name := unknown; call_arguments := arguments |};
             req_id := id |} w
        = (Return {| resp_id := idOrNull_nullish id;
                     resp_result :=
                       Some (ToolCallResult
                               {| res_content :=
                                    [Plain ("Error executing tool: " +:+
                                            ("Unknown tool" +:+ (": " +:+ unknown)))];
                                  res_isError := Some true |});
                     resp_error := None |},
           w)).
Proof.
  split.
  - intros name args w' Hname Hlookup.
    unfold handleRequest, callTool, tryCatch. cbn [req_method req_params req_id String.eqb
      Ascii.eqb Bool.eqb]. cbn -[String.append].
    destruct Hname as [-> | ->]; cbn -[String.append];
      unfold getDrugByName, getEnhancedSections;
      erewrite bind_return by (erewrite bind_return by exact Hlookup; reflexivity);
      reflexivity.
  - intros unknown arguments H1 H2 H3.
    apply String.eqb_neq in H1, H2, H3.
    unfold handleRequest, callTool, tryCatch, executeTool.
    cbn -[String.append]. rewrite H1, H2, H3. reflexivity.
Qed.

(** C9.  When the names resolve to a record and the cache holds only what the
    service stored in it, the [get_enhanced_sections] tool answers with the
    sections of the computed content that carry enhanced content, all of
    them and no others, in their order, each shown with its [title], its
    [originalContent] (the original text) and its [enhancedContent]. *)
Theorem get_enhanced_sections_filtering
    (JSON_parse_seo : string -> option SeoMetadata)
    (JSON_parse_sections : string -> option (gmap string string))
    (openai : option OpenAI) (drugs : list DrugLabel)
    (name : string) (args : ToolArguments) (id : option IdValue)
    (drug : DrugLabel) (w : World) :
  cacheClean (cache w) ->
  arg_drugName args = Some name ->
  getDrugByNames drugs name (arg_genericName args) = Some drug ->
  exists content w',
    getEnhancedContent JSON_parse_seo JSON_parse_sections openai drug w
      = (Return content, w')
    /\ handleRequest (service JSON_parse_seo JSON_parse_sections openai drugs)
         {| req_method := "tools/call";
            req_params := Some {| call_name := "get_enhanced_sections";
                                  call_arguments := Some args |};
            req_id := id |} w
       = (Return {| resp_id := idOrNull_nullish id;
                    resp_result :=
                      Some (ToolCallResult
                              {| res_content :=
                                   [Stringified
                                      (JObj [("drugName", JStr (ec_drugName content));
                                             ("genericName", JStr (ec_genericName content));
                                             ("enhancedSections",
                                               JArr (omap presentSection
                                                          (ec_sections content)))])];
                                 res_isError := None |});
                    resp_error := None |},
          w').
Proof.
  intros Hclean Hname Hfound.
  destruct (getEnhancedContent_returns JSON_parse_seo JSON_parse_sections openai drug w)
    as (content & w' & Hrun).
  exists content, w'. split; [exact Hrun|].
  destruct (getEnhancedContent_clean _ _ _ _ _ _ _ Hclean Hrun) as [Hsections _].
  unfold handleRequest, callTool, tryCatch, executeTool.
  cbn -[String.append getEnhancedContent getDrugByNames].
  unfold getEnhancedSections. cbn [service ds_getDrugByNames ds_getEnhancedContent].
  rewrite Hname. cbn [mbind M_bind mret M_ret]. unfold mbind, M_bind, mret, M_ret.
  rewrite Hfound, Hrun. rewrite (render_filter_present _ Hsections). reflexivity.
Qed.

(** ** Malformed replies, the cache and the fallback *)

(** The title-and-description operation does what the specification asks of
    a malformed reply: one call, no wait, the template, nothing cached. *)
Lemma generateSEOMetadata_malformed_reply JSON_parse_seo client drug w text :
  freshValue ("seo_metadata:" +:+ setId drug) w ≫= asSeo = None ->
  client (calls w) = Completed (Some text) ->
  nonEmpty text = true ->
  JSON_parse_seo text = None ->
  exists w',
    generateSEOMetadata JSON_parse_seo (Some client) drug w
      = (Return (getFallbackSEOMetadata drug), w')
    /\ calls w' = S (calls w)
    /\ sleepsOf (log w') = sleepsOf (log w)
    /\ cache w' = cache w.
Proof.
  intros Hmiss Hreply Htext Hparse. unfold generateSEOMetadata.
  rewrite bind_cacheService_get, Hmiss, callOpenAIWithRetry_from_1.
  munfold. mcbn. rewrite Hreply. mcbn. unfold truthy. rewrite Htext, Hparse.
  eexists. split; [reflexivity|]. mcbn. rewrite !sleepsOf_app. cbn.
  rewrite !app_nil_r. auto.
Qed.

(** C7 (the code departs from the claim).  When every reply to the section
    batch is a text that [JSON.parse] rejects, [enhanceAllSections] does not
    substitute a fallback at once: the [SyntaxError] goes through the retry
    loop, which calls the provider three times, waits 500 ms twice and then
    throws the error. *)
Theorem enhanceAllSections_retries_malformed_reply
    (JSON_parse_sections : string -> option (gmap string string))
    (client : OpenAI) (drug : DrugLabel) (w : World) (text : option string) :
  freshValue ("enhanced_sections:" +:+ setId drug) w ≫= asSectionMap = None ->
  availableSections drug <> [] ->
  (forall n, client n = Completed text) ->
  JSON_parse_sections (default "" text) = None ->
  exists w',
    enhanceAllSections JSON_parse_sections (Some client) drug w = (Throw syntaxError, w')
    /\ calls w' = calls w + 3
    /\ sleepsOf (log w') = sleepsOf (log w) ++ [500; 500]%Z
    /\ cache w' = cache w.
Proof.
  intros Hmiss Hsome Hreply Hparse. unfold enhanceAllSections.
  rewrite bind_cacheService_get, Hmiss.
  destruct (availableSections drug) as [|key keys] eqn:E; [congruence|].
  cbn [length Nat.eqb]. rewrite callOpenAIWithRetry_from_1.
  munfold. mcbn. rewrite !Hreply. mcbn. rewrite Hparse. mcbn.
  rewrite !Hreply. mcbn. rewrite Hparse. mcbn.
  rewrite !Hreply. mcbn. rewrite Hparse. mcbn.
  eexists. split; [reflexivity|]. cbn [calls log cache].
  split; [lia|]. split; [|reflexivity].
  rewrite !sleepsOf_app. cbn [sleepsOf omap list_omap]. rewrite !app_nil_r.
  rewrite <- app_assoc. reflexivity.
Qed.

Lemma enhanceAllSections_retries_malformed_reply_witness :
  exampleParseSections refusalText = None
  /\ exists w',
       enhanceAllSections exampleParseSections (Some alwaysRefuses) aspirin startWorld
         = (Throw syntaxError, w')
       /\ calls w' = 3
       /\ sleepsOf (log w') = [500; 500]%Z
       /\ cache w' = ∅.
Proof.
  split; [reflexivity|].
  apply (enhanceAllSections_retries_malformed_reply exampleParseSections alwaysRefuses
           aspirin startWorld (Some refusalText)).
  - reflexivity.
  - vm_compute. discriminate.
  - intros n. reflexivity.
  - reflexivity.
Defined.

(** C8 (counterexample).  With its key in the cache, the title-and-description
    operation of the Gateway reads the cache itself: it logs the read,
    returns the stored value and does not call the provider, which would have
    rejected the call. *)
Lemma gateway_reads_cache_counterexample :
  let stored := {| seo_title := "Stored title"; seo_description := "Stored description" |} in
  let w := {| cache := {[ "seo_metadata:123" :=
                            {| entry_value := CachedSeo stored; entry_expires := 1000 |} ]};
              clock := 0; calls := 0; log := [] |} in
  generateSEOMetadata exampleParseSeo (Some alwaysRateLimited) aspirin w
  = (Return stored,
     {| cache := cache w; clock := 0; calls := 0; log := [EvCacheGet "seo_metadata:123"] |}).
Proof. vm_compute. reflexivity. Qed.

(** C1 (counterexample).  First run: the provider serves the title and the
    summary and then fails every call of the section batch, so that the batch
    operation of the Gateway throws after three attempts; [getEnhancedContent]
    does not answer with the fallback object: the title is the generated one,
    and the object is written to the cache under [enhanced_content:123].
    Second run: the provider serves the title and then rejects every call, so
    that the summary operation throws after three attempts;
    [getEnhancedContent] answers with the fallback object, but the cache is
    not as it was: it holds the title under [seo_metadata:123]. *)
Lemma getEnhancedContent_error_path_counterexample :
  (let run := getEnhancedContent exampleParseSeo exampleParseSections (Some batchFails)
                aspirin startWorld in
   (let w1 := emit (EvCacheGet "enhanced_content:123") startWorld in
    let w2 := snd (generateSEOMetadata exampleParseSeo (Some batchFails) aspirin w1) in
    let w3 := snd (generateDrugSummary (Some batchFails) aspirin w2) in
    let w4 := emit (EvCacheGet "enhanced_all_sections:123") w3 in
    fst (enhanceAllSections exampleParseSections (Some batchFails) aspirin w4)
    = Throw serverError)
   /\ exists content,
        fst run = Return content
        /\ ec_seoTitle content = "Aspirin: uses and dosage"
        /\ content <> fallbackContent aspirin (ec_lastUpdated content)
        /\ calls (snd run) = 5
        /\ entry_value <$> cache (snd run) !! "enhanced_content:123"
           = Some (CachedContent content))
  /\ (getEnhancedContent exampleParseSeo exampleParseSections (Some titleThenRateLimited)
        aspirin startWorld
      = (Return (fallbackContent aspirin 3000), afterFallback)
      /\ generateDrugSummary (Some titleThenRateLimited) aspirin afterTitle
         = (Throw rateLimited, afterFallback)
      /\ cache afterFallback <> cache startWorld).
Proof.
  split.
  - cbn zeta. split; [vm_compute; reflexivity|].
    eexists. split; [vm_compute; reflexivity|].
    split; [reflexivity|]. split; [|split].
    + intros H. apply (f_equal ec_seoTitle) in H. vm_compute in H. discriminate.
    + vm_compute. reflexivity.
    + vm_compute. reflexivity.
  - split; [vm_compute; reflexivity|]. split; [vm_compute; reflexivity|].
    intros H. apply (f_equal (fun c => entry_value <$> c !! "seo_metadata:123")) in H.
    vm_compute in H. discriminate.
Qed.

Lemma getEnhancedContent_fallback_on_gateway_failure_witness :
  freshValue "enhanced_content:123" startWorld ≫= asContent = None
  /\ getEnhancedContent exampleParseSeo exampleParseSections (Some titleThenRateLimited)
       aspirin startWorld
     = (Return (fallbackContent aspirin 3000), afterFallback)
  /\ cache afterFallback !! "enhanced_content:123" = None
  /\ is_Some (cache afterFallback !! "seo_metadata:123").
Proof.
  split; [reflexivity|].
  assert (generateSEOMetadata exampleParseSeo (Some titleThenRateLimited) aspirin
            (emit (EvCacheGet "enhanced_content:123") startWorld)
          = (Return exampleSeo, afterTitle)) as Htitle by (vm_compute; reflexivity).
  assert (generateDrugSummary (Some titleThenRateLimited) aspirin afterTitle
          = (Throw rateLimited, afterFallback)) as Hsummary by (vm_compute; reflexivity).
  destruct (getEnhancedContent_fallback_on_gateway_failure
              exampleParseSeo exampleParseSections (Some titleThenRateLimited) aspirin
              startWorld rateLimited afterFallback eq_refl
              (or_intror (ex_intro _ exampleSeo (ex_intro _ afterTitle (conj Htitle Hsummary)))))
    as (Hrun & _ & _ & _ & _ & _ & _ & Hkey & _).
  split; [exact Hrun|]. split; [exact Hkey|].
  exists {| entry_value := CachedSeo exampleSeo; entry_expires := 86400000 |}.
  vm_compute. reflexivity.
Defined.

(** ** Record lookup and the examples of the adapter *)

Lemma find_firstMatch {A} (f : A -> bool) (P : A -> Prop) (l : list A) :
  (forall x, f x = true <-> P x) -> firstMatch P l (find f l).
Proof.
  intros Hf. induction l as [|x l IH]; cbn [find].
  - constructor.
  - destruct (f x) eqn:E.
    + exists [], l. split; [reflexivity|]. split; [apply Hf; exact E|constructor].
    + assert (~ P x) as Hx by (rewrite <- Hf, E; discriminate).
      destruct (find f l) as [y|]; cbn [firstMatch] in *.
      * destruct IH as (before & after & -> & Hy & Hbefore).
        exists (x :: before), after. split; [reflexivity|]. split; [exact Hy|].
        constructor; assumption.
      * constructor; assumption.
Qed.

(** C10 (counterexample).  An empty generic name counts as none: with
    [genericName = ""] the lookup returns the record that matches on the
    brand name alone, although its generic name is not the empty string. *)
Lemma getDrugByNames_empty_generic_name_counterexample :
  getDrugByNames [aspirin] "aspirin" (Some "") = Some aspirin
  /\ ~ matchesBothNames "aspirin" "" aspirin.
Proof.
  split; [reflexivity|]. intros [_ H]. vm_compute in H. discriminate.
Qed.

(** C10 (amended).  [getDrugByNames] returns the first record of the loaded
    list that matches, and [null] when none does.  With a non-empty
    [genericName] a record matches when its normalized brand name equals the
    normalized [drugName] and its lowercased generic name (hyphens kept)
    equals the lowercased [genericName]; without a [genericName], or with an
    empty one, it matches when its normalized brand name or its normalized
    generic name equals the normalized [drugName]. *)
Theorem getDrugByNames_first_match (drugs : list DrugLabel)
    (name : string) (generic : option string) :
  firstMatch
    (match generic with
     | Some g => if nonEmpty g then matchesBothNames name g else matchesEitherName name
     | None => matchesEitherName name
     end)
    drugs (getDrugByNames drugs name generic).
Proof.
  unfold getDrugByNames.
  assert (forall drug,
             String.eqb (normalizeName (drugName drug)) (normalizeName name)
             || String.eqb (normalizeName (genericName (label drug))) (normalizeName name)
             = true <-> matchesEitherName name drug) as Heither.
  { intros drug. unfold matchesEitherName. rewrite orb_true_iff, !String.eqb_eq. tauto. }
  destruct generic as [g|]; cbn [truthy default]; [|apply find_firstMatch, Heither].
  destruct (nonEmpty g); [|apply find_firstMatch, Heither].
  apply find_firstMatch. intros drug. unfold matchesBothNames.
  rewrite andb_true_iff, !String.eqb_eq. tauto.
Qed.

Lemma handleRequest_unknown_method_drops_falsy_id_witness :
  knownMethod "nonexistent" = false
  /\ handleRequest (service exampleParseSeo exampleParseSections None [aspirin])
       {| req_method := "nonexistent"; req_params := None; req_id := Some (IdNumber 0) |}
       startWorld
     = (Return {| resp_id := IdNull;
                  resp_result := None;
                  resp_error := Some {| error_code := -32601;
                                        error_message := "Method not found: nonexistent";
                                        error_data := None |} |},
        startWorld).
Proof.
  split; [reflexivity|].
  exact (handleRequest_unknown_method_drops_falsy_id
           (service exampleParseSeo exampleParseSections None [aspirin])
           "nonexistent" None startWorld eq_refl).
Defined.

Lemma tool_not_found_convention_witness :
  let drugService := service exampleParseSeo exampleParseSections None [aspirin] in
  ds_getDrugByNames drugService (Some "ibuprofen") None startWorld = (Return None, startWorld)
  /\ handleRequest drugService
       {| req_method := "tools/call";
          req_params := Some {| call_name := "get_drug_by_name";
                                call_arguments := Some (nameOnly "ibuprofen") |};
          req_id := Some (IdNumber 1) |} startWorld
     = (Return {| resp_id := IdNumber 1;
                  resp_result :=
                    Some (ToolCallResult
                            {| res_content := [Plain "Drug not found: ibuprofen"];
                               res_isError := Some true |});
                  resp_error := None |},
        startWorld)
  /\ handleRequest drugService
       {| req_method := "tools/call";
          req_params := Some {| call_name := "delete_drug"; call_arguments := None |};
          req_id := Some (IdNumber 1) |} startWorld
     = (Return {| resp_id := IdNumber 1;
                  resp_result :=
                    Some (ToolCallResult
                            {| res_content :=
                                 [Plain "Error executing tool: Unknown tool: delete_drug"];
                               res_isError := Some true |});
                  resp_error := None |},
        startWorld).
Proof.
  cbn zeta. split; [reflexivity|]. split.
  - exact (proj1 (tool_not_found_convention
                    (service exampleParseSeo exampleParseSections None [aspirin])
                    (Some (IdNumber 1)) startWorld)
             "get_drug_by_name" (nameOnly "ibuprofen") startWorld
             (or_introl eq_refl) eq_refl).
  - refine (proj2 (tool_not_found_convention
                     (service exampleParseSeo exampleParseSections None [aspirin])
                     (Some (IdNumber 1)) startWorld)
              "delete_drug" None _ _ _); discriminate.
Defined.

Lemma get_enhanced_sections_filtering_witness :
  cacheClean (cache startWorld)
  /\ getDrugByNames [aspirin] "aspirin" None = Some aspirin
  /\ exists w',
       handleRequest (service exampleParseSeo exampleParseSections (Some enhancesOne) [aspirin])
         {| req_method := "tools/call";
            req_params := Some {| call_name := "get_enhanced_sections";
                                  call_arguments := Some (nameOnly "aspirin") |};
            req_id := Some (IdString "a") |} startWorld
       = (Return {| resp_id := IdString "a";
                    resp_result :=
                      Some (ToolCallResult
                              {| res_content :=
                                   [Stringified
                                      (JObj [("drugName", JStr "Aspirin");
                                             ("genericName", JStr "acetylsalicylic-acid");
                                             ("enhancedSections",
                                               JArr [JObj [("title", JStr "Indications and Usage");
                                                           ("originalContent", JStr "Pain relief");
                                                           ("enhancedContent",
                                                             JStr "Aspirin eases pain.")]])])];
                                 res_isError := None |});
                    resp_error := None |},
          w').
Proof.
  split; [apply map_Forall_empty|]. split; [reflexivity|].
  destruct (get_enhanced_sections_filtering exampleParseSeo exampleParseSections
              (Some enhancesOne) [aspirin] "aspirin" (nameOnly "aspirin")
              (Some (IdString "a")) aspirin startWorld
              (map_Forall_empty _) eq_refl eq_refl) as (content & w' & Hrun & Hanswer).
  exists w'. rewrite Hanswer.
  assert (getEnhancedContent exampleParseSeo exampleParseSections (Some enhancesOne)
            aspirin startWorld = enhancedRun) as Hcomputed by (vm_compute; reflexivity).
  rewrite Hcomputed in Hrun. unfold enhancedRun in Hrun. injection Hrun as <- <-.
  vm_compute. reflexivity.
Defined.

Lemma buildDrugSections_table_order_witness :
  map sec_title (buildDrugSections aspirin)
  = ["Indications and Usage"; "Dosage and Administration"]
  /\ map sec_id (buildDrugSections aspirin)
     = ["123-indicationsAndUsage"; "123-dosageAndAdministration"]
  /\ map sec_order (buildDrugSections aspirin) = [1; 2].
Proof.
  pose proof (buildDrugSections_table_order aspirin) as (Htitles & Hids & _ & Horder & _).
  split; [exact Htitles|]. split; [exact Hids|exact Horder].
Defined.

(** ** Strings, slugs and names *)

Ltac ascii_cases c := destruct c as [[] [] [] [] [] [] [] []].

Lemma lower_char_idem c : lower_char (lower_char c) = lower_char c.
Proof. ascii_cases c; reflexivity. Qed.

Lemma lower_char_not_upper c : is_upper (lower_char c) = false.
Proof. ascii_cases c; reflexivity. Qed.

Lemma lower_char_fixed c : is_upper c = false -> lower_char c = c.
Proof. unfold lower_char. now intros ->. Qed.

Lemma lower_char_hyphen c : Ascii.eqb (lower_char c) "-" = Ascii.eqb c "-".
Proof. ascii_cases c; reflexivity. Qed.

Lemma lower_char_space c : is_space (lower_char c) = is_space c.
Proof. ascii_cases c; reflexivity. Qed.

Lemma lower_char_word c : is_word (lower_char c) = is_word c.
Proof. ascii_cases c; reflexivity. Qed.

Lemma space_not_word c : is_space c = true -> is_word c = false /\ Ascii.eqb c "-" = false.
Proof. ascii_cases c; cbv; intuition discriminate. Qed.

Lemma slug_char_spec c :
  is_slug_char c = true ->
  is_upper c = false /\ is_space c = false /\ is_word_or_hyphen c = true.
Proof. ascii_cases c; cbv; intuition discriminate. Qed.

Lemma toLowerCase_idem s : toLowerCase (toLowerCase s) = toLowerCase s.
Proof. induction s as [|c r IH]; cbn; [reflexivity|]. now rewrite lower_char_idem, IH. Qed.

Lemma replaceHyphens_idem s : replaceHyphens (replaceHyphens s) = replaceHyphens s.
Proof.
  induction s as [|c r IH]; cbn; [reflexivity|]. rewrite IH. f_equal.
  destruct (Ascii.eqb c "-") eqn:E; [reflexivity|]. now rewrite E.
Qed.

Lemma toLowerCase_replaceHyphens s :
  toLowerCase (replaceHyphens s) = replaceHyphens (toLowerCase s).
Proof.
  induction s as [|c r IH]; cbn; [reflexivity|]. rewrite IH. f_equal.
  rewrite lower_char_hyphen. destruct (Ascii.eqb c "-"); reflexivity.
Qed.

Lemma normalizeName_toLowerCase s : normalizeName (toLowerCase s) = normalizeName s.
Proof. unfold normalizeName. now rewrite toLowerCase_idem. Qed.

Lemma normalizeName_replaceHyphens s : normalizeName (replaceHyphens s) = normalizeName s.
Proof.
  unfold normalizeName. now rewrite toLowerCase_replaceHyphens, replaceHyphens_idem.
Qed.

Lemma nonEmpty_toLowerCase s : nonEmpty (toLowerCase s) = nonEmpty s.
Proof. destruct s; reflexivity. Qed.

Lemma string_append_cons c s t : String c s +:+ t = String c (s +:+ t).
Proof. reflexivity. Qed.

Lemma string_append_assoc s t u : (s +:+ t) +:+ u = s +:+ (t +:+ u).
Proof.
  induction s as [|c s IH]; [reflexivity|]. rewrite !string_append_cons. now rewrite IH.
Qed.

Lemma string_append_length s t :
  String.length (s +:+ t) = String.length s + String.length t.
Proof.
  induction s as [|c s IH]; [reflexivity|]. rewrite string_append_cons.
  cbn [String.length]. now rewrite IH.
Qed.

Lemma string_append_empty s : s +:+ "" = s.
Proof.
  induction s as [|c s IH]; [reflexivity|]. rewrite string_append_cons. now rewrite IH.
Qed.

Lemma allChars_impl (p q : ascii -> bool) s :
  (forall c, p c = true -> q c = true) -> allChars p s = true -> allChars q s = true.
Proof.
  intros Hpq. induction s as [|c r IH]; cbn; [reflexivity|].
  intros [Hc Hr]%andb_true_iff. rewrite (Hpq _ Hc). cbn. auto.
Qed.

Lemma allChars_append p s t :
  allChars p (s +:+ t) = allChars p s && allChars p t.
Proof.
  induction s as [|c r IH]; [reflexivity|].
  change (String c r +:+ t) with (String c (r +:+ t)). cbn [allChars].
  now rewrite IH, andb_assoc.
Qed.

Lemma toLowerCase_fixed s :
  allChars (fun c => negb (is_upper c)) s = true -> toLowerCase s = s.
Proof.
  induction s as [|c r IH]; cbn; [reflexivity|].
  intros [Hc Hr]%andb_true_iff. rewrite IH by exact Hr.
  rewrite lower_char_fixed; [reflexivity|]. now apply negb_true_iff.
Qed.

Lemma keepSlugChars_fixed s :
  allChars (fun c => is_word c || is_space c || Ascii.eqb c "-") s = true ->
  keepSlugChars s = s.
Proof.
  induction s as [|c r IH]; cbn; [reflexivity|].
  intros [Hc Hr]%andb_true_iff. now rewrite Hc, IH.
Qed.

Lemma dashSpaces_fixed s :
  allChars (fun c => negb (is_space c)) s = true ->
  forall inRun, dashSpaces inRun s = s.
Proof.
  induction s as [|c r IH]; cbn; [reflexivity|].
  intros [Hc Hr]%andb_true_iff inRun. apply negb_true_iff in Hc. now rewrite Hc, IH.
Qed.

Lemma trimEnd_fixed s :
  allChars (fun c => negb (is_space c)) s = true -> trimEnd s = s.
Proof.
  induction s as [|c r IH]; cbn; [reflexivity|].
  intros [Hc Hr]%andb_true_iff. apply negb_true_iff in Hc.
  rewrite IH by exact Hr. rewrite Hc. now destruct r.
Qed.

Lemma trim_fixed s :
  allChars (fun c => negb (is_space c)) s = true -> trim s = s.
Proof.
  intros H. unfold trim.
  assert (trimStart s = s) as ->.
  { destruct s as [|c r]; cbn in *; [reflexivity|].
    apply andb_true_iff in H as [Hc _]. apply negb_true_iff in Hc. now rewrite Hc. }
  now apply trimEnd_fixed.
Qed.

(** The characters that are left after the lowercasing and the first
    [replace]. *)
Lemma keepSlugChars_lower s :
  allChars (fun c => negb (is_upper c) && (is_word c || is_space c || Ascii.eqb c "-"))
           (keepSlugChars (toLowerCase s)) = true.
Proof.
  induction s as [|c r IH]; cbn; [reflexivity|].
  destruct (is_word (lower_char c) || is_space (lower_char c) || Ascii.eqb (lower_char c) "-")
    eqn:E; [|exact IH].
  cbn. now rewrite lower_char_not_upper, E, IH.
Qed.

Lemma dashSpaces_slug s :
  allChars (fun c => negb (is_upper c) && (is_word c || is_space c || Ascii.eqb c "-")) s
    = true ->
  forall inRun, allChars is_slug_char (dashSpaces inRun s) = true.
Proof.
  induction s as [|c r IH]; cbn; [reflexivity|].
  intros [[Hu Hc]%andb_true_iff Hr]%andb_true_iff inRun.
  destruct (is_space c) eqn:Es.
  - destruct inRun; [exact (IH Hr true)|].
    change (is_slug_char "-" && allChars is_slug_char (dashSpaces true r) = true).
    now rewrite (IH Hr true).
  - cbn. rewrite (IH Hr), andb_true_r. unfold is_slug_char. rewrite Hu.
    rewrite orb_false_r in Hc. destruct (is_word c); [reflexivity|exact Hc].
Qed.

Lemma slug_no_space s :
  allChars is_slug_char s = true -> allChars (fun c => negb (is_space c)) s = true.
Proof.
  apply allChars_impl. intros c Hc. apply slug_char_spec in Hc as (_ & -> & _). reflexivity.
Qed.

Lemma createSlug_untrimmed text :
  createSlug text = dashSpaces false (keepSlugChars (toLowerCase text)).
Proof.
  unfold createSlug. apply trim_fixed, slug_no_space, dashSpaces_slug, keepSlugChars_lower.
Qed.

Lemma createSlug_chars text : allChars is_slug_char (createSlug text) = true.
Proof. rewrite createSlug_untrimmed. apply dashSpaces_slug, keepSlugChars_lower. Qed.

(** A text made of slug characters is its own slug. *)
Lemma createSlug_fixed s : allChars is_slug_char s = true -> createSlug s = s.
Proof.
  intros H. rewrite createSlug_untrimmed.
  rewrite toLowerCase_fixed.
  2:{ revert H. apply allChars_impl. intros c Hc.
      apply slug_char_spec in Hc as (-> & _). reflexivity. }
  rewrite keepSlugChars_fixed.
  2:{ revert H. apply allChars_impl. intros c Hc.
      apply slug_char_spec in Hc as (_ & _ & Hc). unfold is_word_or_hyphen in Hc.
      destruct (is_word c); [reflexivity|]. cbn in *. now rewrite Hc, orb_true_r. }
  apply dashSpaces_fixed, slug_no_space, H.
Qed.

(** A text of letters, digits, underscores and hyphens: its slug is the
    text in lower case. *)
Lemma createSlug_word_or_hyphen s :
  allChars is_word_or_hyphen s = true -> createSlug s = toLowerCase s.
Proof.
  intros H. rewrite <- (createSlug_fixed (toLowerCase s)).
  - rewrite !createSlug_untrimmed, toLowerCase_idem. reflexivity.
  - induction s as [|c r IH]; cbn in *; [reflexivity|].
    apply andb_true_iff in H as [Hc Hr]. rewrite (IH Hr), andb_true_r.
    unfold is_slug_char, is_word_or_hyphen in *.
    now rewrite lower_char_not_upper, lower_char_word, lower_char_hyphen, andb_true_r.
Qed.

(** X1.  The slug of any text consists of lowercase letters, digits,
    underscores and hyphens only, and [createSlug] is idempotent: the slug of
    a slug is the slug itself. *)
Theorem createSlug_alphabet_idempotent (text : string) :
  allChars is_slug_char (createSlug text) = true
  /\ createSlug (createSlug text) = createSlug text.
Proof.
  split; [apply createSlug_chars|]. apply createSlug_fixed, createSlug_chars.
Qed.

(** X2.  The final [trim] of [createSlug] never removes anything: the white
    space has become hyphens before it runs.  So a space at the start of a
    text is not trimmed away, it shows as a leading hyphen of the slug. *)
Theorem createSlug_trim_is_noop (text : string) :
  createSlug text = dashSpaces false (keepSlugChars (toLowerCase text))
  /\ createSlug (String " " text)
     = String "-" (dashSpaces true (keepSlugChars (toLowerCase text))).
Proof.
  split; [apply createSlug_untrimmed|]. rewrite createSlug_untrimmed. reflexivity.
Qed.

(** X3.  The lookup ignores case and treats hyphens as spaces in the
    [drugName] argument, and ignores case in the [genericName] argument. *)
Theorem getDrugByNames_insensitive (drugs : list DrugLabel)
    (name : string) (generic : option string) :
  getDrugByNames drugs (toLowerCase name) generic = getDrugByNames drugs name generic
  /\ getDrugByNames drugs (replaceHyphens name) generic = getDrugByNames drugs name generic
  /\ getDrugByNames drugs name (toLowerCase <$> generic) = getDrugByNames drugs name generic.
Proof.
  unfold getDrugByNames.
  rewrite normalizeName_toLowerCase, normalizeName_replaceHyphens.
  split; [reflexivity|]. split; [reflexivity|].
  destruct generic as [g|]; cbn; [|reflexivity].
  now rewrite nonEmpty_toLowerCase, toLowerCase_idem.
Qed.

(** ** Sections and their enhancement *)

(** The two tables of [DrugService] are inverse to each other. *)
Lemma titleMappings_inverse :
  Forall (fun mapping => getSectionKeyFromTitle (snd mapping) = fst mapping) sectionMappings.
Proof. repeat constructor. Qed.

Lemma sectionsToEnhance_table : sectionsToEnhance = map fst sectionMappings.
Proof. reflexivity. Qed.

Lemma fold_pushSection_closed drug mappings : forall sections n,
  fst (fold_left (pushSection drug) mappings (sections, S n))
  = sections ++ imap (fun i => sectionOf drug (fun _ => None) (n + i))
                     (filter (fun mapping => populated drug (fst mapping)) mappings).
Proof.
  induction mappings as [|[key title'] mappings IH]; intros sections n.
  - cbn. now rewrite app_nil_r.
  - cbn [fold_left]. rewrite filter_cons. cbn [fst].
    destruct (populated drug key) eqn:Hp.
    + destruct (pushSection_populated drug sections (S n) key title' Hp)
        as (content & Hc & ->).
      rewrite IH. rewrite decide_True by exact I.
      rewrite <- app_assoc. f_equal. cbn [imap app]. f_equal.
      * unfold sectionOf. cbn [fst snd]. rewrite Hc. cbn. f_equal. lia.
      * apply imap_ext. intros i x _. cbn. f_equal. lia.
    + rewrite (pushSection_skipped drug sections (S n) key title' Hp).
      rewrite IH. rewrite decide_False by exact id. reflexivity.
Qed.

(** The sections in closed form. *)
Lemma buildDrugSections_closed drug :
  buildDrugSections drug = imap (sectionOf drug (fun _ => None)) (keptMappings drug).
Proof.
  unfold buildDrugSections. rewrite (fold_pushSection_closed drug sectionMappings [] 0).
  reflexivity.
Qed.

Lemma keptMappings_table drug mapping :
  mapping ∈ keptMappings drug ->
  getSectionKeyFromTitle (snd mapping) = fst mapping /\ populated drug (fst mapping) = true.
Proof.
  unfold keptMappings. intros [Hp Hin]%list_elem_of_filter. split.
  - pose proof titleMappings_inverse as Hall. rewrite Forall_forall in Hall.
    apply Hall, Hin.
  - now apply Is_true_true.
Qed.

Lemma withEnhancedContent_closed enhancedData drug :
  map (withEnhancedContent enhancedData) (buildDrugSections drug)
  = imap (sectionOf drug (fun key => orUndefined (enhancedData !! key))) (keptMappings drug).
Proof.
  rewrite buildDrugSections_closed.
  change (map ?f ?l) with (f <$> l). rewrite fmap_imap.
  apply imap_ext. intros i mapping Hin. cbn.
  apply list_elem_of_lookup_2, keptMappings_table in Hin as [Hkey _].
  unfold withEnhancedContent, sectionOf. cbn [sec_title sec_id sec_content sec_order].
  now rewrite Hkey.
Qed.

(** X4.  Enhancement is keyed by field: whatever map the section batch
    returns, the sections of the record keep their id, title, text and
    order, and the section of the field [key] receives the entry of the map
    under [key] when that entry is a non-empty text and nothing otherwise;
    entries under other keys are ignored. *)
Theorem enhancement_keyed_by_field (enhancedData : gmap string string) (drug : DrugLabel) :
  map (withEnhancedContent enhancedData) (buildDrugSections drug)
  = imap (fun index mapping =>
            {| sec_id := setId drug +:+ "-" +:+ fst mapping;
               sec_title := snd mapping;
               sec_content := default "" (prose (label drug) !! fst mapping);
               sec_enhancedContent := orUndefined (enhancedData !! fst mapping);
               sec_order := S index |})
         (filter (fun mapping => populated drug (fst mapping)) sectionMappings).
Proof. apply withEnhancedContent_closed. Qed.

Lemma filter_imap_sections drug (test : string -> bool) mappings :
  forall f : nat -> string * string -> DrugSection,
  (forall i m, sec_id (f i m) = setId drug +:+ "-" +:+ fst m
               /\ sec_content (f i m) = default "" (prose (label drug) !! fst m)) ->
  map sec_id (filter (fun section => test (sec_content section)) (imap f mappings))
  = map (fun mapping => setId drug +:+ "-" +:+ fst mapping)
        (filter (fun mapping => test (default "" (prose (label drug) !! fst mapping)))
                mappings).
Proof.
  induction mappings as [|m mappings IH]; intros f Hspec; [reflexivity|].
  cbn [imap]. rewrite !filter_cons.
  destruct (Hspec 0 m) as [Hid Hcontent]. rewrite Hcontent.
  destruct (test _) eqn:Ht.
  - rewrite !decide_True by exact I. cbn [map]. rewrite Hid. f_equal.
    apply IH. intros i m'. apply Hspec.
  - rewrite !decide_False by exact id. apply IH. intros i m'. apply Hspec.
Qed.

(** X5.  The sections the batch call asks the provider for are exactly the
    sections of the page whose text is more than white space, in the same
    order: a section of white space only is shown and never sent. *)
Theorem availableSections_are_nonblank_sections (drug : DrugLabel) :
  map sec_id (filter (fun section => notBlank section) (buildDrugSections drug))
  = map (fun key => setId drug +:+ "-" +:+ key) (availableSections drug).
Proof.
  rewrite buildDrugSections_closed.
  unfold notBlank.
  rewrite (filter_imap_sections drug (fun text => nonEmpty (trim text)))
    by (intros; split; reflexivity).
  unfold availableSections, keptMappings. rewrite sectionsToEnhance_table.
  generalize sectionMappings. intros mappings.
  induction mappings as [|[key title'] mappings IH]; [reflexivity|].
  cbn [map fst]. rewrite (filter_cons _ (key, title')), (filter_cons _ key). cbn [fst].
  unfold populated, hasText, truthy.
  destruct (prose (label drug) !! key) as [content|] eqn:Hc.
  2:{ rewrite !decide_False by exact id. exact IH. }
  destruct (nonEmpty content) eqn:Hn; cbn [andb].
  2:{ rewrite !decide_False by exact id. exact IH. }
  rewrite decide_True by exact I. rewrite filter_cons. cbn [fst]. rewrite Hc.
  cbn [default from_option id].
  destruct (nonEmpty (trim content)).
  - rewrite !decide_True by exact I. cbn [map]. f_equal. exact IH.
  - rewrite !decide_False by exact id. exact IH.
Qed.

(** ** The cost of a request *)

Lemma totalWait_app ds1 ds2 : totalWait (ds1 ++ ds2) = (totalWait ds1 + totalWait ds2)%Z.
Proof.
  unfold totalWait. induction ds1 as [|d ds1 IH]; cbn [app foldr]; [reflexivity|].
  rewrite IH. lia.
Qed.

Lemma backoffWaits_total ds : backoffWaits ds -> (0 <= totalWait ds <= 3000)%Z.
Proof.
  intros [->|[(d1 & -> & H1)|(d1 & d2 & -> & H1 & H2)]]; cbn; lia.
Qed.

Lemma ledger_emit ev w :
  match ev with EvSleep _ => False | _ => True end -> ledger (emit ev w) = ledger w.
Proof.
  intros Hev. unfold ledger. cbn. rewrite sleepsOf_app, totalWait_app.
  destruct ev; cbn; lia.
Qed.

Lemma ledger_sleep ms w : ledger (snd (sleep ms w)) = ledger w.
Proof. unfold ledger. cbn. rewrite sleepsOf_app, totalWait_app. cbn. lia. Qed.

Lemma retry_ledger {T} (operation : M T) drug :
  (forall w, ledger (snd (operation w)) = ledger w) ->
  forall w, ledger (snd (callOpenAIWithRetry operation drug 1 w)) = ledger w.
Proof.
  intros Hop w.
  apply (retry_inv operation drug (fun w' => ledger w' = ledger w)); [| |reflexivity].
  - intros w' ms H. now rewrite ledger_sleep.
  - intros w' H. now rewrite Hop.
Qed.

Lemma withinBudget_same n ms w w' :
  calls w' = calls w -> clock w' = clock w -> sleepsOf (log w') = sleepsOf (log w) ->
  (0 <= ms)%Z -> withinBudget n ms w w'.
Proof.
  intros Hc Hk Hs Hms. unfold withinBudget, ledger. rewrite Hc, Hk, Hs. lia.
Qed.

Lemma withinBudget_trans n1 ms1 n2 ms2 w1 w2 w3 :
  withinBudget n1 ms1 w1 w2 -> withinBudget n2 ms2 w2 w3 ->
  withinBudget (n1 + n2) (ms1 + ms2) w1 w3.
Proof. unfold withinBudget. intros (? & ? & ?) (? & ? & ?). repeat split; lia. Qed.

Lemma withinBudget_weaken n ms n' ms' w w' :
  withinBudget n ms w w' -> n <= n' -> (ms <= ms')%Z -> withinBudget n' ms' w w'.
Proof. unfold withinBudget. intros (? & ? & ?) ? ?. repeat split; lia. Qed.

Lemma withinBudget_of_bounded w w' :
  (exists ds, backoffWaits ds
              /\ sleepsOf (log w') = sleepsOf (log w) ++ ds
              /\ ((calls w' = calls w /\ ds = []) \/ calls w' = calls w + S (length ds))
              /\ calls w' <= calls w + 3) ->
  ledger w' = ledger w ->
  withinBudget 3 3000 w w'.
Proof.
  intros (ds & Hds & Hs & Hc & Hle) Hl. unfold withinBudget.
  pose proof (backoffWaits_total ds Hds) as Ht.
  unfold ledger in Hl. rewrite Hs, totalWait_app in Hl.
  split; [|split].
  - destruct Hc as [[Hc _]|Hc]; lia.
  - lia.
  - unfold ledger. rewrite Hs, totalWait_app. lia.
Qed.

Ltac still :=
  intros ?w; munfold; cbn;
  repeat (case_match; simplify_eq/=; munfold; cbn);
  unfold ledger; cbn; rewrite ?sleepsOf_app, ?totalWait_app; cbn; lia.

Section Cost.

Variable JSON_parse_seo : string -> option SeoMetadata.
Variable JSON_parse_sections : string -> option (gmap string string).
Variable openai : option OpenAI.

Lemma generateSEOMetadata_ledger drug w :
  ledger (snd (generateSEOMetadata JSON_parse_seo openai drug w)) = ledger w.
Proof.
  unfold generateSEOMetadata. destruct openai as [client|]; [|reflexivity].
  rewrite bind_cacheService_get.
  destruct (freshValue _ w ≫= asSeo); [now apply ledger_emit|].
  rewrite retry_ledger; [now apply ledger_emit|]. still.
Qed.

Lemma generateDrugSummary_ledger drug w :
  ledger (snd (generateDrugSummary openai drug w)) = ledger w.
Proof.
  unfold generateDrugSummary. destruct openai as [client|]; [|reflexivity].
  rewrite bind_cacheService_get.
  destruct (freshValue _ w ≫= asText); [now apply ledger_emit|].
  rewrite retry_ledger; [now apply ledger_emit|]. still.
Qed.

Lemma enhanceAllSections_ledger drug w :
  ledger (snd (enhanceAllSections JSON_parse_sections openai drug w)) = ledger w.
Proof.
  unfold enhanceAllSections. destruct openai as [client|]; [|reflexivity].
  rewrite bind_cacheService_get.
  destruct (freshValue _ w ≫= asSectionMap); [now apply ledger_emit|].
  destruct (length (availableSections drug) =? 0)%nat; [now apply ledger_emit|].
  rewrite retry_ledger; [now apply ledger_emit|]. still.
Qed.

Lemma generateSEOMetadata_budget drug w :
  withinBudget 3 3000 w (snd (generateSEOMetadata JSON_parse_seo openai drug w)).
Proof.
  apply withinBudget_of_bounded;
    [apply generateSEOMetadata_bounded|apply generateSEOMetadata_ledger].
Qed.

Lemma generateDrugSummary_budget drug w :
  withinBudget 3 3000 w (snd (generateDrugSummary openai drug w)).
Proof.
  apply withinBudget_of_bounded;
    [apply generateDrugSummary_bounded|apply generateDrugSummary_ledger].
Qed.

Lemma enhanceAllSections_budget drug w :
  withinBudget 3 3000 w (snd (enhanceAllSections JSON_parse_sections openai drug w)).
Proof.
  apply withinBudget_of_bounded;
    [apply enhanceAllSections_bounded|apply enhanceAllSections_ledger].
Qed.

End Cost.

Lemma withinBudget_then n ms w w1 w2 :
  withinBudget n ms w w1 ->
  calls w2 = calls w1 -> clock w2 = clock w1 -> sleepsOf (log w2) = sleepsOf (log w1) ->
  withinBudget n ms w w2.
Proof.
  unfold withinBudget, ledger. intros (? & ? & ?) -> -> ->. auto.
Qed.

Lemma withinBudget_after n ms w w0 w1 :
  calls w0 = calls w -> clock w0 = clock w -> sleepsOf (log w0) = sleepsOf (log w) ->
  withinBudget n ms w0 w1 ->
  withinBudget n ms w w1.
Proof.
  unfold withinBudget, ledger. intros -> -> -> (? & ? & ?). auto.
Qed.

Ltac same_sleeps := cbn; rewrite ?sleepsOf_app; cbn; rewrite ?app_nil_r; reflexivity.

Section OrchestratorCost.

Variable JSON_parse_seo : string -> option SeoMetadata.
Variable JSON_parse_sections : string -> option (gmap string string).
Variable openai : option OpenAI.

Lemma enhanceAllSectionsAtOnce_budget sections drug w :
  withinBudget 3 3000 w
    (snd (enhanceAllSectionsAtOnce JSON_parse_sections openai sections drug w)).
Proof.
  unfold enhanceAllSectionsAtOnce. rewrite bind_cacheService_get.
  destruct (freshValue _ w ≫= asSections).
  { apply withinBudget_same; [reflexivity|reflexivity|apply sleepsOf_emit_get|lia]. }
  set (w0 := emit _ w).
  apply (withinBudget_after _ _ w w0); [reflexivity|reflexivity|apply sleepsOf_emit_get|].
  pose proof (enhanceAllSections_budget JSON_parse_sections openai drug w0) as B.
  unfold tryCatch.
  destruct (enhanceAllSections JSON_parse_sections openai drug w0) as [[m|e] w1] eqn:E;
    cbn [snd] in B.
  - erewrite bind_return by exact E. munfold. cbn [snd].
    eapply withinBudget_then; [exact B|reflexivity|reflexivity|same_sleeps].
  - erewrite bind_throw by exact E. exact B.
Qed.

Lemma getEnhancedContent_budget drug w :
  withinBudget 9 9000 w
    (snd (getEnhancedContent JSON_parse_seo JSON_parse_sections openai drug w)).
Proof.
  unfold getEnhancedContent. rewrite bind_cacheService_get.
  destruct (freshValue _ w ≫= asContent).
  { apply withinBudget_same; [reflexivity|reflexivity|apply sleepsOf_emit_get|lia]. }
  set (w0 := emit _ w).
  apply (withinBudget_after _ _ w w0); [reflexivity|reflexivity|apply sleepsOf_emit_get|].
  unfold tryCatch, generateEnhancedContent.
  pose proof (generateSEOMetadata_budget JSON_parse_seo openai drug w0) as B1.
  destruct (generateSEOMetadata JSON_parse_seo openai drug w0) as [[seo|e1] w1] eqn:E1;
    cbn [snd] in B1.
  2:{ erewrite bind_throw by exact E1. cbn.
      eapply withinBudget_weaken; [exact B1|lia|lia]. }
  erewrite bind_return by exact E1.
  pose proof (generateDrugSummary_budget openai drug w1) as B2.
  destruct (generateDrugSummary openai drug w1) as [[summary|e2] w2] eqn:E2;
    cbn [snd] in B2.
  2:{ erewrite bind_throw by exact E2. cbn.
      eapply withinBudget_weaken; [exact (withinBudget_trans _ _ _ _ _ _ _ B1 B2)|lia|lia]. }
  erewrite bind_return by exact E2.
  pose proof (enhanceAllSectionsAtOnce_budget (buildDrugSections drug) drug w2) as B3.
  destruct (enhanceAllSectionsAtOnce_returns JSON_parse_sections openai
              (buildDrugSections drug) drug w2) as (res & w3 & E3).
  rewrite E3 in B3. cbn [snd] in B3.
  erewrite bind_return by exact E3. munfold. cbn [snd].
  pose proof (withinBudget_trans _ _ _ _ _ _ _ (withinBudget_trans _ _ _ _ _ _ _ B1 B2) B3)
    as B.
  eapply withinBudget_then; [exact B|reflexivity|reflexivity|same_sleeps].
Qed.

End OrchestratorCost.

(** X6.  A request for enhanced content always returns and is bounded: it
    never throws, it makes at most nine provider calls (three operations of
    at most three attempts each), and the backoff waits add at most nine
    seconds (1000 ms + 2000 ms per operation); the clock moves by the waits
    only. *)
Theorem getEnhancedContent_returns_within_budget
    (JSON_parse_seo : string -> option SeoMetadata)
    (JSON_parse_sections : string -> option (gmap string string))
    (openai : option OpenAI) (drug : DrugLabel) (w : World) :
  exists content w',
    getEnhancedContent JSON_parse_seo JSON_parse_sections openai drug w
      = (Return content, w')
    /\ calls w <= calls w' <= calls w + 9
    /\ (clock w <= clock w' <= clock w + 9000)%Z
    /\ (clock w' - clock w)%Z
       = (totalWait (sleepsOf (log w')) - totalWait (sleepsOf (log w)))%Z.
Proof.
  destruct (getEnhancedContent_returns JSON_parse_seo JSON_parse_sections openai drug w)
    as (content & w' & E).
  pose proof (getEnhancedContent_budget JSON_parse_seo JSON_parse_sections openai drug w)
    as (Hc & Hk & Hl).
  rewrite E in Hc, Hk, Hl. cbn [snd] in *.
  exists content, w'. split; [exact E|]. split; [exact Hc|]. split; [exact Hk|].
  unfold ledger in Hl. lia.
Qed.

(** ** What a request for enhanced content returns *)

Lemma withEnhancedContent_empty drug :
  map (withEnhancedContent ∅) (buildDrugSections drug) = buildDrugSections drug.
Proof.
  rewrite withEnhancedContent_closed, buildDrugSections_closed.
  apply imap_ext. intros i mapping _. unfold sectionOf. now rewrite lookup_empty.
Qed.

Lemma key_seo_all_sections a b : "enhanced_all_sections:" +:+ b <> "seo_metadata:" +:+ a.
Proof. cbn. discriminate. Qed.

Lemma key_summary_all_sections a b : "enhanced_all_sections:" +:+ b <> "drug_summary:" +:+ a.
Proof. cbn. discriminate. Qed.

Lemma key_summary_content a b : "enhanced_content:" +:+ b <> "drug_summary:" +:+ a.
Proof. cbn. discriminate. Qed.

Lemma freshValue_miss key w : cache w !! key = None -> freshValue key w = None.
Proof. unfold freshValue. now intros ->. Qed.

(** An entry that reads as absent stays so while the clock does not go
    back. *)
Lemma freshValue_stays_stale {A} key (unwrap : CacheValue -> option A) w w' :
  cache w' !! key = cache w !! key -> (clock w <= clock w')%Z ->
  freshValue key w ≫= unwrap = None -> freshValue key w' ≫= unwrap = None.
Proof.
  unfold freshValue. intros -> Hk.
  destruct (cache w !! key) as [entry|]; [|auto].
  destruct (clock w <? entry_expires entry)%Z eqn:E1;
    destruct (clock w' <? entry_expires entry)%Z eqn:E2; auto.
  apply Z.ltb_ge in E1. apply Z.ltb_lt in E2. lia.
Qed.

Section Content.

Variable JSON_parse_seo : string -> option SeoMetadata.
Variable JSON_parse_sections : string -> option (gmap string string).
Variable openai : option OpenAI.

Lemma generateDrugSummary_return drug w v w' :
  generateDrugSummary openai drug w = (Return v, w') ->
  forall k, k <> "drug_summary:" +:+ setId drug -> cache w' !! k = cache w !! k.
Proof.
  intros H k Hk. destruct openai as [client|] eqn:Ho.
  - destruct (cacheAside_return _ _ _ _ _ _ _ _ (generateDrugSummary_cacheAside _ _) H)
      as [->| ->]; [reflexivity|]. rewrite lookup_insert_ne; auto.
  - cbn in H. injection H as _ <-. reflexivity.
Qed.

(** On a miss the orchestrator returns the sections it was given, enhanced
    by some map: the reply of the batch call, or nothing. *)
Lemma enhanceAllSectionsAtOnce_miss drug w :
  freshValue ("enhanced_all_sections:" +:+ setId drug) w ≫= asSections = None ->
  exists enhancedData w',
    enhanceAllSectionsAtOnce JSON_parse_sections openai (buildDrugSections drug) drug w
    = (Return (map (withEnhancedContent enhancedData) (buildDrugSections drug)), w').
Proof.
  intros Hmiss. unfold enhanceAllSectionsAtOnce.
  rewrite bind_cacheService_get, Hmiss. unfold tryCatch.
  destruct (enhanceAllSections JSON_parse_sections openai drug
              (emit (EvCacheGet ("enhanced_all_sections:" +:+ setId drug)) w))
    as [[m|e] w1] eqn:E.
  - erewrite bind_return by exact E. cbn. eauto.
  - erewrite bind_throw by exact E. cbn. exists ∅. rewrite withEnhancedContent_empty. eauto.
Qed.

End Content.

(** X7.  When neither the content nor the section list of a record is in
    the cache, the content returned for it is built from the record itself,
    whatever the provider answers: id, names and slug are the record's, and
    the sections are the record's sections, each with the enhancement of
    some map (the empty one when the batch or an earlier call failed). *)
Theorem getEnhancedContent_built_from_record
    (JSON_parse_seo : string -> option SeoMetadata)
    (JSON_parse_sections : string -> option (gmap string string))
    (openai : option OpenAI) (drug : DrugLabel) (w : World) :
  cache w !! ("enhanced_content:" +:+ setId drug) = None ->
  cache w !! ("enhanced_all_sections:" +:+ setId drug) = None ->
  exists content w' enhancedData,
    getEnhancedContent JSON_parse_seo JSON_parse_sections openai drug w
      = (Return content, w')
    /\ ec_id content = setId drug
    /\ ec_drugName content = drugName drug
    /\ ec_genericName content = genericName (label drug)
    /\ ec_slug content = createSlug (drugName drug)
    /\ ec_sections content
       = map (withEnhancedContent enhancedData) (buildDrugSections drug).
Proof.
  intros Hc Ha. unfold getEnhancedContent.
  rewrite bind_cacheService_get, (freshValue_miss _ _ Hc). cbn [mbind option_bind].
  set (w0 := emit _ w). unfold tryCatch, generateEnhancedContent.
  destruct (generateSEOMetadata JSON_parse_seo openai drug w0) as [[seo|e1] w1] eqn:E1.
  2:{ erewrite bind_throw by exact E1. cbn.
      exists (fallbackContent drug (clock w1)), w1, ∅.
      rewrite withEnhancedContent_empty. auto 10. }
  erewrite bind_return by exact E1.
  destruct (generateDrugSummary openai drug w1) as [[summary|e2] w2] eqn:E2.
  2:{ erewrite bind_throw by exact E2. cbn.
      exists (fallbackContent drug (clock w2)), w2, ∅.
      rewrite withEnhancedContent_empty. auto 10. }
  erewrite bind_return by exact E2.
  assert (cache w2 !! ("enhanced_all_sections:" +:+ setId drug) = None) as Ha2.
  { rewrite (generateDrugSummary_return _ _ _ _ _ E2) by apply key_summary_all_sections.
    rewrite (generateSEOMetadata_return _ _ _ _ _ _ E1) by apply key_seo_all_sections.
    exact Ha. }
  destruct (enhanceAllSectionsAtOnce_miss JSON_parse_sections openai drug w2)
    as (m & w3 & E3).
  { now rewrite (freshValue_miss _ _ Ha2). }
  erewrite bind_return by exact E3. cbn.
  eexists _, _, m. split; [reflexivity|]. cbn. auto 10.
Qed.

Lemma getEnhancedContent_built_from_record_witness :
  cache startWorld !! ("enhanced_content:" +:+ setId aspirin) = None
  /\ cache startWorld !! ("enhanced_all_sections:" +:+ setId aspirin) = None
  /\ exists content w' enhancedData,
       getEnhancedContent exampleParseSeo exampleParseSections (Some enhancesOne)
         aspirin startWorld = (Return content, w')
       /\ ec_id content = setId aspirin
       /\ ec_drugName content = drugName aspirin
       /\ ec_genericName content = genericName (label aspirin)
       /\ ec_slug content = createSlug (drugName aspirin)
       /\ ec_sections content
          = map (withEnhancedContent enhancedData) (buildDrugSections aspirin).
Proof.
  split; [reflexivity|]. split; [reflexivity|].
  apply (getEnhancedContent_built_from_record exampleParseSeo exampleParseSections
           (Some enhancesOne) aspirin startWorld); reflexivity.
Defined.

Section Repeat.

Variable JSON_parse_seo : string -> option SeoMetadata.
Variable JSON_parse_sections : string -> option (gmap string string).
Variable openai : option OpenAI.

Lemma getEnhancedContent_hit drug w content :
  freshValue ("enhanced_content:" +:+ setId drug) w ≫= asContent = Some content ->
  getEnhancedContent JSON_parse_seo JSON_parse_sections openai drug w
  = (Return content, emit (EvCacheGet ("enhanced_content:" +:+ setId drug)) w).
Proof.
  intros Hhit. unfold getEnhancedContent. rewrite bind_cacheService_get, Hhit. reflexivity.
Qed.

Lemma getEnhancedContent_cached_or_fallback drug w content w' :
  getEnhancedContent JSON_parse_seo JSON_parse_sections openai drug w
    = (Return content, w') ->
  freshValue ("enhanced_content:" +:+ setId drug) w' ≫= asContent = Some content
  \/ (content = fallbackContent drug (clock w')
      /\ freshValue ("enhanced_content:" +:+ setId drug) w' ≫= asContent = None).
Proof.
  unfold getEnhancedContent. rewrite bind_cacheService_get.
  destruct (freshValue _ w ≫= asContent) as [hit|] eqn:Hhit.
  { intros H. injection H as <- <-. left. exact Hhit. }
  set (key := "enhanced_content:" +:+ setId drug) in *.
  set (w0 := emit _ w). unfold tryCatch, generateEnhancedContent.
  assert (freshValue key w0 ≫= asContent = None) as Hmiss0 by exact Hhit.
  pose proof (generateSEOMetadata_budget JSON_parse_seo openai drug w0) as B1.
  destruct (generateSEOMetadata JSON_parse_seo openai drug w0) as [[seo|e1] w1] eqn:E1;
    cbn [snd] in B1.
  2:{ erewrite bind_throw by exact E1. cbn. intros H. injection H as <- <-.
      right. split; [reflexivity|].
      apply (freshValue_stays_stale key asContent w0 w1); [|apply B1|exact Hmiss0].
      now rewrite (generateSEOMetadata_throw _ _ _ _ _ _ E1). }
  erewrite bind_return by exact E1.
  pose proof (generateDrugSummary_budget openai drug w1) as B2.
  destruct (generateDrugSummary openai drug w1) as [[summary|e2] w2] eqn:E2;
    cbn [snd] in B2.
  2:{ erewrite bind_throw by exact E2. cbn. intros H. injection H as <- <-.
      right. split; [reflexivity|].
      apply (freshValue_stays_stale key asContent w0 w2); [| |exact Hmiss0].
      - rewrite (generateDrugSummary_throw _ _ _ _ _ E2).
        apply (generateSEOMetadata_return _ _ _ _ _ _ E1).
        intros H. symmetry in H. revert H. apply key_seo_content.
      - destruct B1 as (_ & ? & _), B2 as (_ & ? & _). lia. }
  erewrite bind_return by exact E2.
  destruct (enhanceAllSectionsAtOnce_returns JSON_parse_sections openai
              (buildDrugSections drug) drug w2) as (res & w3 & E3).
  erewrite bind_return by exact E3. cbn.
  intros H. injection H as <- <-. left.
  unfold freshValue. cbn. rewrite lookup_insert.
  destruct (decide _) as [_|Hne]; [|contradiction]. cbn.
  assert ((clock w3 <? clock w3 + 3600 * 1000)%Z = true) as -> by (apply Z.ltb_lt; lia).
  reflexivity.
Qed.

End Repeat.

(** X8.  Requests repeat: after any request for the enhanced content of a
    record, either the content returned is in the cache, and the next
    request returns the same content from there without touching the
    provider, or the content returned was the fallback object, which is not
    in the cache, so that the next request tries the provider again. *)
Theorem getEnhancedContent_repeatable
    (JSON_parse_seo : string -> option SeoMetadata)
    (JSON_parse_sections : string -> option (gmap string string))
    (openai : option OpenAI) (drug : DrugLabel) (w : World)
    (content : EnhancedDrugContent) (w' : World) :
  getEnhancedContent JSON_parse_seo JSON_parse_sections openai drug w
    = (Return content, w') ->
  getEnhancedContent JSON_parse_seo JSON_parse_sections openai drug w'
    = (Return content, emit (EvCacheGet ("enhanced_content:" +:+ setId drug)) w')
  \/ (content = fallbackContent drug (clock w')
      /\ freshValue ("enhanced_content:" +:+ setId drug) w' ≫= asContent = None).
Proof.
  intros H.
  destruct (getEnhancedContent_cached_or_fallback _ _ _ _ _ _ _ H) as [Hhit|Hfb].
  - left. now apply getEnhancedContent_hit.
  - right. exact Hfb.
Qed.

Lemma getEnhancedContent_repeatable_witness :
  getEnhancedContent exampleParseSeo exampleParseSections (Some enhancesOne)
    aspirin startWorld = enhancedRun
  /\ match enhancedRun with
     | (Return content, w') =>
         getEnhancedContent exampleParseSeo exampleParseSections (Some enhancesOne)
           aspirin w'
         = (Return content, emit (EvCacheGet "enhanced_content:123") w')
         \/ (content = fallbackContent aspirin (clock w')
             /\ freshValue "enhanced_content:123" w' ≫= asContent = None)
     | (Throw _, _) => False
     end.
Proof.
  split; [vm_compute; reflexivity|].
  cbv beta iota delta [enhancedRun].
  apply (getEnhancedContent_repeatable exampleParseSeo exampleParseSections
           (Some enhancesOne) aspirin startWorld).
  vm_compute. reflexivity.
Defined.

(** X9.  Without an API key there is no provider to call: on a miss of the
    content and of the section list, the content is made of the Gateway's
    templates and the unenhanced sections of the record, both objects are
    stored in the cache for an hour, and the clock and the number of
    provider calls stay as they were. *)
Theorem getEnhancedContent_without_api_key
    (JSON_parse_seo : string -> option SeoMetadata)
    (JSON_parse_sections : string -> option (gmap string string))
    (drug : DrugLabel) (w : World) :
  let key := "enhanced_content:" +:+ setId drug in
  let sectionsKey := "enhanced_all_sections:" +:+ setId drug in
  let content :=
    {| ec_id := setId drug;
       ec_drugName := drugName drug;
       ec_genericName := genericName (label drug);
       ec_slug := createSlug (drugName drug);
       ec_seoTitle := seo_title (getFallbackSEOMetadata drug);
       ec_metaDescription := seo_description (getFallbackSEOMetadata drug);
       ec_enhancedSummary := getFallbackSummary drug;
       ec_sections := buildDrugSections drug;
       ec_lastUpdated := clock w |} in
  freshValue key w ≫= asContent = None ->
  freshValue sectionsKey w ≫= asSections = None ->
  getEnhancedContent JSON_parse_seo JSON_parse_sections None drug w
  = (Return content,
     {| cache :=
          <[ key := {| entry_value := CachedContent content;
                       entry_expires := (clock w + 3600 * 1000)%Z |} ]>
            (<[ sectionsKey := {| entry_value := CachedSections (buildDrugSections drug);
                                  entry_expires := (clock w + 3600 * 1000)%Z |} ]>
               (cache w));
        clock := clock w;
        calls := calls w;
        log := log w ++ [EvCacheGet key; EvCacheGet sectionsKey;
                         EvCacheSet sectionsKey 3600; EvCacheSet key 3600] |}).
Proof.
  intros key sectionsKey content Hc Ha. unfold getEnhancedContent.
  rewrite bind_cacheService_get. fold key. rewrite Hc.
  unfold tryCatch, generateEnhancedContent.
  erewrite bind_return by reflexivity.
  erewrite bind_return by reflexivity.
  erewrite bind_return.
  2:{ unfold enhanceAllSectionsAtOnce. rewrite bind_cacheService_get. fold sectionsKey.
      change (freshValue sectionsKey (emit (EvCacheGet key) w))
        with (freshValue sectionsKey w).
      rewrite Ha. unfold tryCatch. erewrite bind_return by reflexivity.
      rewrite withEnhancedContent_empty. reflexivity. }
  munfold. cbn -[Z.add Z.mul String.append insert].
  subst content.
  assert (forall (l : list Event) a b c d,
            (((l ++ [a]) ++ [b]) ++ [c]) ++ [d] = l ++ [a; b; c; d]) as ->
    by (intros; rewrite <- app_assoc, <- app_assoc, <- app_assoc; reflexivity).
  reflexivity.
Qed.

Lemma getEnhancedContent_without_api_key_witness :
  freshValue "enhanced_content:123" startWorld ≫= asContent = None
  /\ freshValue "enhanced_all_sections:123" startWorld ≫= asSections = None
  /\ exists content w',
       getEnhancedContent exampleParseSeo exampleParseSections None aspirin startWorld
         = (Return content, w')
       /\ ec_seoTitle content = "Aspirin (acetylsalicylic-acid) - Prescription Info"
       /\ ec_sections content = buildDrugSections aspirin
       /\ calls w' = 0
       /\ is_Some (cache w' !! "enhanced_content:123").
Proof.
  split; [reflexivity|]. split; [reflexivity|].
  eexists _, _. split.
  - apply (getEnhancedContent_without_api_key exampleParseSeo exampleParseSections
             aspirin startWorld); reflexivity.
  - split; [reflexivity|]. split; [reflexivity|]. split; [reflexivity|].
    cbn. rewrite lookup_insert. destruct (decide _); [eauto|contradiction].
Defined.

Lemma generateDrugSummary_nonEmpty openai drug w :
  match fst (generateDrugSummary openai drug w) with
  | Return summary => nonEmpty summary = true
  | Throw _ => True
  end.
Proof.
  unfold generateDrugSummary. destruct openai as [client|].
  2:{ cbn. unfold getFallbackSummary.
      apply nonEmpty_append_r, nonEmpty_append_l. reflexivity. }
  rewrite bind_cacheService_get.
  destruct (freshValue _ w ≫= asText) as [hit|] eqn:Hhit.
  { cbn. destruct (freshValue _ w) as [[]|]; try discriminate. cbn in Hhit.
    destruct (nonEmpty s) eqn:Hs; [|discriminate]. now injection Hhit as <-. }
  set (w0 := emit _ w).
  pose proof (retry_rel
                (content ← create client;
                 let response := trim <$> content in
                 let summary := default (getFallbackSummary drug) (orUndefined response) in
                 _ ← cacheService_set ("drug_summary:" +:+ setId drug)
                       (CachedText summary) 86400;
                 mret summary)
                drug (fun _ _ => True) (fun v _ _ => nonEmpty v = true)) as H.
  specialize (H (fun _ _ _ _ _ => I) (fun _ _ => I) (fun _ _ _ _ _ Hv => Hv)).
  cbn zeta in H.
  match type of H with
  | ?P -> _ => assert P as HP
  end.
  { intros w1. munfold. destruct (client (calls w1)) as [e|reply]; [exact I|].
    cbn. unfold orUndefined, truthy.
    destruct reply as [text|]; cbn.
    - destruct (nonEmpty (trim text)) eqn:Ht; [exact Ht|].
      unfold getFallbackSummary. apply nonEmpty_append_r, nonEmpty_append_l. reflexivity.
    - unfold getFallbackSummary. apply nonEmpty_append_r, nonEmpty_append_l. reflexivity. }
  specialize (H HP w0).
  destruct (callOpenAIWithRetry _ drug 1 w0) as [[v|e] w1]; [exact H|exact I].
Qed.

(** X10.  The summary is never empty: whether it comes from the cache,
    from the provider or from the template, a summary that
    [generateDrugSummary] returns is a non-empty text (an empty or blank
    reply of the provider is replaced by the template, and an empty cached
    text counts as a miss). *)
Theorem generateDrugSummary_never_empty
    (openai : option OpenAI) (drug : DrugLabel) (w : World) :
  match generateDrugSummary openai drug w with
  | (Return summary, _) => nonEmpty summary = true
  | (Throw _, _) => True
  end.
Proof.
  pose proof (generateDrugSummary_nonEmpty openai drug w) as H.
  destruct (generateDrugSummary openai drug w) as [[summary|e] w']; exact H.
Qed.

(** ** The deprecated single-section call and its cache key *)

Lemma toInt32_range z : (- 2147483648 <= toInt32 z < 2147483648)%Z.
Proof.
  unfold toInt32.
  pose proof (Z.mod_pos_bound (z + 2147483648) 4294967296 ltac:(lia)). lia.
Qed.

Lemma toInt32_wraps z : exists k, toInt32 z = (z + k * 4294967296)%Z.
Proof.
  unfold toInt32. exists (- ((z + 2147483648) / 4294967296))%Z.
  pose proof (Z.div_mod (z + 2147483648) 4294967296 ltac:(lia)). lia.
Qed.

Lemma toInt32_shift z k : toInt32 (z + k * 4294967296) = toInt32 z.
Proof.
  unfold toInt32. f_equal.
  replace (z + k * 4294967296 + 2147483648)%Z with (z + 2147483648 + k * 4294967296)%Z
    by lia.
  apply Z_mod_plus_full.
Qed.

Lemma hashStep_polynomial hash c :
  hashStep (toInt32 hash) c = toInt32 (31 * hash + Z.of_nat (nat_of_ascii c)).
Proof.
  unfold hashStep. rewrite Z.shiftl_mul_pow2 by lia.
  destruct (toInt32_wraps hash) as [k ->].
  destruct (toInt32_wraps ((hash + k * 4294967296) * 2 ^ 5)) as [j ->].
  replace ((hash + k * 4294967296) * 2 ^ 5 + j * 4294967296 - (hash + k * 4294967296)
           + Z.of_nat (nat_of_ascii c))%Z
    with (31 * hash + Z.of_nat (nat_of_ascii c) + (31 * k + j) * 4294967296)%Z by lia.
  apply toInt32_shift.
Qed.

Lemma hashLoop_polynomial content : forall hash,
  hashLoop content (toInt32 hash) = toInt32 (polynomialHash content hash).
Proof.
  induction content as [|c r IH]; intros hash; cbn [hashLoop polynomialHash];
    [reflexivity|].
  rewrite hashStep_polynomial. apply IH.
Qed.

Lemma hexValue_hexDigit d : (0 <= d < 16)%Z -> hexValue (hexDigit d) = d.
Proof.
  intros H.
  assert (d = 0 \/ d = 1 \/ d = 2 \/ d = 3 \/ d = 4 \/ d = 5 \/ d = 6 \/ d = 7 \/ d = 8
          \/ d = 9 \/ d = 10 \/ d = 11 \/ d = 12 \/ d = 13 \/ d = 14 \/ d = 15)%Z
    as Hd by lia.
  repeat (destruct Hd as [->|Hd]; [reflexivity|]). now subst.
Qed.

Lemma is_hex_digit_hexDigit d : (0 <= d < 16)%Z -> is_hex_digit (hexDigit d) = true.
Proof.
  intros H.
  assert (d = 0 \/ d = 1 \/ d = 2 \/ d = 3 \/ d = 4 \/ d = 5 \/ d = 6 \/ d = 7 \/ d = 8
          \/ d = 9 \/ d = 10 \/ d = 11 \/ d = 12 \/ d = 13 \/ d = 14 \/ d = 15)%Z
    as Hd by lia.
  repeat (destruct Hd as [->|Hd]; [reflexivity|]). now subst.
Qed.

(** With enough fuel [toHex] writes the whole numeral in front of [acc]:
    read back, it gives the number; it is made of hexadecimal digits and is
    as long as the fuel at most. *)
Lemma toHex_spec fuel : forall z acc,
  (0 <= z < 16 ^ Z.of_nat fuel)%Z -> (0 < fuel)%nat ->
  exists digits,
    toHex fuel z acc = digits +:+ acc
    /\ (forall a, readHex (digits +:+ acc) a
                  = readHex acc (a * 16 ^ Z.of_nat (String.length digits) + z)%Z)
    /\ allChars is_hex_digit digits = true
    /\ (1 <= String.length digits <= fuel)%nat.
Proof.
  induction fuel as [|fuel IH]; intros z acc Hz Hfuel; [lia|].
  cbn [toHex].
  assert (0 <= z mod 16 < 16)%Z as Hd by (apply Z.mod_pos_bound; lia).
  pose proof (Z.div_mod z 16 ltac:(lia)) as Hz16.
  destruct (z / 16 =? 0)%Z eqn:E.
  - apply Z.eqb_eq in E.
    exists (String (hexDigit (z mod 16)) EmptyString). split; [reflexivity|].
    split; [|split].
    + intros a.
      change (readHex acc (16 * a + hexValue (hexDigit (z mod 16)))
              = readHex acc (a * 16 ^ 1 + z)).
      rewrite hexValue_hexDigit by exact Hd. f_equal. lia.
    + cbn. now rewrite is_hex_digit_hexDigit.
    + cbn. lia.
  - apply Z.eqb_neq in E.
    assert (0 < fuel)%nat as Hfuel'.
    { destruct fuel; [|lia]. cbn in Hz. lia. }
    destruct (IH (z / 16)%Z (String (hexDigit (z mod 16)) acc)) as (digits & -> & Hr & Hc & Hl).
    { split; [apply Z.div_pos; lia|].
      apply Z.div_lt_upper_bound; [lia|].
      replace (Z.of_nat (S fuel)) with (Z.of_nat fuel + 1)%Z in Hz by lia.
      rewrite Z.pow_add_r in Hz by lia. lia. }
    { exact Hfuel'. }
    exists (digits +:+ String (hexDigit (z mod 16)) EmptyString).
    pose proof string_append_assoc as Hassoc.
    pose proof string_append_length as Hlen.
    split; [|split; [|split]].
    + rewrite Hassoc. reflexivity.
    + intros a. rewrite Hassoc.
      change (String (hexDigit (z mod 16)) "" +:+ acc)
        with (String (hexDigit (z mod 16)) acc).
      rewrite Hr. cbn [readHex]. rewrite hexValue_hexDigit by exact Hd. f_equal.
      rewrite Hlen. cbn [String.length].
      replace (Z.of_nat (String.length digits + 1)) with (Z.of_nat (String.length digits) + 1)%Z
        by lia.
      rewrite Z.pow_add_r by lia. lia.
    + rewrite allChars_append, Hc. cbn. now rewrite is_hex_digit_hexDigit.
    + rewrite Hlen. cbn. lia.
Qed.

Lemma toHex_more fuel : forall z acc spare,
  (0 <= z < 16 ^ Z.of_nat fuel)%Z -> (0 < fuel)%nat ->
  toHex (fuel + spare) z acc = toHex fuel z acc.
Proof.
  induction fuel as [|fuel IH]; intros z acc spare Hz Hfuel; [lia|].
  cbn [toHex Nat.add].
  destruct (z / 16 =? 0)%Z eqn:E; [reflexivity|]. apply Z.eqb_neq in E.
  replace (Z.of_nat (S fuel)) with (Z.of_nat fuel + 1)%Z in Hz by lia.
  rewrite Z.pow_add_r in Hz by lia.
  destruct fuel as [|fuel].
  { exfalso. apply E. apply Z.div_small. cbn in Hz. lia. }
  apply IH; [|lia].
  split; [apply Z.div_pos; lia|]. apply Z.div_lt_upper_bound; lia.
Qed.

(** X11.  The key of the single-section cache: the 32-bit loop of
    [hashContent] computes the polynomial hash [31 * hash + char] modulo
    2^32, and the key text is the hexadecimal numeral of its magnitude: one
    to eight digits [0-9a-f] that read back as that number. *)
Theorem hashContent_is_hex_of_polynomial_hash (content : string) :
  hashLoop content 0 = toInt32 (polynomialHash content 0)
  /\ readHex (hashContent content) 0 = Z.abs (hashLoop content 0)
  /\ allChars is_hex_digit (hashContent content) = true
  /\ (1 <= String.length (hashContent content) <= 8)%nat.
Proof.
  assert (hashLoop content 0 = toInt32 (polynomialHash content 0)) as Hpoly
    by apply (hashLoop_polynomial content 0).
  split; [exact Hpoly|].
  pose proof (toInt32_range (polynomialHash content 0)) as Hrange.
  rewrite <- Hpoly in Hrange. unfold hashContent.
  set (z := Z.abs (hashLoop content 0)).
  assert (0 <= z <= 2147483648)%Z as Hz by (unfold z; lia).
  change (toHex 9 z "") with (toHex (8 + 1) z "").
  rewrite (toHex_more 8 z "" 1) by lia.
  destruct (toHex_spec 8 z "" ltac:(lia) ltac:(lia)) as (digits & -> & Hr & Hc & Hl).
  pose proof (string_append_empty digits) as Hnil.
  rewrite Hnil in *. split; [|split; [exact Hc|exact Hl]].
  specialize (Hr 0%Z). rewrite Hr. cbn [readHex]. lia.
Qed.

(** ** Errors in the Tool Protocol Adapter *)

Lemma handleRequest_tools_call (drugService : DrugServiceApi)
    (id : option IdValue) (toolCall : McpToolCall) (w : World) :
  handleRequest drugService
    {| req_method := "tools/call"; req_params := Some toolCall; req_id := id |} w
  = match executeTool drugService (Some toolCall) w with
    | (Return result, w') => (Return (toolResponse id result), w')
    | (Throw error, w') => (Return (toolResponse id (toolError error)), w')
    end.
Proof.
  unfold handleRequest, callTool, tryCatch. cbn [req_method req_params req_id].
  change (String.eqb "tools/call" "tools/list") with false.
  change (String.eqb "tools/call" "tools/call") with true. cbn iota.
  destruct (executeTool drugService (Some toolCall) w) as [[result|error] w'] eqn:E.
  - erewrite bind_return by exact E. reflexivity.
  - erewrite bind_throw by exact E. reflexivity.
Qed.

(** X13.  A [tools/call] request that carries [params] is always answered
    with a result and never with a protocol error, whatever the injected
    service does: what the tool returns is passed on, and an error thrown by
    the tool or by the service becomes a result with [isError: true] and the
    text [Error executing tool: <message>]; the state is the one the tool
    left. *)
Theorem callTool_contains_tool_errors (drugService : DrugServiceApi)
    (id : option IdValue) (toolCall : McpToolCall) (w : World) :
  handleRequest drugService
    {| req_method := "tools/call"; req_params := Some toolCall; req_id := id |} w
  = match executeTool drugService (Some toolCall) w with
    | (Return result, w') => (Return (toolResponse id result), w')
    | (Throw error, w') => (Return (toolResponse id (toolError error)), w')
    end.
Proof. apply handleRequest_tools_call. Qed.

(** X14.  The controller answers error -32603 in one case only, for every
    injected service: a [tools/call] request without [params], whose data
    is the message of the [TypeError] and whose id is the request's id with
    falsy ids turned to [null].  Every other request gets the response of
    [handleRequest], which does not throw. *)
Theorem handleMcpRequest_internal_error_only_without_params
    (drugService : DrugServiceApi) (request : McpRequest) (w : World) :
  if String.eqb (req_method request) "tools/call"
     && negb (bool_decide (is_Some (req_params request)))
  then handleMcpRequest drugService request w
       = (Return {| resp_id := idOrNull_falsy (req_id request);
                    resp_result := None;
                    resp_error :=
                      Some {| error_code := -32603;
                              error_message := "Internal error";
                              error_data :=
                                Some "Cannot read properties of undefined (reading 'name')" |} |},
          w)
  else exists response w',
         handleRequest drugService request w = (Return response, w')
         /\ handleMcpRequest drugService request w = (Return response, w')
         /\ (forall error, resp_error response = Some error -> error_code error = (-32601)%Z).
Proof.
  destruct request as [method params id]. cbn [req_method req_params req_id].
  unfold handleMcpRequest, tryCatch, handleRequest. cbn [req_method req_params req_id].
  destruct (String.eqb method "tools/list") eqn:E1.
  { apply String.eqb_eq in E1 as ->. cbn. eexists _, _. split; [reflexivity|].
    split; [reflexivity|]. discriminate. }
  destruct (String.eqb method "tools/call") eqn:E2.
  { destruct params as [toolCall|]; cbn [andb negb bool_decide].
    - rewrite bool_decide_true by eauto. cbn [negb].
      unfold callTool, tryCatch.
      destruct (executeTool drugService (Some toolCall) w) as [[result|error] w'] eqn:E.
      + erewrite bind_return by exact E. cbn. eexists _, _. split; [reflexivity|].
        split; [reflexivity|]. discriminate.
      + erewrite bind_throw by exact E. cbn. eexists _, _. split; [reflexivity|].
        split; [reflexivity|]. discriminate.
    - rewrite bool_decide_false by (intros [? ?]; discriminate). reflexivity. }
  cbn [andb].
  destruct (String.eqb method "initialize") eqn:E3.
  { cbn. eexists _, _. split; [reflexivity|]. split; [reflexivity|]. discriminate. }
  cbn. eexists _, _. split; [reflexivity|]. split; [reflexivity|].
  intros error H. injection H as <-. reflexivity.
Qed.

Section RealService.

Variable JSON_parse_seo : string -> option SeoMetadata.
Variable JSON_parse_sections : string -> option (gmap string string).
Variable openai : option OpenAI.
Variable drugs : list DrugLabel.

Local Abbreviation drugService :=
  (service JSON_parse_seo JSON_parse_sections openai drugs).


End RealService.


(** ** Search and pagination *)

Lemma filter_andb {A} (f g : A -> bool) (l : list A) :
  filter (fun x => g x) (filter (fun x => f x) l) = filter (fun x => f x && g x) l.
Proof.
  induction l as [|x l IH]; [reflexivity|].
  rewrite !filter_cons. destruct (f x) eqn:Hf; cbn [andb].
  - rewrite decide_True by exact I. rewrite filter_cons.
    destruct (g x); [rewrite !decide_True by exact I|rewrite !decide_False by exact id];
      now rewrite IH.
  - rewrite !decide_False by exact id. exact IH.
Qed.

Lemma filter_all {A} (l : list A) : filter (fun _ => true) l = l.
Proof.
  induction l as [|x l IH]; [reflexivity|].
  rewrite filter_cons, decide_True by exact I. now rewrite IH.
Qed.

Lemma filter_ext_bool {A} (f g : A -> bool) (l : list A) :
  (forall x, f x = g x) -> filter (fun x => f x) l = filter (fun x => g x) l.
Proof.
  intros H. induction l as [|x l IH]; [reflexivity|].
  rewrite !filter_cons, H, IH. reflexivity.
Qed.

(** The two filters of [searchDrugs] keep the matching records. *)
Lemma searchDrugs_filters drugs searchDto :
  (let filteredDrugs :=
     if truthy (arg_query searchDto)
     then filter (fun drug =>
                    matchesQuery (toLowerCase (default "" (arg_query searchDto))) drug)
                 drugs
     else drugs in
   if truthy (arg_labeler searchDto)
   then filter (fun drug =>
                  includes (toLowerCase (labeler drug))
                           (toLowerCase (default "" (arg_labeler searchDto))))
               filteredDrugs
   else filteredDrugs)
  = matchingDrugs drugs searchDto.
Proof.
  unfold matchingDrugs. cbn zeta.
  destruct (truthy (arg_query searchDto)), (truthy (arg_labeler searchDto)).
  - apply filter_andb.
  - apply filter_ext_bool. intros x. now rewrite andb_true_r.
  - reflexivity.
  - symmetry. apply filter_all.
Qed.

(** [slice] on a window that starts at or after 0. *)
Lemma slice_window {A} (l : list A) (start size : Z) :
  (0 <= start)%Z -> (0 <= size)%Z ->
  slice l start (start + size) = take (Z.to_nat size) (drop (Z.to_nat start) l).
Proof.
  intros Hs Hn. unfold slice.
  assert ((start <? 0)%Z = false) as -> by (apply Z.ltb_ge; lia).
  assert ((start + size <? 0)%Z = false) as -> by (apply Z.ltb_ge; lia).
  destruct (Z_le_gt_dec start (Z.of_nat (length l))) as [Hle|Hgt].
  - rewrite (Z.min_l start) by lia.
    destruct (Z_le_gt_dec (start + size) (Z.of_nat (length l))) as [Hle2|Hgt2].
    + rewrite Z.min_l by lia. f_equal. lia.
    + rewrite Z.min_r by lia.
      rewrite !take_ge; [reflexivity| |]; rewrite length_drop; lia.
  - rewrite !Z.min_r by lia. rewrite Z.sub_diag. cbn [Z.to_nat take].
    rewrite (drop_ge l (Z.to_nat start)) by lia. now rewrite take_nil.
Qed.

Lemma ceilDiv_spec a b :
  (0 < b)%Z -> ((ceilDiv a b - 1) * b < a <= ceilDiv a b * b)%Z.
Proof.
  intros Hb. unfold ceilDiv.
  pose proof (Z.div_mod (- a) b ltac:(lia)) as Hd.
  pose proof (Z.mod_pos_bound (- a) b Hb) as Hm. nia.
Qed.

Lemma searchDrugs_window drugs searchDto page limit :
  (1 <= page)%Z -> (1 <= limit)%Z ->
  let matching := matchingDrugs drugs searchDto in
  let total := Z.of_nat (length matching) in
  DrugService.searchDrugs drugs (onPage searchDto page limit)
  = JObj [("drugs",
            JArr (map searchItem
                    (take (Z.to_nat limit)
                          (drop (Z.to_nat ((page - 1) * limit)) matching))));
          ("pagination",
            JObj [("page", JNum page);
                  ("limit", JNum limit);
                  ("total", JNum total);
                  ("totalPages", JNum (ceilDiv total limit));
                  ("hasNext", JBool (page * limit <? total)%Z);
                  ("hasPrev", JBool (1 <? page)%Z)])].
Proof.
  intros Hp Hl. cbn zeta. unfold DrugService.searchDrugs.
  change (arg_query (onPage searchDto page limit)) with (arg_query searchDto).
  change (arg_labeler (onPage searchDto page limit)) with (arg_labeler searchDto).
  rewrite searchDrugs_filters. cbn [arg_page arg_limit onPage numberOr].
  assert ((page =? 0)%Z = false) as -> by (apply Z.eqb_neq; lia).
  assert ((limit =? 0)%Z = false) as -> by (apply Z.eqb_neq; lia).
  rewrite slice_window by nia.
  replace ((page - 1) * limit + limit)%Z with (page * limit)%Z by lia.
  reflexivity.
Qed.

(** X16.  A page of the search, for a page number and a page size of at
    least 1 (what the validation of the HTTP query lets through): the items
    are the links of the matching records from position [(page - 1) * limit]
    on, [limit] of them at most; [total] counts all matching records;
    [totalPages] is the least number of pages that holds them; [hasNext]
    tells whether records are left after this page and [hasPrev] whether
    the page is not the first. *)
Theorem searchDrugs_page_window (drugs : list DrugLabel) (searchDto : ToolArguments)
    (page limit : Z) :
  (1 <= page)%Z -> (1 <= limit)%Z ->
  let matching := matchingDrugs drugs searchDto in
  let total := Z.of_nat (length matching) in
  exists totalPages,
    DrugService.searchDrugs drugs (onPage searchDto page limit)
    = JObj [("drugs",
              JArr (map searchItem
                      (take (Z.to_nat limit)
                            (drop (Z.to_nat ((page - 1) * limit)) matching))));
            ("pagination",
              JObj [("page", JNum page);
                    ("limit", JNum limit);
                    ("total", JNum total);
                    ("totalPages", JNum totalPages);
                    ("hasNext", JBool (page * limit <? total)%Z);
                    ("hasPrev", JBool (1 <? page)%Z)])]
    /\ ((totalPages - 1) * limit < total <= totalPages * limit)%Z
    /\ length (itemsOf "drugs" (DrugService.searchDrugs drugs (onPage searchDto page limit)))
       <= Z.to_nat limit.
Proof.
  intros Hp Hl matching total. exists (ceilDiv total limit).
  rewrite (searchDrugs_window drugs searchDto page limit Hp Hl). fold matching total.
  split; [reflexivity|]. split; [apply ceilDiv_spec; lia|].
  cbn. rewrite length_map, length_take. lia.
Qed.

Lemma searchDrugs_page_window_witness :
  (1 <= 2)%Z /\ (1 <= 1)%Z
  /\ exists totalPages,
       DrugService.searchDrugs [aspirin; aspirin; aspirin] (onPage (nameOnly "x") 2 1)
       = JObj [("drugs", JArr [searchItem aspirin]);
               ("pagination",
                 JObj [("page", JNum 2); ("limit", JNum 1); ("total", JNum 3);
                       ("totalPages", JNum totalPages);
                       ("hasNext", JBool true); ("hasPrev", JBool true)])]
       /\ totalPages = 3%Z.
Proof.
  split; [lia|]. split; [lia|].
  destruct (searchDrugs_page_window [aspirin; aspirin; aspirin] (nameOnly "x") 2 1
              ltac:(lia) ltac:(lia)) as (totalPages & Heq & Hpages & _).
  exists totalPages. split; [exact Heq|].
  assert (Z.of_nat (length (matchingDrugs [aspirin; aspirin; aspirin] (nameOnly "x"))) = 3%Z)
    as E by (vm_compute; reflexivity).
  cbn zeta in Hpages. rewrite E in Hpages. lia.
Defined.

Lemma concat_chunks {A} (n : nat) : forall (k : nat) (l : list A),
  length l <= k * n ->
  concat (map (fun p => take n (drop (p * n) l)) (seq 0 k)) = l.
Proof.
  induction k as [|k IH]; intros l Hlen.
  - destruct l; [reflexivity|cbn in Hlen; lia].
  - cbn [seq map concat]. rewrite <- seq_shift, map_map.
    cbn [Nat.mul drop].
    transitivity (take n l ++ drop n l); [|apply take_drop]. f_equal.
    etransitivity; [|apply (IH (drop n l)); rewrite length_drop; lia].
    f_equal. apply map_ext. intros p. rewrite drop_drop.
    replace (n + p * n) with (p * n + n) by lia. reflexivity.
Qed.

(** X17.  The pages of a search partition its result: for a page size of
    at least 1, the items of the pages 1 to [totalPages], one after the
    other, are the links of all matching records, each once and in the
    order of the records. *)
Theorem searchDrugs_pages_partition (drugs : list DrugLabel) (searchDto : ToolArguments)
    (limit : Z) :
  (1 <= limit)%Z ->
  let matching := matchingDrugs drugs searchDto in
  let totalPages := ceilDiv (Z.of_nat (length matching)) limit in
  concat (map (fun page =>
                 itemsOf "drugs"
                   (DrugService.searchDrugs drugs (onPage searchDto (Z.of_nat page) limit)))
              (seq 1 (Z.to_nat totalPages)))
  = map searchItem matching.
Proof.
  intros Hl matching totalPages.
  pose proof (ceilDiv_spec (Z.of_nat (length matching)) limit ltac:(lia)) as Hpages.
  fold totalPages in Hpages.
  rewrite <- seq_shift, map_map.
  erewrite map_ext.
  2:{ intros p.
      rewrite (searchDrugs_window drugs searchDto (Z.of_nat (S p)) limit) by lia.
      fold matching. unfold itemsOf, fieldOf. cbn [find fst snd String.eqb Ascii.eqb
        Bool.eqb fmap option_fmap option_map].
      replace (Z.to_nat ((Z.of_nat (S p) - 1) * limit)) with (p * Z.to_nat limit) by nia.
      reflexivity. }
  rewrite <- (map_map (fun p => take (Z.to_nat limit) (drop (p * Z.to_nat limit) matching))
                      (map searchItem)).
  rewrite <- concat_map. f_equal. apply concat_chunks. nia.
Qed.

Lemma searchDrugs_pages_partition_witness :
  (1 <= 2)%Z
  /\ concat (map (fun page =>
                    itemsOf "drugs"
                      (DrugService.searchDrugs [aspirin; aspirin; aspirin]
                         (onPage (nameOnly "x") (Z.of_nat page) 2)))
                 (seq 1 2))
     = [searchItem aspirin; searchItem aspirin; searchItem aspirin].
Proof.
  split; [lia|].
  exact (searchDrugs_pages_partition [aspirin; aspirin; aspirin] (nameOnly "x") 2
           ltac:(lia)).
Defined.

(** ** The sitemap *)

Lemma formatDate_eight toISODate now s :
  String.length s = 8 ->
  let lastmod := formatDate toISODate now s in
  String.length lastmod = 10
  /\ String.substring 4 1 lastmod = "-" /\ String.substring 7 1 lastmod = "-"
  /\ String.substring 0 4 lastmod +:+ String.substring 5 2 lastmod
     +:+ String.substring 8 2 lastmod = s.
Proof.
  intros H.
  do 8 (destruct s as [|? s]; [discriminate|]). destruct s; [|discriminate].
  cbn. auto.
Qed.

Lemma sitemapEntry_fields toISODate now drug :
  fieldOf "url" (sitemapEntry toISODate now drug) = fieldOf "url" (searchItem drug)
  /\ fieldOf "lastmod" (sitemapEntry toISODate now drug)
     = Some (JStr (if (String.length (effectiveTime (label drug)) =? 8)%nat
                   then formatDate toISODate now (effectiveTime (label drug))
                   else toISODate now)).
Proof.
  split; [reflexivity|].
  unfold sitemapEntry, fieldOf.
  cbn [find fst snd String.eqb Ascii.eqb Bool.eqb fmap option_fmap option_map].
  do 2 f_equal. unfold formatDate.
  destruct (effectiveTime (label drug)) as [|c s]; [reflexivity|].
  cbn [nonEmpty String.eqb negb].
  destruct (String.length (String c s) =? 8)%nat; reflexivity.
Qed.

(** X18.  The sitemap has one entry per loaded record, in the order of the
    records, and its links are the links the search hands out for the same
    records.  The date of an entry comes from the record when its
    [effectiveTime] has exactly eight characters, which are kept in order
    with a hyphen after the fourth and after the sixth; for any other
    [effectiveTime] the date is the day of the request.  Building the sitemap
    changes nothing. *)
Theorem generateSitemap_lists_search_links (toISODate : Z -> string)
    (drugs : list DrugLabel) (w : World) :
  exists entries,
    generateSitemap toISODate drugs w
    = (Return (JObj [("urls", JArr entries);
                     ("totalUrls", JNum (Z.of_nat (length drugs)))]), w)
    /\ map (fieldOf "url") entries = map (fun drug => fieldOf "url" (searchItem drug)) drugs
    /\ Forall2
         (fun drug entry =>
            exists lastmod,
              fieldOf "lastmod" entry = Some (JStr lastmod)
              /\ if (String.length (effectiveTime (label drug)) =? 8)%nat
                 then String.length lastmod = 10
                      /\ String.substring 4 1 lastmod = "-"
                      /\ String.substring 7 1 lastmod = "-"
                      /\ String.substring 0 4 lastmod +:+ String.substring 5 2 lastmod
                         +:+ String.substring 8 2 lastmod = effectiveTime (label drug)
                 else lastmod = toISODate (clock w))
         drugs entries.
Proof.
  exists (map (sitemapEntry toISODate (clock w)) drugs). split; [|split].
  - unfold generateSitemap. munfold. now rewrite length_map.
  - rewrite map_map. apply map_ext. intros drug. apply sitemapEntry_fields.
  - change (map ?f ?l) with (f <$> l). apply Forall2_fmap_r, Forall_Forall2_diag.
    apply Forall_forall. intros drug _. unfold compose. cbn beta.
    destruct (sitemapEntry_fields toISODate (clock w) drug) as [_ ->].
    eexists. split; [reflexivity|].
    destruct (String.length (effectiveTime (label drug)) =? 8)%nat eqn:E; [|reflexivity].
    apply Nat.eqb_eq in E. apply (formatDate_eight toISODate (clock w) _ E).
Qed.

(** ** The HTTP endpoints *)

Lemma substring_all s : String.substring 0 (String.length s) s = s.
Proof. induction s as [|c s IH]; cbn; [reflexivity|]. now rewrite IH. Qed.

Lemma substring_0_0 s : String.substring 0 0 s = "".
Proof. destruct s; reflexivity. Qed.

Lemma splitIdentifier_none s : splitIdentifier s = None <-> noHyphen s = true.
Proof.
  unfold splitIdentifier, noHyphen.
  induction s as [|c s IH]; cbn; [tauto|].
  destruct (Ascii.eqb c "-") eqn:E; cbn.
  - split; discriminate.
  - destruct (DrugController.indexOf "-" s); cbn in *; [|exact IH].
    split; [discriminate|]. intros H. apply IH in H. discriminate.
Qed.

(** Cutting and joining again gives the identifier back. *)
Lemma splitIdentifier_some s p q :
  splitIdentifier s = Some (p, q) -> s = p +:+ "-" +:+ q /\ noHyphen p = true.
Proof.
  unfold splitIdentifier, noHyphen. revert p q.
  induction s as [|c s IH]; intros p q; cbn [DrugController.indexOf]; [discriminate|].
  destruct (Ascii.eqb c "-") eqn:E.
  - apply Ascii.eqb_eq in E as ->. intros H. injection H as <- <-.
    unfold DrugController.substringFrom. cbn.
    replace (String.length s - 0) with (String.length s) by lia.
    rewrite substring_all. auto.
  - destruct (DrugController.indexOf "-" s) as [i|] eqn:Hi; cbn [fmap option_fmap option_map];
      [|discriminate].
    intros H. injection H as <- <-.
    destruct (IH _ _ eq_refl) as [Hs Hp].
    unfold DrugController.substringFrom in *. cbn [String.substring String.length Nat.add Nat.sub].
    split.
    + rewrite string_append_cons. f_equal. exact Hs.
    + cbn [allChars]. rewrite E. cbn. exact Hp.
Qed.

Lemma splitIdentifier_app p q :
  noHyphen p = true -> splitIdentifier (p +:+ "-" +:+ q) = Some (p, q).
Proof.
  unfold splitIdentifier, noHyphen. induction p as [|c p IH]; intros Hp.
  - change ("" +:+ "-" +:+ q) with (String "-" q).
    unfold DrugController.substringFrom. cbn.
    replace (String.length q - 0) with (String.length q) by lia.
    now rewrite substring_all.
  - cbn [allChars] in Hp. apply andb_true_iff in Hp as [Hc Hp].
    apply negb_true_iff in Hc. specialize (IH Hp).
    rewrite string_append_cons. cbn [DrugController.indexOf]. rewrite Hc.
    destruct (DrugController.indexOf "-" (p +:+ "-" +:+ q)) as [i|]; [|discriminate].
    cbn [fmap option_fmap option_map]. injection IH as IH1 IH2.
    unfold DrugController.substringFrom in *.
    cbn [String.substring String.length Nat.add Nat.sub]. now rewrite IH1, IH2.
Qed.

(** Closes a branch of an outcome lemma, by cases on the test of the
    [catch] branch where an error of the service was caught. *)
Ltac caught_cases :=
  try reflexivity;
  unfold caught;
  match goal with
  | |- context [if ?test ?error then _ else _] => destruct (test error); reflexivity
  end.

Section AnyService.

Variable drugService : DrugServiceApi.
Variable ds_getBasicContent : DrugLabel -> M BasicContent.
Variable instanceofNotFoundException : JsError -> bool.

(** The first two statements of the [try] block. *)
Lemma findDrug_outcome drugName' genericName' w :
  DrugController.findDrug drugService drugName' genericName' w
  = match ds_getDrugByNames drugService (Some drugName') (Some genericName') w with
    | (Return (Some drug), w') => (DrugController.Fulfilled drug, w')
    | (Return None, w') =>
        (DrugController.Failed (DrugController.Http (drugNotFound drugName' genericName')),
         w')
    | (Throw error, w') =>
        (DrugController.Failed (DrugController.ServiceError error), w')
    end.
Proof.
  unfold DrugController.findDrug, DrugController.await, mbind, DrugController.Try_bind.
  destruct (ds_getDrugByNames drugService (Some drugName') (Some genericName') w)
    as [[[drug|]|error] w']; reflexivity.
Qed.

Lemma getDrugPage_outcome drugIdentifier w :
  DrugController.getDrugPage drugService instanceofNotFoundException drugIdentifier w
  = match splitIdentifier drugIdentifier with
    | None => (DrugController.Raise (invalidIdentifier drugIdentifier), w)
    | Some (drugName', genericName') =>
        match ds_getDrugByNames drugService (Some drugName') (Some genericName') w with
        | (Throw error, w1) =>
            (DrugController.Raise
               (caught instanceofNotFoundException
                  "Failed to load drug information" error), w1)
        | (Return None, w1) =>
            (DrugController.Raise (drugNotFound drugName' genericName'), w1)
        | (Return (Some drug), w1) =>
            match ds_getEnhancedContent drugService drug w1 with
            | (Throw error, w2) =>
                (DrugController.Raise
                   (caught instanceofNotFoundException
                      "Failed to load drug information" error), w2)
            | (Return enhancedContent, w2) =>
                (DrugController.Ok
                   {| DrugController.page_title := ec_seoTitle enhancedContent;
                      DrugController.page_metaDescription :=
                        ec_metaDescription enhancedContent;
                      DrugController.page_drug := enhancedContent;
                      DrugController.page_canonicalUrl := "/drugs/" +:+ drugIdentifier |},
                 w2)
            end
        end
    end.
Proof.
  unfold DrugController.getDrugPage.
  destruct (splitIdentifier drugIdentifier) as [[drugName' genericName']|] eqn:Hsplit.
  - destruct (splitIdentifier_some _ _ _ Hsplit) as [Hid _].
    unfold splitIdentifier in Hsplit.
    destruct (DrugController.indexOf "-" drugIdentifier) as [i|]; [|discriminate].
    injection Hsplit as Hd Hg. rewrite Hd, Hg. cbn zeta.
    unfold DrugController.rethrowNotFoundOr, mbind, DrugController.Try_bind.
    rewrite findDrug_outcome.
    destruct (ds_getDrugByNames drugService (Some drugName') (Some genericName') w)
      as [[[drug|]|error] w1]; [|reflexivity|caught_cases].
    unfold DrugController.await.
    destruct (ds_getEnhancedContent drugService drug w1) as [[content|error] w2];
      [|caught_cases].
    cbn. rewrite Hid. reflexivity.
  - unfold splitIdentifier in Hsplit.
    destruct (DrugController.indexOf "-" drugIdentifier) as [i|]; [discriminate|].
    reflexivity.
Qed.

Lemma getDrugBasicApi_outcome drugIdentifier w :
  DrugController.getDrugBasicApi drugService ds_getBasicContent
    instanceofNotFoundException drugIdentifier w
  = match splitIdentifier drugIdentifier with
    | None => (DrugController.Raise (invalidIdentifier drugIdentifier), w)
    | Some (drugName', genericName') =>
        match ds_getDrugByNames drugService (Some drugName') (Some genericName') w with
        | (Throw error, w1) =>
            (DrugController.Raise
               (caught instanceofNotFoundException
                  "Failed to load drug information" error), w1)
        | (Return None, w1) =>
            (DrugController.Raise (drugNotFound drugName' genericName'), w1)
        | (Return (Some drug), w1) =>
            match ds_getBasicContent drug w1 with
            | (Throw error, w2) =>
                (DrugController.Raise
                   (caught instanceofNotFoundException
                      "Failed to load drug information" error), w2)
            | (Return basicContent, w2) => (DrugController.Ok basicContent, w2)
            end
        end
    end.
Proof.
  unfold DrugController.getDrugBasicApi, splitIdentifier.
  destruct (DrugController.indexOf "-" drugIdentifier) as [i|]; [|reflexivity].
  cbn zeta. unfold DrugController.rethrowNotFoundOr, mbind, DrugController.Try_bind.
  rewrite findDrug_outcome.
  destruct (ds_getDrugByNames drugService _ _ w) as [[[drug|]|error] w1];
    [|reflexivity|caught_cases].
  unfold DrugController.await.
  destruct (ds_getBasicContent drug w1) as [[content|error] w2]; caught_cases.
Qed.

Lemma getDrugEnhancedApi_outcome drugIdentifier w :
  DrugController.getDrugEnhancedApi drugService ds_getBasicContent
    instanceofNotFoundException drugIdentifier w
  = match splitIdentifier drugIdentifier with
    | None => (DrugController.Raise (invalidIdentifier drugIdentifier), w)
    | Some (drugName', genericName') =>
        match ds_getDrugByNames drugService (Some drugName') (Some genericName') w with
        | (Throw error, w1) =>
            (DrugController.Raise
               (caught instanceofNotFoundException
                  "Failed to load enhanced drug information" error), w1)
        | (Return None, w1) =>
            (DrugController.Raise (drugNotFound drugName' genericName'), w1)
        | (Return (Some drug), w1) =>
            match ds_getBasicContent drug w1 with
            | (Throw error, w2) =>
                (DrugController.Raise
                   (caught instanceofNotFoundException
                      "Failed to load enhanced drug information" error), w2)
            | (Return _, w2) =>
                match ds_getEnhancedContent drugService drug w2 with
                | (Throw error, w3) =>
                    (DrugController.Raise
                       (caught instanceofNotFoundException
                          "Failed to load enhanced drug information" error), w3)
                | (Return enhancedData, w3) =>
                    (DrugController.Ok
                       {| DrugController.view_seoTitle := ec_seoTitle enhancedData;
                          DrugController.view_metaDescription :=
                            ec_metaDescription enhancedData;
                          DrugController.view_enhancedSummary :=
                            ec_enhancedSummary enhancedData;
                          DrugController.view_sections := ec_sections enhancedData |},
                     w3)
                end
            end
        end
    end.
Proof.
  unfold DrugController.getDrugEnhancedApi, splitIdentifier.
  destruct (DrugController.indexOf "-" drugIdentifier) as [i|]; [|reflexivity].
  cbn zeta. unfold DrugController.rethrowNotFoundOr, mbind, DrugController.Try_bind.
  rewrite findDrug_outcome.
  destruct (ds_getDrugByNames drugService _ _ w) as [[[drug|]|error] w1];
    [|reflexivity|caught_cases].
  unfold DrugController.await.
  destruct (ds_getBasicContent drug w1) as [[basic|error] w2]; [|caught_cases].
  destruct (ds_getEnhancedContent drugService drug w2) as [[content|error] w3];
    caught_cases.
Qed.

End AnyService.

(** X19.  An identifier without a hyphen is refused by the four endpoints
    that take one, before any call of the service: each raises the 404
    exception [Invalid drug identifier format: <identifier>] and leaves the
    state as it is. *)
Theorem endpoints_reject_identifier_without_hyphen
    (drugService : DrugServiceApi) (ds_getBasicContent : DrugLabel -> M BasicContent)
    (instanceofNotFoundException : JsError -> bool)
    (drugIdentifier : string) (w : World) :
  noHyphen drugIdentifier = true ->
  DrugController.getDrugPage drugService instanceofNotFoundException drugIdentifier w
  = (DrugController.Raise (invalidIdentifier drugIdentifier), w)
  /\ DrugController.getDrugBasicApi drugService ds_getBasicContent
       instanceofNotFoundException drugIdentifier w
     = (DrugController.Raise (invalidIdentifier drugIdentifier), w)
  /\ DrugController.getDrugApi drugService ds_getBasicContent
       instanceofNotFoundException drugIdentifier w
     = (DrugController.Raise (invalidIdentifier drugIdentifier), w)
  /\ DrugController.getDrugEnhancedApi drugService ds_getBasicContent
       instanceofNotFoundException drugIdentifier w
     = (DrugController.Raise (invalidIdentifier drugIdentifier), w).
Proof.
  intros H. apply splitIdentifier_none in H.
  rewrite getDrugPage_outcome, getDrugEnhancedApi_outcome.
  change (DrugController.getDrugApi drugService ds_getBasicContent
            instanceofNotFoundException drugIdentifier w)
    with (DrugController.getDrugBasicApi drugService ds_getBasicContent
            instanceofNotFoundException drugIdentifier w).
  rewrite getDrugBasicApi_outcome, H. auto.
Qed.

Lemma endpoints_reject_identifier_without_hyphen_witness :
  noHyphen "aspirin" = true
  /\ DrugController.getDrugPage
       (service exampleParseSeo exampleParseSections None [aspirin]) (fun _ => false)
       "aspirin" startWorld
     = (DrugController.Raise
          (DrugController.NotFoundException "Invalid drug identifier format: aspirin"),
        startWorld).
Proof.
  split; [reflexivity|].
  exact (proj1 (endpoints_reject_identifier_without_hyphen
                  (service exampleParseSeo exampleParseSections None [aspirin])
                  getBasicContent (fun _ => false) "aspirin" startWorld eq_refl)).
Defined.

(** X20.  The drug page, for every injected service.  The identifier is
    cut at its first hyphen and the two parts are looked up.  A lookup that
    finds nothing raises the 404 exception [Drug not found: <name>/<generic>].
    An error thrown by the lookup or by [getEnhancedContent] is thrown again
    as it is when it is a [NotFoundException], and otherwise raises the 500
    exception; a 500 always carries the fixed message
    [Failed to load drug information], so that no detail of such an error
    reaches the client.  A page carries the content that [getEnhancedContent]
    returned, its title and description, and a canonical URL that repeats
    the identifier as it was requested. *)
Theorem getDrugPage_outcomes (drugService : DrugServiceApi)
    (instanceofNotFoundException : JsError -> bool)
    (drugIdentifier : string) (w : World) :
  let endpoint :=
    DrugController.getDrugPage drugService instanceofNotFoundException drugIdentifier w in
  let rethrown (error : JsError) :=
    if instanceofNotFoundException error
    then DrugController.NotFoundException (err_message error)
    else DrugController.InternalServerErrorException "Failed to load drug information" in
  match splitIdentifier drugIdentifier with
  | None => endpoint = (DrugController.Raise (invalidIdentifier drugIdentifier), w)
  | Some (drugName', genericName') =>
      drugIdentifier = drugName' +:+ "-" +:+ genericName'
      /\ noHyphen drugName' = true
      /\ match ds_getDrugByNames drugService (Some drugName') (Some genericName') w with
         | (Throw error, w1) => endpoint = (DrugController.Raise (rethrown error), w1)
         | (Return None, w1) =>
             endpoint = (DrugController.Raise (drugNotFound drugName' genericName'), w1)
         | (Return (Some drug), w1) =>
             match ds_getEnhancedContent drugService drug w1 with
             | (Throw error, w2) => endpoint = (DrugController.Raise (rethrown error), w2)
             | (Return enhancedContent, w2) =>
                 endpoint
                 = (DrugController.Ok
                      {| DrugController.page_title := ec_seoTitle enhancedContent;
                         DrugController.page_metaDescription :=
                           ec_metaDescription enhancedContent;
                         DrugController.page_drug := enhancedContent;
                         DrugController.page_canonicalUrl :=
                           "/drugs/" +:+ drugIdentifier |},
                    w2)
             end
         end
  end
  /\ (forall message w',
        endpoint
        = (DrugController.Raise (DrugController.InternalServerErrorException message), w') ->
        message = "Failed to load drug information")
  /\ (forall page w',
        endpoint = (DrugController.Ok page, w') ->
        DrugController.page_canonicalUrl page = "/drugs/" +:+ drugIdentifier
        /\ DrugController.page_title page = ec_seoTitle (DrugController.page_drug page)
        /\ DrugController.page_metaDescription page
           = ec_metaDescription (DrugController.page_drug page)).
Proof.
  cbn zeta. rewrite getDrugPage_outcome.
  destruct (splitIdentifier drugIdentifier) as [[drugName' genericName']|] eqn:Hsplit.
  - destruct (splitIdentifier_some _ _ _ Hsplit) as [Hid Hname].
    destruct (ds_getDrugByNames drugService (Some drugName') (Some genericName') w)
      as [[[drug|]|error] w1].
    + destruct (ds_getEnhancedContent drugService drug w1) as [[content|error] w2].
      * split; [auto|]. split; [discriminate|].
        intros page w' H. injection H as <- _. auto.
      * split; [auto|]. unfold caught.
        destruct (instanceofNotFoundException error); split; try discriminate.
        intros message w' H. injection H as <- _. reflexivity.
    + split; [auto|]. split; discriminate.
    + split; [auto|]. unfold caught.
      destruct (instanceofNotFoundException error); split; try discriminate.
      intros message w' H. injection H as <- _. reflexivity.
  - split; [reflexivity|]. split; discriminate.
Qed.

Lemma getDrugPage_outcomes_witness :
  exists page w',
    DrugController.getDrugPage
      (service exampleParseSeo exampleParseSections None [aspirin]) (fun _ => false)
      "aspirin-acetylsalicylic-acid" startWorld
    = (DrugController.Ok page, w')
    /\ DrugController.page_canonicalUrl page = "/drugs/aspirin-acetylsalicylic-acid"
    /\ DrugController.page_title page = "Aspirin (acetylsalicylic-acid) - Prescription Info".
Proof.
  eexists _, _. split; [vm_compute; reflexivity|].
  split.
  - refine (proj1 (proj2 (proj2 (getDrugPage_outcomes
                                   (service exampleParseSeo exampleParseSections None [aspirin])
                                   (fun _ => false) "aspirin-acetylsalicylic-acid"
                                   startWorld)) _ _ _)).
    vm_compute. reflexivity.
  - reflexivity.
Defined.

Section RealEndpoints.

Variable JSON_parse_seo : string -> option SeoMetadata.
Variable JSON_parse_sections : string -> option (gmap string string).
Variable openai : option OpenAI.
Variable drugs : list DrugLabel.
Variable instanceofNotFoundException : JsError -> bool.

Lemma getDrugBasicApi_real drugIdentifier w :
  DrugController.getDrugBasicApi
    (service JSON_parse_seo JSON_parse_sections openai drugs) getBasicContent
    instanceofNotFoundException drugIdentifier w
  = (match splitIdentifier drugIdentifier with
     | None => DrugController.Raise (invalidIdentifier drugIdentifier)
     | Some (drugName', genericName') =>
         match getDrugByNames drugs drugName' (Some genericName') with
         | None => DrugController.Raise (drugNotFound drugName' genericName')
         | Some drug => DrugController.Ok (basicContentOf drug (clock w))
         end
     end, w).
Proof.
  rewrite getDrugBasicApi_outcome.
  destruct (splitIdentifier drugIdentifier) as [[drugName' genericName']|]; [|reflexivity].
  cbn [ds_getDrugByNames service]. munfold.
  destruct (getDrugByNames drugs drugName' (Some genericName')); reflexivity.
Qed.

End RealEndpoints.

(** X21.  The enhanced endpoint on the real service never answers 500: for
    an identifier with a hyphen it raises 404 when the lookup finds nothing,
    and otherwise it returns the title, description, summary and sections of
    the enhanced content, which is always available whatever the provider
    does. *)
Theorem getDrugEnhancedApi_never_internal_error
    (JSON_parse_seo : string -> option SeoMetadata)
    (JSON_parse_sections : string -> option (gmap string string))
    (openai : option OpenAI) (drugs : list DrugLabel)
    (instanceofNotFoundException : JsError -> bool)
    (drugIdentifier : string) (w : World) :
  let endpoint :=
    DrugController.getDrugEnhancedApi
      (service JSON_parse_seo JSON_parse_sections openai drugs) getBasicContent
      instanceofNotFoundException drugIdentifier w in
  match splitIdentifier drugIdentifier with
  | None => endpoint = (DrugController.Raise (invalidIdentifier drugIdentifier), w)
  | Some (drugName', genericName') =>
      match getDrugByNames drugs drugName' (Some genericName') with
      | None => endpoint = (DrugController.Raise (drugNotFound drugName' genericName'), w)
      | Some drug =>
          exists enhancedData w',
            getEnhancedContent JSON_parse_seo JSON_parse_sections openai drug w
              = (Return enhancedData, w')
            /\ endpoint
               = (DrugController.Ok
                    {| DrugController.view_seoTitle := ec_seoTitle enhancedData;
                       DrugController.view_metaDescription :=
                         ec_metaDescription enhancedData;
                       DrugController.view_enhancedSummary :=
                         ec_enhancedSummary enhancedData;
                       DrugController.view_sections := ec_sections enhancedData |},
                  w')
      end
  end.
Proof.
  cbn zeta. rewrite getDrugEnhancedApi_outcome.
  destruct (splitIdentifier drugIdentifier) as [[drugName' genericName']|]; [|reflexivity].
  cbn [ds_getDrugByNames ds_getEnhancedContent service]. munfold.
  destruct (getDrugByNames drugs drugName' (Some genericName')) as [drug|]; [|reflexivity].
  destruct (getEnhancedContent_returns JSON_parse_seo JSON_parse_sections openai drug w)
    as (enhancedData & w' & E).
  exists enhancedData, w'. split; [exact E|].
  unfold getBasicContent. munfold. rewrite E. reflexivity.
Qed.

(** X22.  The two basic endpoints are the same function on the real
    service and touch nothing: they answer from the loaded records alone, with
    the unenhanced sections of the record found, and leave the cache, the
    clock, the provider and the log as they were. *)
Theorem basic_endpoints_touch_nothing
    (JSON_parse_seo : string -> option SeoMetadata)
    (JSON_parse_sections : string -> option (gmap string string))
    (openai : option OpenAI) (drugs : list DrugLabel)
    (instanceofNotFoundException : JsError -> bool)
    (drugIdentifier : string) (w : World) :
  let drugService := service JSON_parse_seo JSON_parse_sections openai drugs in
  DrugController.getDrugApi drugService getBasicContent
    instanceofNotFoundException drugIdentifier w
  = DrugController.getDrugBasicApi drugService getBasicContent
      instanceofNotFoundException drugIdentifier w
  /\ DrugController.getDrugBasicApi drugService getBasicContent
       instanceofNotFoundException drugIdentifier w
     = (match splitIdentifier drugIdentifier with
        | None => DrugController.Raise (invalidIdentifier drugIdentifier)
        | Some (drugName', genericName') =>
            match getDrugByNames drugs drugName' (Some genericName') with
            | None => DrugController.Raise (drugNotFound drugName' genericName')
            | Some drug =>
                DrugController.Ok
                  {| bc_id := setId drug;
                     bc_drugName := drugName drug;
                     bc_genericName := genericName (label drug);
                     bc_slug := createSlug (drugName drug);
                     bc_sections := buildDrugSections drug;
                     bc_lastUpdated := clock w |}
            end
        end, w).
Proof.
  cbn zeta. split; [reflexivity|]. apply getDrugBasicApi_real.
Qed.

(** ** Following the links of the search and the sitemap *)

Lemma word_is_word_or_hyphen s :
  allChars is_word s = true -> allChars is_word_or_hyphen s = true.
Proof.
  apply allChars_impl. intros c Hc. unfold is_word_or_hyphen. now rewrite Hc.
Qed.

Lemma word_char_no_hyphen c : is_word c = true -> Ascii.eqb c "-" = false.
Proof. ascii_cases c; cbv; intuition discriminate. Qed.

Lemma normalize_char_word c :
  is_word (if Ascii.eqb (lower_char c) "-" then " "%char else lower_char c) = is_word c.
Proof. ascii_cases c; reflexivity. Qed.

Lemma lower_char_word_or_hyphen c :
  is_word_or_hyphen (lower_char c) = is_word_or_hyphen c.
Proof. unfold is_word_or_hyphen. now rewrite lower_char_word, lower_char_hyphen. Qed.

Lemma slug_char_without_hyphen c :
  is_slug_char c = true -> Ascii.eqb c "-" = false -> is_word c = true.
Proof. ascii_cases c; cbv; intuition discriminate. Qed.

Lemma allChars_normalizeName s :
  allChars is_word (normalizeName s) = allChars is_word s.
Proof.
  unfold normalizeName. induction s as [|c s IH]; [reflexivity|].
  cbn [toLowerCase replaceHyphens allChars]. now rewrite normalize_char_word, IH.
Qed.

Lemma allChars_toLowerCase_word_or_hyphen s :
  allChars is_word_or_hyphen (toLowerCase s) = allChars is_word_or_hyphen s.
Proof.
  induction s as [|c s IH]; [reflexivity|].
  cbn [toLowerCase allChars]. now rewrite lower_char_word_or_hyphen, IH.
Qed.

Lemma noHyphen_word s : allChars is_word s = true -> noHyphen s = true.
Proof.
  apply allChars_impl. intros c Hc. now rewrite (word_char_no_hyphen c Hc).
Qed.

Lemma replaceHyphens_fixed s : noHyphen s = true -> replaceHyphens s = s.
Proof.
  unfold noHyphen. induction s as [|c s IH]; [reflexivity|]. cbn [allChars replaceHyphens].
  intros [Hc Hs]%andb_true_iff. apply negb_true_iff in Hc. now rewrite Hc, IH.
Qed.

Lemma allChars_word_toLowerCase s :
  allChars is_word (toLowerCase s) = allChars is_word s.
Proof.
  induction s as [|c s IH]; [reflexivity|].
  cbn [toLowerCase allChars]. now rewrite lower_char_word, IH.
Qed.

Lemma find_member {A} (f : A -> bool) (l : list A) (x : A) :
  x ∈ l -> f x = true -> exists y, find f l = Some y /\ f y = true /\ y ∈ l.
Proof.
  intros Hin Hx. induction l as [|a l IH]; [inversion Hin|].
  cbn [find]. destruct (f a) eqn:Ha.
  - exists a. split; [reflexivity|]. split; [exact Ha|]. constructor.
  - apply elem_of_cons in Hin as [->|Hin]; [congruence|].
    destruct (IH Hin) as (y & Hy & Hfy & Hyl). exists y. split; [exact Hy|].
    split; [exact Hfy|]. now constructor.
Qed.

Lemma find_holds {A} (f : A -> bool) (l : list A) (x : A) :
  find f l = Some x -> f x = true.
Proof.
  induction l as [|a l IH]; [discriminate|]. cbn [find].
  destruct (f a) eqn:Ha; [|exact IH]. intros H. injection H as <-. exact Ha.
Qed.

Lemma identifierOf_clean drug :
  allChars is_word (drugName drug) = true ->
  allChars is_word_or_hyphen (genericName (label drug)) = true ->
  splitIdentifier (identifierOf drug)
  = Some (toLowerCase (drugName drug), toLowerCase (genericName (label drug))).
Proof.
  intros Hb Hg. unfold identifierOf.
  rewrite (createSlug_word_or_hyphen (drugName drug)) by now apply word_is_word_or_hyphen.
  rewrite (createSlug_word_or_hyphen (genericName (label drug))) by exact Hg.
  apply splitIdentifier_app, noHyphen_word. now rewrite allChars_word_toLowerCase.
Qed.

(** X23.  Links resolve for plain names.  When the brand name of a loaded
    record consists of letters, digits and underscores, and its generic name
    of those and hyphens and is not empty, the identifier in the record's
    link is cut back into the two names in lower case, the lookup finds a
    record with these names (the first one, should several share them), and
    the basic endpoint answers with that record's content. *)
Theorem own_link_resolves
    (JSON_parse_seo : string -> option SeoMetadata)
    (JSON_parse_sections : string -> option (gmap string string))
    (openai : option OpenAI) (drugs : list DrugLabel)
    (instanceofNotFoundException : JsError -> bool) (drug : DrugLabel) (w : World) :
  drug ∈ drugs ->
  allChars is_word (drugName drug) = true ->
  allChars is_word_or_hyphen (genericName (label drug)) = true ->
  nonEmpty (genericName (label drug)) = true ->
  exists found,
    lookupIdentifier drugs (identifierOf drug) = Some found
    /\ matchesBothNames (drugName drug) (genericName (label drug)) found
    /\ DrugController.getDrugBasicApi
         (service JSON_parse_seo JSON_parse_sections openai drugs) getBasicContent
         instanceofNotFoundException (identifierOf drug) w
       = (DrugController.Ok (basicContentOf found (clock w)), w).
Proof.
  intros Hin Hb Hg Hne.
  pose proof (identifierOf_clean drug Hb Hg) as Hsplit.
  unfold lookupIdentifier. rewrite getDrugBasicApi_real, Hsplit.
  unfold getDrugByNames. cbn [truthy default from_option id].
  rewrite nonEmpty_toLowerCase, Hne, normalizeName_toLowerCase, toLowerCase_idem.
  destruct (find_member
              (fun d => String.eqb (normalizeName (drugName d)) (normalizeName (drugName drug))
                        && String.eqb (toLowerCase (genericName (label d)))
                                      (toLowerCase (genericName (label drug))))
              drugs drug Hin) as (found & Hfind & Hfound & _).
  { now rewrite !String.eqb_refl. }
  rewrite Hfind. exists found. split; [reflexivity|]. split; [|reflexivity].
  apply andb_true_iff in Hfound as [H1 H2].
  apply String.eqb_eq in H1, H2. split; assumption.
Qed.

Lemma own_link_resolves_witness :
  aspirin ∈ [aspirin]
  /\ allChars is_word (drugName aspirin) = true
  /\ allChars is_word_or_hyphen (genericName (label aspirin)) = true
  /\ nonEmpty (genericName (label aspirin)) = true
  /\ exists found,
       lookupIdentifier [aspirin] "aspirin-acetylsalicylic-acid" = Some found
       /\ matchesBothNames "Aspirin" "acetylsalicylic-acid" found
       /\ DrugController.getDrugBasicApi
            (service exampleParseSeo exampleParseSections None [aspirin]) getBasicContent
            (fun _ => false) "aspirin-acetylsalicylic-acid" startWorld
          = (DrugController.Ok (basicContentOf found 0), startWorld).
Proof.
  split; [constructor|]. split; [reflexivity|]. split; [reflexivity|].
  split; [reflexivity|].
  exact (own_link_resolves exampleParseSeo exampleParseSections None [aspirin]
           (fun _ => false) aspirin startWorld ltac:(constructor) eq_refl eq_refl eq_refl).
Defined.

Lemma splitIdentifier_cons c s :
  splitIdentifier (String c s)
  = if Ascii.eqb c "-" then Some ("", s)
    else (fun parts => (String c (fst parts), snd parts)) <$> splitIdentifier s.
Proof.
  unfold splitIdentifier. cbn [DrugController.indexOf].
  destruct (Ascii.eqb c "-").
  - unfold DrugController.substringFrom. cbn.
    replace (String.length s - 0) with (String.length s) by lia.
    now rewrite substring_all.
  - destruct (DrugController.indexOf "-" s) as [i|]; reflexivity.
Qed.

(** The second part of a cut identifier ends with whatever followed the
    last hyphen that was put in. *)
Lemma splitIdentifier_suffix a b :
  exists p r, splitIdentifier (a +:+ "-" +:+ b) = Some (p, r +:+ b).
Proof.
  induction a as [|c a IH].
  - exists "", "". change ("" +:+ "-" +:+ b) with (String "-" b).
    now rewrite splitIdentifier_cons.
  - rewrite string_append_cons, splitIdentifier_cons.
    destruct (Ascii.eqb c "-").
    + exists "", (a +:+ "-"). now rewrite string_append_assoc.
    + destruct IH as (p & r & ->). exists (String c p), r. reflexivity.
Qed.

Lemma allChars_slug_parts p q :
  allChars is_slug_char (p +:+ "-" +:+ q) = true -> noHyphen p = true ->
  allChars is_word p = true /\ allChars is_slug_char q = true.
Proof.
  rewrite !allChars_append. intros [Hp [_ Hq]%andb_true_iff]%andb_true_iff Hn.
  split; [|exact Hq]. unfold noHyphen in Hn.
  induction p as [|c p IH]; [reflexivity|]. cbn [allChars] in *.
  apply andb_true_iff in Hp as [Hc Hp]. apply andb_true_iff in Hn as [Hh Hn].
  apply negb_true_iff in Hh. rewrite (slug_char_without_hyphen c Hc Hh). cbn. auto.
Qed.

Lemma slug_not_upper s :
  allChars is_slug_char s = true -> allChars (fun c => negb (is_upper c)) s = true.
Proof.
  apply allChars_impl. intros c Hc. apply slug_char_spec in Hc as (-> & _). reflexivity.
Qed.

Lemma slug_word_or_hyphen s :
  allChars is_slug_char s = true -> allChars is_word_or_hyphen s = true.
Proof.
  apply allChars_impl. intros c Hc. now apply slug_char_spec in Hc as (_ & _ & Hc).
Qed.

Lemma word_not_upper_lower s :
  allChars is_slug_char s = true -> toLowerCase s = s.
Proof. intros H. apply toLowerCase_fixed, slug_not_upper, H. Qed.

(** X24.  Links do not resolve for other names.  When the slug of the
    generic name is not empty and the brand name holds a character other
    than a letter, a digit or an underscore (a space or a hyphen, say), or
    the generic name holds a character other than those and the hyphen, the
    lookup that an endpoint makes for the record's own link never returns
    the record: the slug has lost or replaced the character, and the lookup
    compares with the names as they are. *)
Theorem own_link_does_not_resolve (drugs : list DrugLabel) (drug : DrugLabel) :
  nonEmpty (createSlug (genericName (label drug))) = true ->
  allChars is_word (drugName drug) = false
  \/ allChars is_word_or_hyphen (genericName (label drug)) = false ->
  lookupIdentifier drugs (identifierOf drug) <> Some drug.
Proof.
  intros Hne Hbad. unfold lookupIdentifier.
  destruct (splitIdentifier_suffix (createSlug (drugName drug))
              (createSlug (genericName (label drug)))) as (p & r & Hsplit).
  fold (identifierOf drug) in Hsplit. rewrite Hsplit.
  destruct (splitIdentifier_some _ _ _ Hsplit) as [Hid Hp].
  assert (allChars is_slug_char (identifierOf drug) = true) as Hslug.
  { unfold identifierOf. rewrite !allChars_append, !createSlug_chars. reflexivity. }
  rewrite Hid in Hslug. destruct (allChars_slug_parts _ _ Hslug Hp) as [Hword Hq].
  set (q := r +:+ createSlug (genericName (label drug))) in *.
  assert (nonEmpty q = true) as Hq_ne by (apply nonEmpty_append_r, Hne).
  unfold getDrugByNames. cbn [truthy default from_option id]. rewrite Hq_ne.
  intros Hfind. apply find_holds in Hfind.
  apply andb_true_iff in Hfind as [H1 H2]. apply String.eqb_eq in H1, H2.
  destruct Hbad as [Hb|Hg].
  - rewrite <- allChars_normalizeName, H1, allChars_normalizeName, Hword in Hb.
    discriminate.
  - rewrite <- allChars_toLowerCase_word_or_hyphen, H2,
      allChars_toLowerCase_word_or_hyphen, (slug_word_or_hyphen q Hq) in Hg.
    discriminate.
Qed.

Lemma own_link_does_not_resolve_witness :
  nonEmpty (createSlug (genericName (label tylenolPm))) = true
  /\ allChars is_word (drugName tylenolPm) = false
  /\ identifierOf tylenolPm = "tylenol-pm-acetaminophen"
  /\ lookupIdentifier [aspirin; tylenolPm] (identifierOf tylenolPm) <> Some tylenolPm.
Proof.
  split; [reflexivity|]. split; [reflexivity|]. split; [reflexivity|].
  exact (own_link_does_not_resolve [aspirin; tylenolPm] tylenolPm eq_refl
           (or_introl eq_refl)).
Defined.

(** ** The search tool and the two levels of the cache *)

Lemma freshValue_emit key ev w : freshValue key (emit ev w) = freshValue key w.
Proof. reflexivity. Qed.

Lemma bind_newDate {A} (k : Z -> M A) w : (newDate ≫= k) w = k (clock w) w.
Proof. reflexivity. Qed.

Lemma bind_cacheService_set {A} key value ttl (k : unit -> M A) w :
  (cacheService_set key value ttl ≫= k) w
  = k tt (emit (EvCacheSet key ttl)
            {| cache := <[ key := {| entry_value := value;
                                     entry_expires := (clock w + ttl * 1000)%Z |} ]> (cache w);
               clock := clock w; calls := calls w; log := log w |}).
Proof. reflexivity. Qed.


(** X26.  The Gateway's entries outlive the orchestrator's.  When the
    content and the section list of a record are no longer in the cache
    (they are kept for an hour) while the title, the summary and the section
    map of the Gateway still are (they are kept for a day), a request
    rebuilds the content from these three entries without a provider call
    and without waiting, and stores it again. *)
Theorem getEnhancedContent_rebuilds_from_gateway_entries
    (JSON_parse_seo : string -> option SeoMetadata)
    (JSON_parse_sections : string -> option (gmap string string))
    (client : OpenAI) (drug : DrugLabel) (w : World)
    (seo : SeoMetadata) (summary : string) (enhancedData : gmap string string) :
  freshValue ("enhanced_content:" +:+ setId drug) w ≫= asContent = None ->
  freshValue ("enhanced_all_sections:" +:+ setId drug) w ≫= asSections = None ->
  freshValue ("seo_metadata:" +:+ setId drug) w = Some (CachedSeo seo) ->
  freshValue ("drug_summary:" +:+ setId drug) w = Some (CachedText summary) ->
  nonEmpty summary = true ->
  freshValue ("enhanced_sections:" +:+ setId drug) w = Some (CachedSectionMap enhancedData) ->
  exists w',
    getEnhancedContent JSON_parse_seo JSON_parse_sections (Some client) drug w
    = (Return {| ec_id := setId drug;
                 ec_drugName := drugName drug;
                 ec_genericName := genericName (label drug);
                 ec_slug := createSlug (drugName drug);
                 ec_seoTitle := seo_title seo;
                 ec_metaDescription := seo_description seo;
                 ec_enhancedSummary := summary;
                 ec_sections :=
                   map (withEnhancedContent enhancedData) (buildDrugSections drug);
                 ec_lastUpdated := clock w |}, w')
    /\ calls w' = calls w
    /\ clock w' = clock w
    /\ sleepsOf (log w') = sleepsOf (log w)
    /\ is_Some (freshValue ("enhanced_content:" +:+ setId drug) w').
Proof.
  intros Hc Ha Hseo Hsum Hne Hmap.
  unfold getEnhancedContent. rewrite bind_cacheService_get, Hc.
  unfold tryCatch, generateEnhancedContent.
  erewrite bind_return.
  2:{ unfold generateSEOMetadata.
      rewrite bind_cacheService_get, freshValue_emit, Hseo. reflexivity. }
  erewrite bind_return.
  2:{ unfold generateDrugSummary.
      rewrite bind_cacheService_get, !freshValue_emit, Hsum.
      cbn [mbind option_bind asText]. rewrite Hne. reflexivity. }
  erewrite bind_return.
  2:{ unfold enhanceAllSectionsAtOnce.
      rewrite bind_cacheService_get, !freshValue_emit, Ha. unfold tryCatch.
      erewrite bind_return.
      2:{ unfold enhanceAllSections.
          rewrite bind_cacheService_get, !freshValue_emit, Hmap. reflexivity. }
      rewrite bind_cacheService_set. reflexivity. }
  rewrite bind_newDate, bind_cacheService_set.
  eexists. split; [reflexivity|].
  cbn [calls clock log cache emit].
  split; [reflexivity|]. split; [reflexivity|]. split.
  - rewrite !sleepsOf_app. cbn [sleepsOf omap list_omap app]. now rewrite !app_nil_r.
  - unfold freshValue. cbn [calls clock log cache emit].
    rewrite lookup_insert. destruct (decide _); [|contradiction].
    cbn [entry_expires entry_value].
    assert ((clock w <? clock w + 3600 * 1000)%Z = true) as -> by (apply Z.ltb_lt; lia).
    eauto.
Qed.

Lemma getEnhancedContent_rebuilds_from_gateway_entries_witness :
  freshValue "enhanced_content:123" twoHoursLater ≫= asContent = None
  /\ freshValue "enhanced_all_sections:123" twoHoursLater ≫= asSections = None
  /\ freshValue "seo_metadata:123" twoHoursLater = Some (CachedSeo exampleSeo)
  /\ freshValue "drug_summary:123" twoHoursLater
     = Some (CachedText "Aspirin relieves pain and fever.")
  /\ freshValue "enhanced_sections:123" twoHoursLater
     = Some (CachedSectionMap {[ "indicationsAndUsage" := "Aspirin eases pain." ]})
  /\ exists content w',
       getEnhancedContent exampleParseSeo exampleParseSections (Some alwaysRateLimited)
         aspirin twoHoursLater = (Return content, w')
       /\ ec_seoTitle content = "Aspirin: uses and dosage"
       /\ calls w' = calls twoHoursLater.
Proof.
  split; [vm_compute; reflexivity|]. split; [vm_compute; reflexivity|].
  split; [vm_compute; reflexivity|]. split; [vm_compute; reflexivity|].
  split; [vm_compute; reflexivity|].
  destruct (getEnhancedContent_rebuilds_from_gateway_entries
              exampleParseSeo exampleParseSections alwaysRateLimited aspirin twoHoursLater
              exampleSeo "Aspirin relieves pain and fever."
              {[ "indicationsAndUsage" := "Aspirin eases pain." ]})
    as (w' & Hrun & Hcalls & _);
    [vm_compute; reflexivity..|].
  eexists _, w'. split; [exact Hrun|]. split; [reflexivity|exact Hcalls].
Defined.

(** ** The replies of the provider to the title call *)

(** X27.  A missing or empty reply to the title call is treated as a failed
    attempt, unlike a reply that is not JSON (which gives the template at
    once): when the provider resolves every call without text,
    [generateSEOMetadata] calls it three times, waits 500 ms twice and then
    throws [No response from OpenAI], leaving the cache as it was. *)
Theorem generateSEOMetadata_retries_empty_reply
    (JSON_parse_seo : string -> option SeoMetadata)
    (client : OpenAI) (drug : DrugLabel) (w : World) (reply : option string) :
  freshValue ("seo_metadata:" +:+ setId drug) w ≫= asSeo = None ->
  truthy reply = false ->
  (forall n, client n = Completed reply) ->
  exists w',
    generateSEOMetadata JSON_parse_seo (Some client) drug w
      = (Throw (Error "No response from OpenAI"), w')
    /\ calls w' = calls w + 3
    /\ sleepsOf (log w') = sleepsOf (log w) ++ [500; 500]%Z
    /\ cache w' = cache w.
Proof.
  intros Hmiss Hempty Hreply. unfold generateSEOMetadata.
  rewrite bind_cacheService_get, Hmiss, callOpenAIWithRetry_from_1.
  munfold. mcbn. rewrite !Hreply. mcbn. rewrite Hempty. mcbn.
  rewrite !Hreply. mcbn. rewrite Hempty. mcbn.
  rewrite !Hreply. mcbn. rewrite Hempty. mcbn.
  eexists. split; [reflexivity|]. cbn [calls log cache].
  split; [lia|]. split; [|reflexivity].
  rewrite !sleepsOf_app. cbn [sleepsOf omap list_omap]. rewrite !app_nil_r.
  rewrite <- app_assoc. reflexivity.
Qed.

Lemma generateSEOMetadata_retries_empty_reply_witness :
  freshValue "seo_metadata:123" startWorld ≫= asSeo = None
  /\ truthy (Some "") = false
  /\ exists w',
       generateSEOMetadata exampleParseSeo (Some (fun _ => Completed (Some ""))) aspirin
         startWorld
         = (Throw (Error "No response from OpenAI"), w')
       /\ calls w' = 3
       /\ sleepsOf (log w') = [500; 500]%Z
       /\ cache w' = ∅.
Proof.
  split; [reflexivity|]. split; [reflexivity|].
  exact (generateSEOMetadata_retries_empty_reply exampleParseSeo
           (fun _ => Completed (Some "")) aspirin startWorld (Some "")
           eq_refl eq_refl (fun _ => eq_refl)).
Defined.

(** ** The search and sitemap endpoints *)

(** X28.  The search and the sitemap endpoints.  For every injected
    service an error of the service is answered with the 500 exception and a
    fixed message ([Failed to search drugs], [Failed to generate sitemap]);
    on the real service neither endpoint ever raises, and both leave the
    state as it is: the search endpoint answers with the search on the
    loaded records, the sitemap endpoint with the sitemap of all of them. *)
Theorem search_and_sitemap_endpoints
    (drugService : DrugServiceApi) (ds_generateSitemap : M Json)
    (JSON_parse_seo : string -> option SeoMetadata)
    (JSON_parse_sections : string -> option (gmap string string))
    (openai : option OpenAI) (drugs : list DrugLabel) (toISODate : Z -> string)
    (searchDto : ToolArguments) (w : World) :
  DrugController.searchDrugs drugService searchDto w
  = match ds_searchDrugs drugService (Some searchDto) w with
    | (Return result, w') => (DrugController.Ok result, w')
    | (Throw _, w') =>
        (DrugController.Raise
           (DrugController.InternalServerErrorException "Failed to search drugs"), w')
    end
  /\ DrugController.getSitemap ds_generateSitemap w
     = match ds_generateSitemap w with
       | (Return result, w') => (DrugController.Ok result, w')
       | (Throw _, w') =>
           (DrugController.Raise
              (DrugController.InternalServerErrorException "Failed to generate sitemap"),
            w')
       end
  /\ DrugController.searchDrugs
       (service JSON_parse_seo JSON_parse_sections openai drugs) searchDto w
     = (DrugController.Ok (DrugService.searchDrugs drugs searchDto), w)
  /\ exists entries,
       DrugController.getSitemap (generateSitemap toISODate drugs) w
       = (DrugController.Ok
            (JObj [("urls", JArr entries);
                   ("totalUrls", JNum (Z.of_nat (length drugs)))]), w)
       /\ length entries = length drugs.
Proof.
  split; [|split; [|split]].
  - unfold DrugController.searchDrugs, DrugController.orInternalError, DrugController.await.
    destruct (ds_searchDrugs drugService (Some searchDto) w) as [[result|error] w'];
      reflexivity.
  - unfold DrugController.getSitemap, DrugController.orInternalError, DrugController.await.
    destruct (ds_generateSitemap w) as [[result|error] w']; reflexivity.
  - reflexivity.
  - exists (map (sitemapEntry toISODate (clock w)) drugs). split; [|apply length_map].
    unfold DrugController.getSitemap, DrugController.orInternalError, DrugController.await,
      generateSitemap.
    munfold. now rewrite length_map.
Qed.

(** ** The texts of the section batch *)

Lemma collapseSpaces_singleSpaced s : forall inRun,
  singleSpaced inRun (collapseSpaces inRun s) = true.
Proof.
  induction s as [|c r IH]; intros inRun; [reflexivity|]. cbn [collapseSpaces].
  destruct (is_space c) eqn:Hc.
  - destruct inRun; [apply IH|]. cbn. apply IH.
  - cbn [singleSpaced]. rewrite Hc. apply IH.
Qed.

Lemma singleSpaced_weaken s : singleSpaced true s = true -> singleSpaced false s = true.
Proof.
  destruct s as [|c r]; [reflexivity|]. cbn [singleSpaced].
  destruct (is_space c); [|auto]. now rewrite andb_false_r.
Qed.

Lemma trimStart_singleSpaced s : forall afterSpace,
  singleSpaced afterSpace s = true -> singleSpaced true (trimStart s) = true.
Proof.
  induction s as [|c r IH]; intros afterSpace H; [reflexivity|].
  cbn [trimStart]. cbn [singleSpaced] in H. destruct (is_space c) eqn:Hc.
  - apply andb_true_iff in H as [_ H]. exact (IH true H).
  - cbn [singleSpaced]. now rewrite Hc.
Qed.

Lemma trimEnd_singleSpaced s : forall afterSpace,
  singleSpaced afterSpace s = true -> singleSpaced afterSpace (trimEnd s) = true.
Proof.
  induction s as [|c r IH]; intros afterSpace H; [reflexivity|].
  cbn [trimEnd]. cbn [singleSpaced] in H.
  destruct (trimEnd r) as [|c' r'] eqn:E.
  - destruct (is_space c) eqn:Hc; [reflexivity|]. cbn [singleSpaced]. now rewrite Hc.
  - cbn [singleSpaced]. destruct (is_space c) eqn:Hc.
    + apply andb_true_iff in H as [H1 H2]. rewrite H1. exact (IH true H2).
    + exact (IH false H).
Qed.

Lemma substring_singleSpaced m : forall s afterSpace,
  singleSpaced afterSpace s = true ->
  singleSpaced afterSpace (String.substring 0 m s) = true.
Proof.
  induction m as [|m IH]; intros s afterSpace H.
  - destruct s; reflexivity.
  - destruct s as [|c r]; [reflexivity|]. cbn [String.substring singleSpaced] in *.
    destruct (is_space c).
    + apply andb_true_iff in H as [H1 H2]. rewrite H1. exact (IH r true H2).
    + exact (IH r false H).
Qed.

Lemma substring_length_le m : forall s, String.length (String.substring 0 m s) <= m.
Proof.
  induction m as [|m IH]; intros s.
  - destruct s; cbn; lia.
  - destruct s as [|c r]; cbn; [lia|]. specialize (IH r). lia.
Qed.

Lemma stripHtml_singleSpaced html : singleSpaced true (stripHtml html) = true.
Proof.
  unfold stripHtml, trim.
  apply trimEnd_singleSpaced, (trimStart_singleSpaced _ false), collapseSpaces_singleSpaced.
Qed.

(** X29.  The texts of the section batch.  The prompt lists the sections
    that have text, in the order of the table, and each text is the section
    with its tags removed and its entities decoded, shown tidily: at most
    1000 characters, no line break or tab, no two spaces in a row and no
    space at the start. *)
Theorem availableSectionEntries_are_tidy (drug : DrugLabel) :
  map fst (availableSectionEntries drug) = availableSections drug
  /\ Forall (fun entry =>
               String.length (snd entry) <= 1000
               /\ singleSpaced true (snd entry) = true)
            (availableSectionEntries drug).
Proof.
  unfold availableSectionEntries. split.
  - rewrite map_map. cbn [fst]. apply map_id.
  - apply Forall_forall. intros entry Hin.
    change (map ?f ?l) with (f <$> l) in Hin.
    apply list_elem_of_fmap in Hin as (key & -> & _). cbn [snd]. split.
    + apply substring_length_le.
    + apply substring_singleSpaced, stripHtml_singleSpaced.
Qed.

Lemma stripTags_plain s :
  allChars (fun c => negb (Ascii.eqb c "<")) s = true -> stripTags false s = s.
Proof.
  induction s as [|c r IH]; [reflexivity|]. cbn [allChars stripTags].
  intros [Hc Hr]%andb_true_iff. apply negb_true_iff in Hc. rewrite Hc. cbn [andb].
  now rewrite IH.
Qed.

Lemma replaceAll_plain pattern replacement s :
  allChars (fun c => negb (Ascii.eqb c "&")) s = true ->
  replaceAll (String "&" pattern) replacement 0 s = s.
Proof.
  induction s as [|c r IH]; [reflexivity|]. cbn [allChars replaceAll String.prefix].
  intros [Hc Hr]%andb_true_iff. apply negb_true_iff, Ascii.eqb_neq in Hc.
  destruct (ascii_dec "&" c) as [E|_]; [congruence|]. now rewrite IH.
Qed.

Lemma collapseSpaces_plain s :
  allChars (fun c => negb (is_space c)) s = true ->
  forall inRun, collapseSpaces inRun s = s.
Proof.
  induction s as [|c r IH]; [reflexivity|]. cbn [allChars collapseSpaces].
  intros [Hc Hr]%andb_true_iff inRun. apply negb_true_iff in Hc. now rewrite Hc, IH.
Qed.

(** X30.  On a text without mark-up [stripHtml] only tidies the white
    space: when the text holds no [<] and no [&], the result is the text with
    every run of white space turned into one space and the ends trimmed; when
    it holds no white space either, the text is returned as it is. *)
Theorem stripHtml_without_markup (text : string) :
  allChars (fun c => negb (Ascii.eqb c "<")) text = true ->
  allChars (fun c => negb (Ascii.eqb c "&")) text = true ->
  stripHtml text = trim (collapseSpaces false text)
  /\ (allChars (fun c => negb (is_space c)) text = true -> stripHtml text = text).
Proof.
  intros Ht Ha.
  assert (stripHtml text = trim (collapseSpaces false text)) as Heq.
  { unfold stripHtml. rewrite (stripTags_plain text Ht).
    now rewrite !(replaceAll_plain _ _ text Ha). }
  split; [exact Heq|]. intros Hs. rewrite Heq, (collapseSpaces_plain text Hs).
  now apply trim_fixed.
Qed.

Lemma stripHtml_without_markup_witness :
  allChars (fun c => negb (Ascii.eqb c "<")) "Pain   relief " = true
  /\ allChars (fun c => negb (Ascii.eqb c "&")) "Pain   relief " = true
  /\ stripHtml "Pain   relief " = "Pain relief".
Proof.
  split; [reflexivity|]. split; [reflexivity|].
  rewrite (proj1 (stripHtml_without_markup "Pain   relief " eq_refl eq_refl)).
  reflexivity.
Defined.

(** ** The retry schedule of the Gateway operations *)

Lemma isRateLimit_spec e : isRateLimit e = rateLimitError e.
Proof.
  unfold isRateLimit, rateLimitError.
  destruct (err_status e) as [s|], (err_code e) as [c|]; cbn.
  - destruct (Z.eqb_spec s 429) as [->|Hs].
    + rewrite bool_decide_true by auto. reflexivity.
    + destruct (String.eqb_spec c "rate_limit_exceeded") as [->|Hc].
      * rewrite bool_decide_true by auto. reflexivity.
      * rewrite bool_decide_false; [reflexivity|]. intros [[=]|[=]]; contradiction.
  - destruct (Z.eqb_spec s 429) as [->|Hs].
    + rewrite bool_decide_true by auto. reflexivity.
    + rewrite bool_decide_false; [reflexivity|]. intros [[=]|[=]]; contradiction.
  - destruct (String.eqb_spec c "rate_limit_exceeded") as [->|Hc].
    + rewrite bool_decide_true by auto. reflexivity.
    + rewrite bool_decide_false; [reflexivity|]. intros [[=]|[=]]; contradiction.
  - rewrite bool_decide_false; [reflexivity|]. intros [[=]|[=]].
Qed.

Lemma specRetryDelay_1 e : specRetryDelay e 1 = (if isRateLimit e then 1000 else 500)%Z.
Proof. unfold specRetryDelay. rewrite isRateLimit_spec. now destruct (rateLimitError e). Qed.

Lemma specRetryDelay_2 e : specRetryDelay e 2 = (if isRateLimit e then 2000 else 500)%Z.
Proof. unfold specRetryDelay. rewrite isRateLimit_spec. now destruct (rateLimitError e). Qed.

Lemma create_world client w :
  snd (create client w)
  = emit EvProviderCall
      {| cache := cache w; clock := clock w; calls := S (calls w); log := log w |}.
Proof. unfold create. destruct (client (calls w)); reflexivity. Qed.

(** The retry loop around an operation that makes one provider call and
    settles its reply as [attempt] says. *)
Lemma retry_exact {T} key (wrap : T -> CacheValue)
    (attempt : Reply -> Outcome (T * bool)) client (operation : M T) drug :
  (forall w,
     operation w
     = match attempt (client (calls w)) with
       | Throw e => (Throw e, snd (create client w))
       | Return (v, stored) =>
           (Return v,
            if stored
            then snd (cacheService_set key (wrap v) 86400 (snd (create client w)))
            else snd (create client w))
       end) ->
  forall w, retriedRun key wrap attempt client w (callOpenAIWithRetry operation drug 1 w).
Proof.
  intros Hop w. rewrite callOpenAIWithRetry_from_1.
  unfold retriedRun, scheduleOf, specRetrySchedule, followsSchedule.
  replace (calls w + 1 - 1) with (calls w) by lia.
  replace (calls w + 2 - 1) with (S (calls w)) by lia.
  replace (calls w + 3 - 1) with (S (S (calls w))) by lia.
  rewrite (Hop w), create_world.
  destruct (attempt (client (calls w))) as [[v stored]|e1] eqn:A1.
  { cbn [failureOf sch_attempts sch_waits sch_thrown fst snd].
    replace (calls w + 1 - 1) with (calls w) by lia. rewrite A1.
    destruct stored; cbn; rewrite ?sleepsOf_app; cbn; rewrite ?app_nil_r;
      (split; [split; [lia|split; [reflexivity|eauto]]|split; reflexivity]). }
  cbn [failureOf].
  set (w1 := snd (sleep _ _)).
  assert (calls w1 = S (calls w)) as Hc1 by reflexivity.
  rewrite (Hop w1), create_world, Hc1.
  destruct (attempt (client (S (calls w)))) as [[v stored]|e2] eqn:A2.
  { cbn [failureOf sch_attempts sch_waits sch_thrown fst snd].
    replace (calls w + 2 - 1) with (S (calls w)) by lia. rewrite A2.
    rewrite specRetryDelay_1.
    destruct stored; cbn; rewrite ?sleepsOf_app; cbn; rewrite ?app_nil_r;
      (split; [split; [lia|split; [reflexivity|eauto]]|split; reflexivity]). }
  cbn [failureOf].
  set (w2 := snd (sleep _ _)).
  assert (calls w2 = S (S (calls w))) as Hc2 by reflexivity.
  rewrite (Hop w2), create_world, Hc2.
  cbn [sch_attempts sch_waits sch_thrown].
  replace (calls w + 3 - 1) with (S (S (calls w))) by lia.
  rewrite specRetryDelay_1, specRetryDelay_2.
  destruct (attempt (client (S (S (calls w))))) as [[v stored]|e3] eqn:A3.
  - cbn [failureOf fst snd].
    destruct stored; cbn; rewrite ?sleepsOf_app; cbn; rewrite ?app_nil_r;
      rewrite <- ?app_assoc; cbn;
      (split; [split; [lia|split; [reflexivity|eauto]]|split; reflexivity]).
  - cbn. rewrite ?sleepsOf_app. cbn. rewrite ?app_nil_r. rewrite <- ?app_assoc. cbn.
    split; [split; [lia|split; reflexivity]|split; reflexivity].
Qed.

Lemma retriedRun_after_get {T} key' key (wrap : T -> CacheValue) attempt client w
    (run : Outcome T * World) :
  retriedRun key wrap attempt client (emit (EvCacheGet key') w) run ->
  retriedRun key wrap attempt client w run.
Proof.
  unfold retriedRun, scheduleOf, followsSchedule. rewrite sleepsOf_emit_get.
  intros H. exact H.
Qed.


Section GatewayRuns.

Variable JSON_parse_seo : string -> option SeoMetadata.
Variable JSON_parse_sections : string -> option (gmap string string).
Variable client : OpenAI.

Ltac attempt_cases :=
  intros ?w; rewrite create_world; unfold mbind, M_bind, create;
  match goal with
  | |- context [client (calls ?w)] => destruct (client (calls w)) as [?e|?content]
  end;
  cbn -[trim nonEmpty truthy orUndefined String.append];
  repeat (break_match; cbn -[trim nonEmpty truthy orUndefined String.append]);
  try reflexivity.

Lemma generateSEOMetadata_run drug w :
  freshValue ("seo_metadata:" +:+ setId drug) w ≫= asSeo = None ->
  retriedRun ("seo_metadata:" +:+ setId drug) CachedSeo (seoAttempt JSON_parse_seo drug)
    client w (generateSEOMetadata JSON_parse_seo (Some client) drug w).
Proof.
  intros Hmiss. unfold generateSEOMetadata. rewrite bind_cacheService_get, Hmiss.
  eapply retriedRun_after_get; apply retry_exact. unfold seoAttempt. attempt_cases.
Qed.

Lemma generateDrugSummary_run drug w :
  freshValue ("drug_summary:" +:+ setId drug) w ≫= asText = None ->
  retriedRun ("drug_summary:" +:+ setId drug) CachedText (summaryAttempt drug)
    client w (generateDrugSummary (Some client) drug w).
Proof.
  intros Hmiss. unfold generateDrugSummary. rewrite bind_cacheService_get, Hmiss.
  eapply retriedRun_after_get; apply retry_exact. unfold summaryAttempt. attempt_cases.
Qed.

Lemma enhanceAllSections_run drug w :
  freshValue ("enhanced_sections:" +:+ setId drug) w ≫= asSectionMap = None ->
  availableSections drug <> [] ->
  retriedRun ("enhanced_sections:" +:+ setId drug) CachedSectionMap
    (sectionsAttempt JSON_parse_sections)
    client w (enhanceAllSections JSON_parse_sections (Some client) drug w).
Proof.
  intros Hmiss Htext. unfold enhanceAllSections. rewrite bind_cacheService_get, Hmiss.
  destruct (availableSections drug) as [|key keys]; [congruence|]. cbn [length Nat.eqb].
  eapply retriedRun_after_get; apply retry_exact. unfold sectionsAttempt. attempt_cases.
Qed.

Lemma enhanceSection_run content drug w :
  nonEmpty content = true ->
  freshValue ("enhanced_section:" +:+ setId drug +:+ ":" +:+ hashContent content) w
    ≫= asText = None ->
  retriedRun ("enhanced_section:" +:+ setId drug +:+ ":" +:+ hashContent content)
    CachedText sectionAttempt
    client w (enhanceSection (Some client) content drug w).
Proof.
  intros Hcontent Hmiss. unfold enhanceSection.
  rewrite Hcontent, bind_cacheService_get, Hmiss.
  eapply retriedRun_after_get; apply retry_exact. unfold sectionAttempt. attempt_cases.
Qed.

End GatewayRuns.



(** ** The section batch *)

(** C6 (counterexample).  With a provider that rejects every call,
    [enhanceAllSections] throws the rate-limit error after three calls: it
    returns no map, empty or not.  With a provider whose reply holds one of
    the two sections that were asked for, it returns that reply as it is: a
    map with one of the two requested keys. *)
Lemma enhanceAllSections_throws_counterexample :
  (exists w',
     enhanceAllSections exampleParseSections (Some alwaysRateLimited) aspirin startWorld
       = (Throw rateLimited, w')
     /\ calls w' = 3)
  /\ availableSections aspirin = ["indicationsAndUsage"; "dosageAndAdministration"]
  /\ (exists w',
        enhanceAllSections exampleParseSections (Some enhancesHalf) aspirin startWorld
          = (Return {[ "indicationsAndUsage" := "Aspirin eases pain." ]}, w')
        /\ calls w' = 1).
Proof.
  split; [|split].
  - eexists. split; vm_compute; reflexivity.
  - vm_compute. reflexivity.
  - eexists. split; vm_compute; reflexivity.
Qed.

(** C6 (amended).  [enhanceAllSections] returns the empty map when no API
    key is configured or no section has text, and the stored map on a cache
    hit, in each case without a provider call.  Otherwise it goes through
    the retry loop: it returns the parsed reply of the first of at most
    three attempts that does not fail, as it is and whatever its keys, after
    storing it; or, after three failed attempts, it throws the error of the
    third and leaves the cache as it was.  Its caller
    [enhanceAllSectionsAtOnce] never throws: it catches that error and
    returns the sections unenhanced. *)
Theorem enhanceAllSections_returns_or_throws
    (JSON_parse_sections : string -> option (gmap string string))
    (openai : option OpenAI) (drug : DrugLabel) (w : World) :
  match enhanceAllSections JSON_parse_sections openai drug w with
  | (Return m, w') =>
      (openai = None /\ m = ∅)
      \/ freshValue ("enhanced_sections:" +:+ setId drug) w ≫= asSectionMap = Some m
      \/ (availableSections drug = [] /\ m = ∅)
      \/ (exists client k text,
            openai = Some client /\ k < 3
            /\ client (calls w + k) = Completed text
            /\ JSON_parse_sections (default "" text) = Some m)
  | (Throw e, w') =>
      exists client,
        openai = Some client
        /\ availableSections drug <> []
        /\ calls w' = calls w + 3
        /\ cache w' = cache w
        /\ (client (calls w + 2) = Rejected e
            \/ exists text, client (calls w + 2) = Completed text
                            /\ JSON_parse_sections (default "" text) = None
                            /\ e = syntaxError)
  end
  /\ (forall sections,
        exists res w',
          enhanceAllSectionsAtOnce JSON_parse_sections openai sections drug w
            = (Return res, w'))
  /\ (forall sections e w',
        freshValue ("enhanced_all_sections:" +:+ setId drug) w ≫= asSections = None ->
        enhanceAllSections JSON_parse_sections openai drug
          (emit (EvCacheGet ("enhanced_all_sections:" +:+ setId drug)) w) = (Throw e, w') ->
        enhanceAllSectionsAtOnce JSON_parse_sections openai sections drug w
          = (Return sections, w'))
  /\ enhanceAllSections JSON_parse_sections None drug w = (Return ∅, w)
  /\ (forall client : OpenAI,
        let key := "enhanced_sections:" +:+ setId drug in
        let run := enhanceAllSections JSON_parse_sections (Some client) drug w in
        match freshValue key w ≫= asSectionMap with
        | Some hit => run = (Return hit, emit (EvCacheGet key) w)
        | None =>
            match availableSections drug with
            | [] => run = (Return ∅, emit (EvCacheGet key) w)
            | _ :: _ =>
                retriedRun key CachedSectionMap (sectionsAttempt JSON_parse_sections)
                  client w run
            end
        end).
Proof.
  split; [apply enhanceAllSections_outcomes|]. split; [|split; [|split]].
  - intros sections. apply enhanceAllSectionsAtOnce_returns.
  - intros sections e w'. apply enhanceAllSectionsAtOnce_absorbs.
  - reflexivity.
  - intros client. cbn zeta.
    destruct (freshValue ("enhanced_sections:" +:+ setId drug) w ≫= asSectionMap)
      as [hit|] eqn:Hhit.
    + unfold enhanceAllSections. rewrite bind_cacheService_get, Hhit. reflexivity.
    + destruct (availableSections drug) as [|key keys] eqn:Htext.
      * unfold enhanceAllSections. rewrite bind_cacheService_get, Hhit, Htext. reflexivity.
      * apply enhanceAllSections_run; [exact Hhit|]. rewrite Htext. discriminate.
Qed.

Lemma enhanceAllSections_returns_or_throws_witness :
  freshValue "enhanced_all_sections:123" startWorld ≫= asSections = None
  /\ (exists w',
        enhanceAllSections exampleParseSections (Some alwaysRateLimited) aspirin
          (emit (EvCacheGet "enhanced_all_sections:123") startWorld)
          = (Throw rateLimited, w')
        /\ enhanceAllSectionsAtOnce exampleParseSections (Some alwaysRateLimited)
             (buildDrugSections aspirin) aspirin startWorld
           = (Return (buildDrugSections aspirin), w'))
  /\ retriedRun "enhanced_sections:123" CachedSectionMap
       (sectionsAttempt exampleParseSections) enhancesHalf startWorld
       (enhanceAllSections exampleParseSections (Some enhancesHalf) aspirin startWorld).
Proof.
  split; [reflexivity|]. split.
  - eexists. split; [vm_compute; reflexivity|].
    apply (proj1 (proj2 (proj2 (enhanceAllSections_returns_or_throws exampleParseSections
                                  (Some alwaysRateLimited) aspirin startWorld)))
             (buildDrugSections aspirin) rateLimited).
    + reflexivity.
    + vm_compute. reflexivity.
  - exact (proj2 (proj2 (proj2 (proj2
             (enhanceAllSections_returns_or_throws exampleParseSections
                (Some enhancesHalf) aspirin startWorld)))) enhancesHalf).
Defined.

(** ** The cache entries of the Gateway *)

(** C8 (amended).  With an API key configured, each of the three Gateway
    operations first reads the cache under its own key; on a hit it returns
    the stored value without a provider call and leaves the cache as it is.
    On a miss it goes through the retry loop, and the cache changes exactly
    as the last attempt says: a title and description parsed from a reply, a
    summary (the template too, after a blank reply) and a section map parsed
    from a reply are stored under the key of the operation for 86400 seconds
    before they are returned; the title template after a reply that is not
    JSON is returned without being stored; and nothing is stored when the
    operation throws.  The empty map of a record without text is returned
    without a provider call and without being stored. *)
Theorem gateway_cache_aside
    (JSON_parse_seo : string -> option SeoMetadata)
    (JSON_parse_sections : string -> option (gmap string string))
    (client : OpenAI) (drug : DrugLabel) :
  cacheAside ("seo_metadata:" +:+ setId drug) CachedSeo asSeo
    (fun v => v = getFallbackSEOMetadata drug)
    (generateSEOMetadata JSON_parse_seo (Some client) drug)
  /\ cacheAside ("drug_summary:" +:+ setId drug) CachedText asText
       (fun _ => False)
       (generateDrugSummary (Some client) drug)
  /\ cacheAside ("enhanced_sections:" +:+ setId drug) CachedSectionMap asSectionMap
       (fun v => v = ∅ /\ availableSections drug = [])
       (enhanceAllSections JSON_parse_sections (Some client) drug)
  /\ (forall w : World,
        let key := "seo_metadata:" +:+ setId drug in
        let run := generateSEOMetadata JSON_parse_seo (Some client) drug w in
        match freshValue key w ≫= asSeo with
        | Some hit => run = (Return hit, emit (EvCacheGet key) w)
        | None => retriedRun key CachedSeo (seoAttempt JSON_parse_seo drug) client w run
        end)
  /\ (forall w : World,
        let key := "drug_summary:" +:+ setId drug in
        let run := generateDrugSummary (Some client) drug w in
        match freshValue key w ≫= asText with
        | Some hit => run = (Return hit, emit (EvCacheGet key) w)
        | None => retriedRun key CachedText (summaryAttempt drug) client w run
        end)
  /\ (forall w : World,
        let key := "enhanced_sections:" +:+ setId drug in
        let run := enhanceAllSections JSON_parse_sections (Some client) drug w in
        match freshValue key w ≫= asSectionMap with
        | Some hit => run = (Return hit, emit (EvCacheGet key) w)
        | None =>
            match availableSections drug with
            | [] => run = (Return ∅, emit (EvCacheGet key) w)
            | _ :: _ =>
                retriedRun key CachedSectionMap (sectionsAttempt JSON_parse_sections)
                  client w run
            end
        end).
Proof.
  split; [|split; [|split; [|split; [|split]]]].
  - apply generateSEOMetadata_cacheAside.
  - apply generateDrugSummary_cacheAside.
  - apply enhanceAllSections_cacheAside.
  - intros w. cbn zeta.
    destruct (freshValue ("seo_metadata:" +:+ setId drug) w ≫= asSeo) as [hit|] eqn:Hhit.
    + unfold generateSEOMetadata. rewrite bind_cacheService_get, Hhit. reflexivity.
    + apply generateSEOMetadata_run, Hhit.
  - intros w. cbn zeta.
    destruct (freshValue ("drug_summary:" +:+ setId drug) w ≫= asText) as [hit|] eqn:Hhit.
    + unfold generateDrugSummary. rewrite bind_cacheService_get, Hhit. reflexivity.
    + apply generateDrugSummary_run, Hhit.
  - intros w. cbn zeta.
    destruct (freshValue ("enhanced_sections:" +:+ setId drug) w ≫= asSectionMap)
      as [hit|] eqn:Hhit.
    + unfold enhanceAllSections. rewrite bind_cacheService_get, Hhit. reflexivity.
    + destruct (availableSections drug) as [|key keys] eqn:Htext.
      * unfold enhanceAllSections. rewrite bind_cacheService_get, Hhit, Htext. reflexivity.
      * apply enhanceAllSections_run; [exact Hhit|]. rewrite Htext. discriminate.
Qed.

Lemma gateway_cache_aside_witness :
  (let run := generateSEOMetadata exampleParseSeo (Some alwaysRefuses) aspirin startWorld in
   fst run = Return (getFallbackSEOMetadata aspirin)
   /\ cache (snd run) = cache startWorld)
  /\ (let run := generateSEOMetadata exampleParseSeo (Some titleThenRateLimited) aspirin
                   startWorld in
      fst run = Return exampleSeo
      /\ cache (snd run)
         = <[ "seo_metadata:123" := {| entry_value := CachedSeo exampleSeo;
                                       entry_expires := (clock (snd run) + 86400 * 1000)%Z |} ]>
             (cache startWorld)).
Proof.
  split.
  - exact (proj2 (proj1 (proj2 (proj2 (proj2
             (gateway_cache_aside exampleParseSeo exampleParseSections alwaysRefuses
                aspirin)))) startWorld)).
  - exact (proj2 (proj1 (proj2 (proj2 (proj2
             (gateway_cache_aside exampleParseSeo exampleParseSections titleThenRateLimited
                aspirin)))) startWorld)).
Defined.

(** ** The single-section call *)

(** X12.  The deprecated single-section call follows the cache-aside
    discipline on its own key, which holds the hash of the text: it reads
    the key first and on a hit returns the stored text without a provider
    call.  On a miss it goes through the retry loop, and the cache changes
    exactly as the last attempt says: a reply that is not blank is trimmed,
    stored under the key for 86400 seconds and returned; a missing or blank
    reply is returned as the empty text and the cache is left as it was; and
    nothing is stored when the call throws.  For an empty text, or without
    an API key, it returns the empty text and touches nothing. *)
Theorem enhanceSection_cache_aside (client : OpenAI) (content : string) (drug : DrugLabel) :
  (if nonEmpty content
   then cacheAside ("enhanced_section:" +:+ setId drug +:+ ":" +:+ hashContent content)
          CachedText asText (fun v => v = "")
          (enhanceSection (Some client) content drug)
   else forall w, enhanceSection (Some client) content drug w = (Return "", w))
  /\ (forall w, enhanceSection None content drug w = (Return "", w))
  /\ (forall w : World,
        let key := "enhanced_section:" +:+ setId drug +:+ ":" +:+ hashContent content in
        let run := enhanceSection (Some client) content drug w in
        if nonEmpty content
        then match freshValue key w ≫= asText with
             | Some hit => run = (Return hit, emit (EvCacheGet key) w)
             | None => retriedRun key CachedText sectionAttempt client w run
             end
        else run = (Return "", w))
  /\ (forall (w : World) (reply : option string),
        let key := "enhanced_section:" +:+ setId drug +:+ ":" +:+ hashContent content in
        let run := enhanceSection (Some client) content drug w in
        nonEmpty content = true ->
        freshValue key w ≫= asText = None ->
        client (calls w) = Completed reply ->
        calls (snd run) = S (calls w)
        /\ fst run = Return (default "" (trim <$> reply))
        /\ cache (snd run)
           = if nonEmpty (default "" (trim <$> reply))
             then <[ key := {| entry_value := CachedText (default "" (trim <$> reply));
                               entry_expires := (clock w + 86400 * 1000)%Z |} ]> (cache w)
             else cache w).
Proof.
  split; [|split; [reflexivity|split]].
  - unfold enhanceSection.
    destruct (nonEmpty content); [|reflexivity].
    apply cacheAside_intro. apply retry_caches. step_closure.
    left. split; [|reflexivity].
    match goal with
    | H : nonEmpty _ = false |- _ =>
        unfold nonEmpty in H; apply negb_false_iff, String.eqb_eq in H; exact H
    end.
  - intros w. cbn zeta. destruct (nonEmpty content) eqn:Hcontent; [|
      unfold enhanceSection; rewrite Hcontent; reflexivity].
    destruct (freshValue _ w ≫= asText) as [hit|] eqn:Hhit.
    + unfold enhanceSection. rewrite Hcontent, bind_cacheService_get, Hhit. reflexivity.
    + apply enhanceSection_run; assumption.
  - intros w reply. cbn zeta. intros Hcontent Hmiss Hreply.
    unfold enhanceSection.
    rewrite Hcontent, bind_cacheService_get, Hmiss, callOpenAIWithRetry_from_1.
    unfold mbind, M_bind, create. cbn [calls emit]. rewrite Hreply.
    cbn -[trim nonEmpty String.append hashContent default fmap].
    destruct (nonEmpty (default "" (trim <$> reply)));
      cbn -[trim nonEmpty String.append hashContent default fmap]; auto.
Qed.

Lemma enhanceSection_cache_aside_witness :
  nonEmpty "Pain relief" = true
  /\ (let run := enhanceSection (Some (fun _ => Completed (Some "  "))) "Pain relief"
                   aspirin startWorld in
      calls (snd run) = 1 /\ fst run = Return "" /\ cache (snd run) = ∅)
  /\ (let run := enhanceSection (Some (fun _ => Completed (Some " Eases pain. ")))
                   "Pain relief" aspirin startWorld in
      calls (snd run) = 1
      /\ fst run = Return "Eases pain."
      /\ entry_value <$> cache (snd run) !! ("enhanced_section:123:" +:+ hashContent "Pain relief")
         = Some (CachedText "Eases pain.")).
Proof.
  split; [reflexivity|]. split.
  - exact (proj2 (proj2 (proj2 (enhanceSection_cache_aside
                                  (fun _ => Completed (Some "  ")) "Pain relief" aspirin)))
             startWorld (Some "  ") eq_refl eq_refl eq_refl).
  - destruct (proj2 (proj2 (proj2 (enhanceSection_cache_aside
                                     (fun _ => Completed (Some " Eases pain. "))
                                     "Pain relief" aspirin)))
                startWorld (Some " Eases pain. ") eq_refl eq_refl eq_refl)
      as (Hcalls & Hvalue & Hcache).
    cbn zeta in *. split; [exact Hcalls|]. split; [exact Hvalue|].
    refine (eq_trans (f_equal (fun c => entry_value <$> c !! _) Hcache) _).
    vm_compute. reflexivity.
Defined.
